(** * Sales system: authorization gate and sale ledger

    A shallow embedding of [app/user_auth.py] and [app/sales.py]:
    the request handlers become functions over an explicit database
    value, an explicit token table and an explicit session, and the
    properties of the sale transaction and of the authorization gate
    are stated and proved over these functions. *)

From Stdlib Require Import ZArith String Ascii List Lia Bool.
From Stdlib Require Import Floats.SpecFloat.
From stdpp Require Import base option list gmap strings pretty.

Open Scope Z_scope.

Set Warnings "-register-all".

(** ** Python values and the built-ins the handlers use *)

Module Py.

(** A JSON value as Python holds it: [None], a [bool], an [int], a
    [float], a [str], a [list] or a [dict].  [F] is the type of the
    floats.  A dict is kept as its items in insertion order, with
    distinct keys. *)
Inductive value (F : Type) : Type :=
  | JNull
  | JBool (b : bool)
  | JInt (z : Z)
  | JFloat (f : F)
  | JStr (s : string)
  | JList (items : list (value F))
  | JObj (fields : list (string * value F)).

Arguments JNull {F}.
Arguments JBool {F} b.
Arguments JInt {F} z.
Arguments JFloat {F} f.
Arguments JStr {F} s.
Arguments JList {F} items.
Arguments JObj {F} fields.

(** What [request.get_json] hands to a handler.  JSON numbers with a
    fraction or an exponent (Python floats) are outside the model: a
    request holds no float. *)
Abbreviation json := (value Empty_set).

(** What a handler answers.  No handler copies a value of the request
    into its answer; the floats of an answer are the ones the database
    engine computes, IEEE 754 doubles. *)
Abbreviation answer := (value spec_float).

(** The exceptions that can reach a handler.  All of them derive from
    Python's [Exception]; [IntegrityError], [ProgrammingError] and
    [OperationalError] are the ones of the [sqlite3] module. *)
Inductive exn : Type :=
  | AttributeError (msg : string)
  | TypeError (msg : string)
  | OverflowError (msg : string)
  | AssertionError
  | IntegrityError (msg : string)
  | ProgrammingError (msg : string)
  | OperationalError (msg : string).

(** [str(exc)] *)
Definition str_exn (e : exn) : string :=
  match e with
  | AttributeError m | TypeError m | OverflowError m
  | IntegrityError m | ProgrammingError m | OperationalError m => m
  | AssertionError => EmptyString
  end.

(** [bool(v)]: what [if not v] tests. *)
Definition truthy (v : json) : bool :=
  match v with
  | JNull => false
  | JBool b => b
  | JInt z => negb (z =? 0)
  | JFloat f => match f with end
  | JStr s => negb (String.eqb s EmptyString)
  | JList l => match l with [] => false | _ => true end
  | JObj f => match f with [] => false | _ => true end
  end.

(** [type(v).__name__] *)
Definition type_name (v : json) : string :=
  match v with
  | JNull => "NoneType"
  | JBool _ => "bool"
  | JInt _ => "int"
  | JFloat _ => "float"
  | JStr _ => "str"
  | JList _ => "list"
  | JObj _ => "dict"
  end.

(** [isinstance(v, list)] *)
Definition is_list (v : json) : bool :=
  match v with JList _ => true | _ => false end.

(** Iterating a list value. *)
Definition items_of (v : json) : list json :=
  match v with JList l => l | _ => [] end.

(** Lookup in the items of a dict. *)
Fixpoint assoc {F} (k : string) (fields : list (string * value F))
    : option (value F) :=
  match fields with
  | [] => None
  | (k', v) :: rest => if String.eqb k k' then Some v else assoc k rest
  end.

(** [d.get(k)] on a dict: [None] when the key is absent. *)
Definition dict_get {F} (fields : list (string * value F)) (k : string)
    : value F :=
  match assoc k fields with
  | Some v => v
  | None => JNull
  end.

(** [k in d] *)
Definition dict_has {F} (fields : list (string * value F)) (k : string) : bool :=
  match assoc k fields with Some _ => true | None => false end.

(** [v.get(k)]: only a dict has the method. *)
Definition get (v : json) (k : string) : exn + json :=
  match v with
  | JObj fields => inr (dict_get fields k)
  | _ => inl (AttributeError
                ("'" +:+ type_name v +:+ "' object has no attribute 'get'"))
  end.

(** [-v]: defined on [int] and on [bool], which is an [int]. *)
Definition neg (v : json) : exn + Z :=
  match v with
  | JInt z => inr (- z)
  | JBool b => inr (- (if b then 1 else 0))
  | _ => inl (TypeError
                ("bad operand type for unary -: '" +:+ type_name v +:+ "'"))
  end.

(** The number a truthy quantity stands for. *)
Definition int_value (v : json) : option Z :=
  match v with
  | JInt z => Some z
  | JBool b => Some (if b then 1 else 0)
  | _ => None
  end.

(** [repr(v)] and [str(v)], as an f-string renders a value.  The quoting
    of a string that itself holds quotes or escapes is not reproduced. *)
Fixpoint repr (v : json) : string :=
  match v with
  | JNull => "None"
  | JBool true => "True"
  | JBool false => "False"
  | JInt z => pretty z
  | JFloat f => match f with end
  | JStr s => "'" +:+ s +:+ "'"
  | JList l =>
      "[" +:+
      (fix elems (l : list json) : string :=
         match l with
         | [] => EmptyString
         | [x] => repr x
         | x :: rest => repr x +:+ ", " +:+ elems rest
         end) l
      +:+ "]"
  | JObj f =>
      "{" +:+
      (fix elems (f : list (string * json)) : string :=
         match f with
         | [] => EmptyString
         | [(k, x)] => "'" +:+ k +:+ "': " +:+ repr x
         | (k, x) :: rest => "'" +:+ k +:+ "': " +:+ repr x +:+ ", " +:+ elems rest
         end) f
      +:+ "}"
  end.

Definition str (v : json) : string :=
  match v with
  | JStr s => s
  | _ => repr v
  end.

(** [c.lower()] on the ASCII letters. *)
Definition lower_ascii (c : ascii) : ascii :=
  let n := nat_of_ascii c in
  if ((65 <=? n) && (n <=? 90))%nat then ascii_of_nat (n + 32) else c.

(** [s.lower()] *)
Fixpoint lower (s : string) : string :=
  match s with
  | EmptyString => EmptyString
  | String c rest => String (lower_ascii c) (lower rest)
  end.

(** [needle in hay] on strings. *)
Fixpoint contains (needle hay : string) : bool :=
  String.prefix needle hay
  || match hay with
     | EmptyString => false
     | String _ rest => contains needle rest
     end.

(** [s.startswith(p)] *)
Definition startswith (s p : string) : bool := String.prefix p s.

(** [s.split(" ")]: the pieces between single spaces, empty pieces kept. *)
Fixpoint split_space (s : string) : list string :=
  match s with
  | EmptyString => [EmptyString]
  | String c rest =>
      if Ascii.eqb c " "%char then EmptyString :: split_space rest
      else match split_space rest with
           | [] => [String c EmptyString]
           | piece :: pieces => String c piece :: pieces
           end
  end.

End Py.

Import Py.

(** ** The database

    The schema file is not part of the sources; the tables are modelled
    from the statements the handlers run against them.  A table is the
    list of its rows in insertion order.

    [get_database] opens a connection and sets its row factory, nothing
    else: it never issues [PRAGMA foreign_keys = ON], and SQLite does
    not enforce foreign keys on a connection that has not asked for it.
    No statement of a handler is therefore refused for the row a value
    refers to. *)

(** A value stored in a column or bound to a [?] placeholder.  Column
    affinity is not modelled: a text parameter stays text. *)
Inductive sqlval : Type :=
  | SNull
  | SInt (z : Z)
  | SText (s : string).

(** What [dict(row)] holds for a column. *)
Definition json_of_sqlval (v : sqlval) : answer :=
  match v with
  | SNull => JNull
  | SInt z => JInt z
  | SText s => JStr s
  end.

Definition sqlval_eqb (a b : sqlval) : bool :=
  match a, b with
  | SInt x, SInt y => x =? y
  | SText x, SText y => String.eqb x y
  | _, _ => false
  end.

Record user_row : Type := mkUser
  { user_id : Z;
    user_username : string;
    user_password_hash : string;
    user_role : string }.

Record customer_row : Type := mkCustomer
  { customer_id : Z;
    customer_name : string }.

Record product_row : Type := mkProduct
  { product_id : Z;
    product_sku : string;
    product_name : string;
    product_price_cents : Z }.

(** [inventory_logs]: the ledger of stock movements. *)
Record log_row : Type := mkLog
  { log_id : Z;
    log_type : string;
    log_product_id : sqlval;
    log_delta : Z;
    log_note : sqlval }.

(** [sales]: the columns [time] and [total_cents], which only the schema
    fills, are left out. *)
Record sale_row : Type := mkSale
  { sale_id : Z;
    sale_customer_id : sqlval;
    sale_user_id : Z }.

(** [sales_details] *)
Record detail_row : Type := mkDetail
  { detail_id : Z;
    detail_subtotal_cents : sqlval;
    detail_sale_id : Z;
    detail_log_id : option Z;
    detail_note : sqlval }.

Record database : Type := mkDb
  { users : list user_row;
    customers : list customer_row;
    products : list product_row;
    sales : list sale_row;
    sales_details : list detail_row;
    inventory_logs : list log_row }.

Definition set_sales (db : database) (rows : list sale_row) : database :=
  mkDb (users db) (customers db) (products db) rows (sales_details db)
       (inventory_logs db).

Definition set_sales_details (db : database) (rows : list detail_row) : database :=
  mkDb (users db) (customers db) (products db) (sales db) rows
       (inventory_logs db).

Definition set_inventory_logs (db : database) (rows : list log_row) : database :=
  mkDb (users db) (customers db) (products db) (sales db) (sales_details db)
       rows.

(** Modelled from the spec: the schema's integer primary keys.  A new row
    gets the successor of the largest id in its table, 1 in an empty
    table; this is what [cursor.lastrowid] then reports. *)
Definition next_rowid (ids : list Z) : Z :=
  fold_right Z.max 0 ids + 1.

(** ** Handler bodies: state, early [return], exceptions *)

(** How a block of a handler ends: it falls through with a value, it
    executes [return payload, status], or it raises. *)
Inductive outcome (A : Type) : Type :=
  | Normal (a : A)
  | Return (status : Z) (payload : answer)
  | Raise (e : exn).

Arguments Normal {A} a.
Arguments Return {A} status payload.
Arguments Raise {A} e.

(** A block runs against the database the connection sees. *)
Definition body (A : Type) : Type := database -> outcome A * database.

Definition ret {A} (a : A) : body A := fun db => (Normal a, db).

Definition bind {A B} (m : body A) (k : A -> body B) : body B :=
  fun db =>
    match m db with
    | (Normal a, db') => k a db'
    | (Return st p, db') => (Return st p, db')
    | (Raise e, db') => (Raise e, db')
    end.

Definition return_ {A} (payload : answer) (status : Z) : body A :=
  fun db => (Return status payload, db).

Definition raise {A} (e : exn) : body A := fun db => (Raise e, db).

Notation "x <- m ;; k" := (bind m (fun x => k))
  (at level 100, m at next level, right associativity).
Notation "m ;; k" := (bind m (fun _ => k))
  (at level 100, right associativity).

(** A Python expression that may raise. *)
Definition eval {A} (r : exn + A) : body A :=
  match r with
  | inl e => raise e
  | inr a => ret a
  end.

(** [if c: stmt] *)
Definition when (c : bool) (m : body unit) : body unit :=
  if c then m else ret tt.

(** [for item in items: stmt] *)
Fixpoint for_each {A} (items : list A) (f : A -> body unit) : body unit :=
  match items with
  | [] => ret tt
  | item :: rest => f item ;; for_each rest f
  end.

(** [try: m except Exception as exc: h exc].  Every exception of the
    model derives from [Exception]. *)
Definition try_except {A} (m : body A) (h : exn -> body A) : body A :=
  fun db =>
    match m db with
    | (Raise e, db') => h e db'
    | r => r
    end.

(** [with get_database() as db: m].  The connection's context manager
    commits when the block is left without an exception, which includes
    leaving it through [return], and rolls back when an exception leaves
    the block. *)
Definition with_database {A} (m : body A) : body A :=
  fun db =>
    match m db with
    | (Raise e, _) => (Raise e, db)
    | r => r
    end.

(** The [{"message": text}] payload. *)
Definition message (text : string) : answer := JObj [("message", JStr text)].

(** ** Requests, sessions and the token table *)

(** The three keys [login] stores in the session and in [active_tokens]. *)
Record identity : Type := mkIdentity
  { ident_id : Z;
    ident_username : string;
    ident_role : string }.

Definition json_of_identity (u : identity) : answer :=
  JObj [("id", JInt (ident_id u));
        ("username", JStr (ident_username u));
        ("role", JStr (ident_role u))].

(** What a handler reads of the request: the session that came with it
    ([None] when it holds no [user_id]), the [Authorization] header and
    the parsed body. *)
Record request : Type := mkRequest
  { req_session : option identity;
    req_authorization : option string;
    req_json : json }.

(** What the framework sends back: the payload and status a handler
    returned, or its answer to an exception no handler caught (a bare 500
    page). *)
Inductive response : Type :=
  | Response (status : Z) (payload : answer)
  | Unhandled (e : exn).

Definition status_of (r : response) : Z :=
  match r with
  | Response st _ => st
  | Unhandled _ => 500
  end.

(** A handler's effect: the response, the session, the process-wide
    [active_tokens] and the database as the request leaves them. *)
Record reply : Type := mkReply
  { reply_response : response;
    reply_session : option identity;
    reply_tokens : gmap string identity;
    reply_db : database }.

Definition handler : Type :=
  request -> gmap string identity -> database -> reply.

(** A handler body never falls off its end: it returns or raises. *)
Definition finish (r : outcome Empty_set * database) : response * database :=
  match r with
  | (Normal a, _) => match a with end
  | (Return st p, db) => (Response st p, db)
  | (Raise e, db) => (Unhandled e, db)
  end.

(** A handler that touches neither the session nor the token table. *)
Definition serve (m : request -> gmap string identity -> body Empty_set) : handler :=
  fun req tokens db =>
    let (resp, db') := finish (m req tokens db) in
    mkReply resp (req_session req) tokens db'.

(** The token of [auth_header.split(" ")[1]]. *)
Definition bearer_token (auth_header : string) : string :=
  nth 1 (split_space auth_header) EmptyString.

(** The lookup shared by [get_current_user], [privileged] and
    [create_sale]: the session first, then the bearer token. *)
Definition token_identity (auth_header : option string)
    (active_tokens : gmap string identity) : option identity :=
  match auth_header with
  | Some h =>
      if negb (String.eqb h EmptyString) && startswith h "Bearer "
      then active_tokens !! bearer_token h
      else None
  | None => None
  end.

Definition session_or_token (req : request)
    (active_tokens : gmap string identity) : option identity :=
  match req_session req with
  | Some u => Some u
  | None => token_identity (req_authorization req) active_tokens
  end.

(** [get_current_user] *)
Definition get_current_user : handler :=
  fun req active_tokens db =>
    let resp :=
      match session_or_token req active_tokens with
      | Some u => Response 200 (json_of_identity u)
      | None => Response 401 (message "You have not been authenticated.")
      end in
    mkReply resp (req_session req) active_tokens db.

(** The argument of [privileged]: the decorator asserts
    [access in {"r", "w", "a"}]. *)
Inductive access : Type :=
  | access_r
  | access_w
  | access_a.

(** [privileged(access)(func)] *)
Definition privileged (acc : access) (func : handler) : handler :=
  fun req active_tokens db =>
    let deny st text :=
      mkReply (Response st (message text)) (req_session req) active_tokens db in
    match session_or_token req active_tokens with
    | None => deny 401 "You are not authorized."
    | Some user_data =>
        let role := ident_role user_data in
        if String.eqb role "d" then
          deny 403 "Your authorization was revoked."
        else if String.eqb role "r" then
          match acc with
          | access_r => func req active_tokens db
          | _ => deny 403 "You may not perform this operation."
          end
        else if String.eqb role "w" then
          match acc with
          | access_r | access_w => func req active_tokens db
          | _ => deny 403 "You may not perform this operation."
          end
        else if String.eqb role "a" then
          func req active_tokens db
        else
          mkReply (Unhandled AssertionError) (req_session req) active_tokens db
    end.

(** [logout] *)
Definition logout : handler :=
  fun req active_tokens db =>
    mkReply (Response 200 (message "Logged out.")) None active_tokens db.

(** ** Statements *)

(** SQLite's INTEGER holds 64 bits. *)
Definition in_int64 (z : Z) : bool :=
  (- 2 ^ 63 <=? z) && (z <? 2 ^ 63).

(** Binding a Python value to placeholder number [n] (counted from 1, as
    the [sqlite3] module of Python 3.11 and later words its error). *)
Definition bind_param (n : nat) (v : json) : exn + sqlval :=
  match v with
  | JNull => inr SNull
  | JBool b => inr (SInt (if b then 1 else 0))
  | JInt z =>
      if in_int64 z then inr (SInt z)
      else inl (OverflowError "Python int too large to convert to SQLite INTEGER")
  | JFloat f => match f with end
  | JStr s => inr (SText s)
  | JList _ | JObj _ =>
      inl (ProgrammingError
             ("Error binding parameter " +:+ pretty n +:+ ": type '"
              +:+ type_name v +:+ "' is not supported"))
  end.

(** A result set joined to the left: every row of [l] with each matching
    row of [r], or once with no partner. *)
Definition left_join {A B} (on : A -> B -> bool) (l : list A) (r : list B)
    : list (A * option B) :=
  flat_map
    (fun a =>
       match List.filter (on a) r with
       | [] => [(a, None)]
       | matches => List.map (fun b => (a, Some b)) matches
       end)
    l.

(** [ORDER BY key], by stable insertion. *)
Fixpoint insert_by {A} (key : A -> Z) (x : A) (sorted : list A) : list A :=
  match sorted with
  | [] => [x]
  | y :: rest =>
      if key x <? key y then x :: y :: rest
      else y :: insert_by key x rest
  end.

Definition order_by {A} (key : A -> Z) (rows : list A) : list A :=
  fold_right (insert_by key) [] rows.

Section Handlers.

(** [bcrypt.check_password_hash(stored_hash, password)] of flask-bcrypt,
    an external collaborator.  It answers whether the password hashes to
    the stored hash, or raises: a password that is not a [str] reaches
    the hashing unencoded and makes it raise [TypeError]. *)
Variable check_password_hash : string -> json -> exn + bool.

(** [INSERT INTO sales (customer_id, user_id) VALUES (?, ?)].  The row
    is stored whether or not a customer has the id. *)
Definition execute_insert_sale (cust : json) (user : Z) : body Z :=
  c <- eval (bind_param 1 cust) ;;
  fun db =>
    let id := next_rowid (List.map sale_id (sales db)) in
    (Normal id, set_sales db (sales db ++ [mkSale id c user])).

(** [INSERT INTO inventory_logs (type, product_id, delta, note)
     VALUES ('s', ?, ?, ?)].  The row is stored whether or not a product
    has the id. *)
Definition execute_insert_log (prod : json) (delta : Z) (note : string) : body Z :=
  p <- eval (bind_param 1 prod) ;;
  d <- eval (bind_param 2 (JInt delta)) ;;
  fun db =>
    let id := next_rowid (List.map log_id (inventory_logs db)) in
    (Normal id,
     set_inventory_logs db
       (inventory_logs db ++ [mkLog id "s" p delta (SText note)])).

(** [INSERT INTO sales_details (subtotal_cents, sale_id, log_id, note)
     VALUES (?, ?, ?, ?)].  The sale and the log are rows the same
    transaction has just inserted. *)
Definition execute_insert_detail (subtotal : json) (sale : Z)
    (log : option Z) (note : json) : body unit :=
  s <- eval (bind_param 1 subtotal) ;;
  n <- eval (bind_param 4 note) ;;
  fun db =>
    let id := next_rowid (List.map detail_id (sales_details db)) in
    (Normal tt,
     set_sales_details db (sales_details db ++ [mkDetail id s sale log n])).

(** [SELECT id, username, password_hash, role FROM users
     WHERE username = ?] with [fetchone()]. *)
Definition select_user (username : json) : body (option user_row) :=
  u <- eval (bind_param 1 username) ;;
  fun db =>
    (Normal (List.find (fun r => sqlval_eqb u (SText (user_username r))) (users db)),
     db).

(** [SELECT id, ..., user_id FROM sales WHERE id = ?] with [fetchone()]. *)
Definition select_sale (sale : Z) : body (option sale_row) :=
  _ <- eval (bind_param 1 (JInt sale)) ;;
  fun db => (Normal (List.find (fun r => sale_id r =? sale) (sales db)), db).

(** [ON sd.log_id = il.id]; a null [log_id] matches no log. *)
Definition on_log_id (sd : detail_row) (il : log_row) : bool :=
  match detail_log_id sd with
  | Some i => i =? log_id il
  | None => false
  end.

(** [ON il.product_id = p.id], on a row already joined to its log. *)
Definition on_product_id (row : detail_row * option log_row) (p : product_row)
    : bool :=
  match snd row with
  | Some il => sqlval_eqb (log_product_id il) (SInt (product_id p))
  | None => false
  end.

(** The float nearest to an integer, as SQLite converts an INTEGER to a
    REAL. *)
Definition real_of_int (z : Z) : spec_float :=
  binary_normalize 53 1024 z 0 false.

(** [-x] on an INTEGER column.  SQLite subtracts from 0 in 64-bit
    integers; when that overflows, which it does for the smallest
    integer alone, it subtracts in floating point and the result is a
    REAL. *)
Definition sql_negate (x : Z) : answer :=
  if in_int64 (- x) then JInt (- x)
  else JFloat (SFsub 53 1024 (real_of_int 0) (real_of_int x)).

(** One row of the detail query of [get_sale], as [dict(row)]. *)
Definition detail_view (row : detail_row * option log_row * option product_row)
    : answer :=
  let '(sd, il, p) := row in
  JObj [("subtotal_cents", json_of_sqlval (detail_subtotal_cents sd));
        ("log_id", match detail_log_id sd with Some i => JInt i | None => JNull end);
        ("note", json_of_sqlval (detail_note sd));
        ("product_id",
         match il with Some l => json_of_sqlval (log_product_id l) | None => JNull end);
        ("quantity",
         match il with Some l => sql_negate (log_delta l) | None => JNull end);
        ("product_name",
         match p with Some r => JStr (product_name r) | None => JNull end);
        ("unit_price_cents",
         match p with Some r => JInt (product_price_cents r) | None => JNull end);
        ("sku", match p with Some r => JStr (product_sku r) | None => JNull end)].

(** [SELECT sd.subtotal_cents, sd.log_id, sd.note, il.product_id,
            -il.delta AS quantity, p.name, p.price_cents, p.sku
     FROM sales_details sd
       LEFT JOIN inventory_logs il ON sd.log_id = il.id
       LEFT JOIN products p ON il.product_id = p.id
     WHERE sd.sale_id = ? ORDER BY sd.id] *)
Definition select_sale_details (sale : Z) : body (list answer) :=
  _ <- eval (bind_param 1 (JInt sale)) ;;
  fun db =>
    let sd_il := left_join on_log_id (sales_details db) (inventory_logs db) in
    let sd_il_p := left_join on_product_id sd_il (products db) in
    let selected :=
      List.filter (fun row => detail_sale_id (fst (fst row)) =? sale) sd_il_p in
    (Normal (List.map detail_view
               (order_by (fun row => detail_id (fst (fst row))) selected)),
     db).

(** [SELECT log_id FROM sales_details WHERE sale_id = ?] *)
Definition select_detail_log_ids (sale : Z) : body (list (option Z)) :=
  _ <- eval (bind_param 1 (JInt sale)) ;;
  fun db =>
    (Normal (List.map detail_log_id
               (List.filter (fun r => detail_sale_id r =? sale) (sales_details db))),
     db).

(** [DELETE FROM inventory_logs WHERE id IN (?, ..., ?)] *)
Definition execute_delete_logs (ids : list Z) : body unit :=
  fun db =>
    (Normal tt,
     set_inventory_logs db
       (List.filter (fun r => negb (existsb (Z.eqb (log_id r)) ids))
          (inventory_logs db))).

(** [DELETE FROM sales_details WHERE sale_id = ?] *)
Definition execute_delete_details (sale : Z) : body unit :=
  _ <- eval (bind_param 1 (JInt sale)) ;;
  fun db =>
    (Normal tt,
     set_sales_details db
       (List.filter (fun r => negb (detail_sale_id r =? sale)) (sales_details db))).

(** [DELETE FROM sales WHERE id = ?]; the value is [result.rowcount]. *)
Definition execute_delete_sale (sale : Z) : body Z :=
  _ <- eval (bind_param 1 (JInt sale)) ;;
  fun db =>
    (Normal (Z.of_nat (List.length (List.filter (fun r => sale_id r =? sale) (sales db)))),
     set_sales db (List.filter (fun r => negb (sale_id r =? sale)) (sales db))).

(** ** [user_auth.login] *)

(** The part of [login] up to the credential check: the [users] row of
    the caller, or the error the function returns. *)
Definition login_credentials (req : request) : body user_row :=
  let data := req_json req in
  when (negb (truthy data))
    (return_ (message "A JSON body is required!") 400) ;;
  username <- eval (get data "username") ;;
  when (negb (truthy username))
    (return_ (message "A username is required!") 400) ;;
  password <- eval (get data "password") ;;
  when (negb (truthy password))
    (return_ (message "A password is required!") 400) ;;
  user <- with_database (select_user username) ;;
  match user with
  | None => return_ (message "Invalid credentials!") 401
  | Some u =>
      matches <- eval (check_password_hash (user_password_hash u) password) ;;
      if negb matches
      then return_ (message "Invalid credentials!") 401
      else ret u
  end.

(** [login]; [token] is the value [secrets.token_urlsafe(32)] draws. *)
Definition login (token : string) : handler :=
  fun req active_tokens db =>
    match login_credentials req db with
    | (Normal user, _) =>
        let u := mkIdentity (user_id user) (user_username user) (user_role user) in
        mkReply
          (Response 200
             (JObj [("message", JStr "Logged in.");
                    ("user", json_of_identity u);
                    ("token", JStr token)]))
          (Some u)
          (<[token := u]> active_tokens)
          db
    | (Return st p, _) =>
        mkReply (Response st p) (req_session req) active_tokens db
    | (Raise e, _) =>
        mkReply (Unhandled e) (req_session req) active_tokens db
    end.

(** ** [sales.get_sale]

    The payload lacks the keys [time] and [total_cents], which the model
    of the [sales] table leaves out. *)

Definition get_sale_body (sale : Z) : body Empty_set :=
  found <- with_database
    (head <- select_sale sale ;;
     match head with
     | None => return_ (message "Sale is not found!") 404
     | Some h =>
         details <- select_sale_details sale ;;
         ret (h, details)
     end) ;;
  let '(head, details) := found in
  return_
    (JObj [("id", JInt (sale_id head));
           ("customer_id", json_of_sqlval (sale_customer_id head));
           ("user_id", JInt (sale_user_id head));
           ("details", JList details)])
    200.

Definition get_sale (sale : Z) : handler :=
  serve (fun _ _ => get_sale_body sale).

(** ** [sales.create_sale] *)

(** The body of [for item in details]. *)
Definition create_sale_item (sale : Z) (item : json) : body unit :=
  product <- eval (get item "product_id") ;;
  quantity <- eval (get item "quantity") ;;
  subtotal <- eval (get item "subtotal_cents") ;;
  note <- eval (get item "note") ;;
  when (negb (truthy subtotal))
    (return_ (message "Each detail requires a subtotal!") 400) ;;
  log <-
    (if truthy product then
       when (negb (truthy quantity))
         (return_
            (message "Each detail that contains inventory change must have a quantity!")
            400) ;;
       delta <- eval (neg quantity) ;;
       id <- execute_insert_log product delta
               ("Automatic logging from sale #" +:+ pretty sale +:+ ": " +:+ str note) ;;
       ret (Some id)
     else ret None) ;;
  execute_insert_detail subtotal sale log note.

(** The two [except] clauses. *)
Definition create_sale_except {A} (exc : exn) : body A :=
  match exc with
  | IntegrityError text =>
      let msg := lower text in
      if contains "customer_id" msg then
        return_ (message "Customer does not exist!") 400
      else if contains "product_id" msg then
        return_ (message "Product does not exist!") 400
      else
        return_ (message "Invalid input or constraint violation!") 400
  | _ => return_ (message ("Server error: " +:+ str_exn exc)) 500
  end.

(** The [user_id] the sale is recorded under. *)
Definition acting_user_id (req : request) (active_tokens : gmap string identity)
    : option Z :=
  match req_session req with
  | Some u => Some (ident_id u)
  | None =>
      match token_identity (req_authorization req) active_tokens with
      | Some u => Some (ident_id u)
      | None => None
      end
  end.

(** The part of [create_sale] before the transaction: the customer, the
    detail lines and the acting user, or the error the function returns. *)
Definition create_sale_checks (req : request) (active_tokens : gmap string identity)
    : body (json * json * Z) :=
  let data := req_json req in
  when (negb (truthy data))
    (return_ (message "A JSON body is required!") 400) ;;
  customer <- eval (get data "customer_id") ;;
  when (negb (truthy customer))
    (return_ (message "A customer is required!") 400) ;;
  details <- eval (get data "details") ;;
  when (negb (truthy details) || negb (is_list details))
    (return_ (message "A non-empty list of details is required!") 400) ;;
  user <-
    match acting_user_id req active_tokens with
    | Some id =>
        if id =? 0 then return_ (message "User authentication failed.") 401
        else ret id
    | None => return_ (message "User authentication failed.") 401
    end ;;
  ret (customer, details, user).

(** The statements under [try:]. *)
Definition create_sale_inserts (customer details : json) (user : Z) : body Z :=
  sale <- execute_insert_sale customer user ;;
  for_each (items_of details) (create_sale_item sale) ;;
  ret sale.

Definition create_sale_body (req : request) (active_tokens : gmap string identity)
    : body Empty_set :=
  checked <- create_sale_checks req active_tokens ;;
  let '(customer, details, user) := checked in
  sale <- with_database
    (try_except (create_sale_inserts customer details user) create_sale_except) ;;
  return_
    (JObj [("message", JStr "Sale has been created."); ("id", JInt sale)])
    201.

Definition create_sale : handler := serve create_sale_body.

(** ** [sales.delete_sale] *)

Definition delete_sale_body (sale : Z) : body Empty_set :=
  with_database
    (rows <- select_detail_log_ids sale ;;
     let log_ids := omap (fun i : option Z => i) rows in
     when (match log_ids with [] => false | _ => true end)
       (execute_delete_logs log_ids) ;;
     execute_delete_details sale ;;
     rowcount <- execute_delete_sale sale ;;
     when (rowcount =? 0)
       (return_ (message "Sale is not found!") 404)) ;;
  return_ (message "Sale has been deleted.") 200.

Definition delete_sale (sale : Z) : handler :=
  serve (fun _ _ => delete_sale_body sale).

(** *** The transaction of [delete_sale] when a statement fails

    A statement can fail for a reason outside the program: another
    connection holds the database file locked, the disk is full.
    [db.execute] then raises [sqlite3.OperationalError], and
    [delete_sale] catches nothing.  [engine n] is what the engine does
    with the [n]-th [db.execute] of the handler, counted from 0 in the
    order of the source: [None] when it carries the statement out, the
    text of the error when it does not. *)

Definition attempt {A} (failure : option string) (statement : body A) : body A :=
  match failure with
  | Some text => raise (OperationalError text)
  | None => statement
  end.

Definition delete_sale_body_under (engine : nat -> option string) (sale : Z)
    : body Empty_set :=
  with_database
    (rows <- attempt (engine 0%nat) (select_detail_log_ids sale) ;;
     let log_ids := omap (fun i : option Z => i) rows in
     when (match log_ids with [] => false | _ => true end)
       (attempt (engine 1%nat) (execute_delete_logs log_ids)) ;;
     attempt (engine 2%nat) (execute_delete_details sale) ;;
     rowcount <- attempt (engine 3%nat) (execute_delete_sale sale) ;;
     when (rowcount =? 0)
       (return_ (message "Sale is not found!") 404)) ;;
  return_ (message "Sale has been deleted.") 200.

Definition delete_sale_under (engine : nat -> option string) (sale : Z) : handler :=
  serve (fun _ _ => delete_sale_body_under engine sale).

(** ** The routes of [sales.py] and their decorators *)

Inductive sales_endpoint : Type :=
  | GET_sales
  | GET_sale
  | POST_sales
  | PATCH_sale
  | DELETE_sale.

(** The argument of [@privileged] on each route. *)
Definition sales_access (e : sales_endpoint) : access :=
  match e with
  | GET_sales | GET_sale => access_r
  | POST_sales | PATCH_sale => access_w
  | DELETE_sale => access_a
  end.

Definition get_sale_endpoint (sale : Z) : handler :=
  privileged (sales_access GET_sale) (get_sale sale).

Definition create_sale_endpoint : handler :=
  privileged (sales_access POST_sales) create_sale.

Definition delete_sale_endpoint (sale : Z) : handler :=
  privileged (sales_access DELETE_sale) (delete_sale sale).

End Handlers.

(** * The rest of the handlers *)

(** ** More of Python *)

(** [k in v], for a string [k]: a key of a dict, an element of a list,
    a substring of a string; nothing else can be searched. *)
Definition py_in (k : string) (v : json) : exn + bool :=
  match v with
  | JObj fields => inr (dict_has fields k)
  | JList items =>
      inr (existsb
             (fun x => match x with JStr s => String.eqb s k | _ => false end)
             items)
  | JStr s => inr (contains k s)
  | _ => inl (TypeError
                ("argument of type '" +:+ type_name v +:+ "' is not iterable"))
  end.

(** [v[k]] for a string [k], evaluated once [k in v] holds: a dict has
    the key; a list or a string cannot be indexed by a string. *)
Definition subscript_present (v : json) (k : string) : exn + json :=
  match v with
  | JObj fields => inr (dict_get fields k)
  | JList _ => inl (TypeError "list indices must be integers or slices, not str")
  | JStr _ => inl (TypeError "string indices must be integers, not 'str'")
  | _ => inl (TypeError ("'" +:+ type_name v +:+ "' object is not subscriptable"))
  end.

(** [db.commit()].  Where the handlers call it nothing that could raise
    follows inside the [with] block, so the point [with_database] rolls
    back to is not at stake. *)
Definition commit : body unit := ret tt.

Definition set_users (db : database) (rows : list user_row) : database :=
  mkDb rows (customers db) (products db) (sales db) (sales_details db)
       (inventory_logs db).

(** ** [app.after_request] *)

(** The headers of a response, in the order they were added. *)
Definition after_request (origin : option string)
    (headers : list (string * string)) : list (string * string) :=
  let allowed :=
    match origin with
    | Some o =>
        if negb (String.eqb o EmptyString) && startswith o "http://127.0.0.1"
        then
          headers ++ [("Access-Control-Allow-Origin", o);
                      ("Access-Control-Allow-Credentials", "true")]
        else
          headers ++ [("Access-Control-Allow-Origin", "http://127.0.0.1:5000");
                      ("Access-Control-Allow-Credentials", "true")]
    | None =>
        headers ++ [("Access-Control-Allow-Origin", "http://127.0.0.1:5000");
                    ("Access-Control-Allow-Credentials", "true")]
    end in
  allowed ++ [("Access-Control-Allow-Headers", "Content-Type,Authorization");
              ("Access-Control-Allow-Methods", "GET,PUT,POST,DELETE,PATCH,OPTIONS")].

(** The values a header name carries. *)
Definition header_values (name : string) (headers : list (string * string))
    : list string :=
  List.map snd (List.filter (fun h => String.eqb (fst h) name) headers).

Section MoreHandlers.

Variable check_password_hash : string -> json -> exn + bool.

(** The text of the [IntegrityError] the engine raises when NULL is
    stored in [sales.customer_id]; [None] when the schema, which is not
    among the sources, lets the column be NULL. *)
Variable customer_not_null : option string.

(** What [db.executescript(schema.read())] does to the database; the
    script is not among the sources. *)
Variable schema_script : database -> database.

(** ** [sales.update_sale] *)

(** [SELECT id FROM sales WHERE id = ?] with [fetchone()]. *)
Definition select_sale_id (sale : Z) : body (option Z) :=
  _ <- eval (bind_param 1 (JInt sale)) ;;
  fun db =>
    (Normal (option_map sale_id (List.find (fun r => sale_id r =? sale) (sales db))),
     db).

(** [UPDATE sales SET customer_id = ? WHERE id = ?].  A NULL is checked
    against [customer_not_null] when a row is hit; any other value is
    stored whether or not a customer has the id. *)
Definition execute_update_sale_customer (cust : json) (sale : Z) : body unit :=
  c <- eval (bind_param 1 cust) ;;
  _ <- eval (bind_param 2 (JInt sale)) ;;
  fun db =>
    let updated :=
      set_sales db
        (List.map
           (fun r => if sale_id r =? sale then mkSale (sale_id r) c (sale_user_id r) else r)
           (sales db)) in
    if negb (existsb (fun r => sale_id r =? sale) (sales db)) then (Normal tt, db)
    else
      match c with
      | SNull =>
          match customer_not_null with
          | Some text => (Raise (IntegrityError text), db)
          | None => (Normal tt, updated)
          end
      | _ => (Normal tt, updated)
      end.

(** The two [except] clauses of [update_sale]. *)
Definition update_sale_except {A} (exc : exn) : body A :=
  match exc with
  | IntegrityError text =>
      if contains "customer_id" (lower text) then
        return_ (message "Customer does not exist!") 400
      else
        return_ (message "Invalid input or constraint violation!") 400
  | _ => return_ (message ("Server error: " +:+ str_exn exc)) 500
  end.

(** [params] holds the new customer when the body names one; the only
    statement [updates] can then spell is the one of
    [execute_update_sale_customer]. *)
Definition update_sale_body (sale : Z) (req : request) : body Empty_set :=
  let data := req_json req in
  when (negb (truthy data))
    (return_ (message "A JSON body is required!") 400) ;;
  with_database
    (found <- select_sale_id sale ;;
     when (match found with None => true | Some _ => false end)
       (return_ (message "Sale not found!") 404) ;;
     named <- eval (py_in "customer_id" data) ;;
     params <-
       (if named then
          customer <- eval (subscript_present data "customer_id") ;;
          ret [customer]
        else ret []) ;;
     match params with
     | [] => return_ (message "No valid fields to update!") 400
     | customer :: _ =>
         try_except
           (execute_update_sale_customer customer sale ;;
            commit)
           update_sale_except
     end) ;;
  return_ (message "Sale has been updated.") 200.

Definition update_sale (sale : Z) : handler :=
  serve (fun req _ => update_sale_body sale req).

Definition update_sale_endpoint (sale : Z) : handler :=
  privileged (sales_access PATCH_sale) (update_sale sale).

(** ** [app.init_database] *)

(** [SELECT COUNT( * ) FROM users
     WHERE users.role = 'a' OR users.username = "admin"] *)
Definition select_count_admins : body Z :=
  fun db =>
    (Normal
       (Z.of_nat
          (List.length
             (List.filter
                (fun u => String.eqb (user_role u) "a"
                          || String.eqb (user_username u) "admin")
                (users db)))),
     db).

(** [INSERT INTO users(username, password_hash, role)
     VALUES ("admin", ?, 'a')] *)
Definition execute_insert_admin (password_hash : string) : body unit :=
  fun db =>
    (Normal tt,
     set_users db
       (users db
        ++ [mkUser (next_rowid (List.map user_id (users db))) "admin"
              password_hash "a"])).

(** The hook of the first request; [admin_hash] is the value
    [bcrypt.generate_password_hash("admin").decode()] draws. *)
Definition init_database (admin_hash : string) : body unit :=
  with_database
    ((fun db => (Normal tt, schema_script db)) ;;
     admins <- select_count_admins ;;
     when (admins =? 0) (execute_insert_admin admin_hash) ;;
     commit).

(** ** The routes that are modelled *)

(** A call of one of the routes [register_routes] and the decorators of
    [sales.py] set up; a login carries the token it will draw. *)
Inductive call : Type :=
  | GET_api_me
  | POST_api_login (token : string)
  | POST_api_logout
  | GET_api_sale (sale : Z)
  | POST_api_sales
  | PATCH_api_sale (sale : Z)
  | DELETE_api_sale (sale : Z).

Definition view_function (c : call) : handler :=
  match c with
  | GET_api_me => get_current_user
  | POST_api_login token => login check_password_hash token
  | POST_api_logout => logout
  | GET_api_sale sale => get_sale_endpoint sale
  | POST_api_sales => create_sale_endpoint
  | PATCH_api_sale sale => update_sale_endpoint sale
  | DELETE_api_sale sale => delete_sale_endpoint sale
  end.

(** The process serving requests one after another: the token table and
    the database pass from each to the next. *)
Fixpoint serve_all (calls : list (call * request))
    (tokens : gmap string identity) (db : database)
    : gmap string identity * database :=
  match calls with
  | [] => (tokens, db)
  | (c, req) :: rest =>
      let out := view_function c req tokens db in
      serve_all rest (reply_tokens out) (reply_db out)
  end.

End MoreHandlers.


(** ** A small shop, for the worked examples *)

(** A stand-in for bcrypt in the examples: the stored hash is the
    password itself, and a password that is not a string raises. *)
Definition plain_check (stored : string) (password : json) : exn + bool :=
  match password with
  | JStr s => inr (String.eqb stored s)
  | _ => inl (TypeError
                ("argument 'password': '" +:+ type_name password
                 +:+ "' object cannot be converted to 'PyBytes'"))
  end.

Definition shop : database :=
  mkDb [mkUser 1 "admin" "admin" "a"; mkUser 2 "clerk" "secret" "w"]
       [mkCustomer 1 "Ann"]
       [mkProduct 5 "SKU-5" "Pen" 250]
       [] [] [].

Definition clerk : identity := mkIdentity 2 "clerk" "w".

Definition line (product quantity subtotal : json) : json :=
  JObj [("product_id", product); ("quantity", quantity);
        ("subtotal_cents", subtotal)].

Definition sale_of (customer : json) (lines : list json) : json :=
  JObj [("customer_id", customer); ("details", JList lines)].

Definition as_clerk (data : json) : request :=
  mkRequest (Some clerk) None data.

(** * Vocabulary of the properties

    The predicates and functions the statements below are written with.
    None of them is part of the program. *)

(** ** Tokens, refusals, requests that pass the checks *)

(** No space in the string; [secrets.token_urlsafe] draws from the
    URL-safe base64 alphabet, which has none. *)
Fixpoint spaceless (s : string) : bool :=
  match s with
  | EmptyString => true
  | String c rest => negb (Ascii.eqb c " "%char) && spaceless rest
  end.

(** The reply of a request the gate turns away: the handler did not run. *)
Definition turned_away (req : request) (tokens : gmap string identity)
    (db : database) (st : Z) (text : string) : reply :=
  mkReply (Response st (message text)) (req_session req) tokens db.

(** The reply of a request whose credentials are refused. *)
Definition invalid_credentials (req : request) (tokens : gmap string identity)
    (db : database) : reply :=
  mkReply (Response 401 (message "Invalid credentials!"))
          (req_session req) tokens db.

(** The part of a login request that reaches the credential check: a
    dict body with a truthy username that can be bound, and a truthy
    password. *)
Definition credentials_of (req : request) (username password : json) : Prop :=
  exists fields,
    req_json req = JObj fields /\
    truthy (JObj fields) = true /\
    dict_get fields "username" = username /\
    truthy username = true /\
    dict_get fields "password" = password /\
    truthy password = true.

(** A request that passes the checks before the transaction: a dict body
    with a truthy customer, a non-empty list of details, and an acting
    user with a truthy id. *)
Definition sale_request (req : request) (tokens : gmap string identity)
    (customer : json) (items : list json) (user : Z) : Prop :=
  exists fields,
    req_json req = JObj fields /\
    dict_get fields "customer_id" = customer /\
    truthy customer = true /\
    dict_get fields "details" = JList items /\
    items <> [] /\
    acting_user_id req tokens = Some user /\
    user <> 0.

(** The message [create_sale] answers an [IntegrityError] with. *)
Definition integrity_reply (text : string) : string :=
  if contains "customer_id" (lower text) then "Customer does not exist!"
  else if contains "product_id" (lower text) then "Product does not exist!"
  else "Invalid input or constraint violation!".

(** How the reply of [create_sale] follows from what the statements under
    [try:] do: the database is the one they leave behind in every case,
    because every way out of the [with] block is a [return]. *)
Definition create_sale_reply (req : request) (tokens : gmap string identity)
    (tried : outcome Z * database) : reply :=
  mkReply
    (match fst tried with
     | Normal sale =>
         Response 201
           (JObj [("message", JStr "Sale has been created."); ("id", JInt sale)])
     | Return st p => Response st p
     | Raise (IntegrityError text) => Response 400 (message (integrity_reply text))
     | Raise e => Response 500 (message ("Server error: " +:+ str_exn e))
     end)
    (req_session req) tokens (snd tried).

(** ** Detail lines and the rows they leave *)

(** A key of a detail line, [None] when the line has no such key. *)
Definition field {F} (item : value F) (k : string) : value F :=
  match item with
  | JObj fields => dict_get fields k
  | _ => JNull
  end.

(** A line that references a product. *)
Definition affects_inventory (item : json) : bool :=
  truthy (field item "product_id").

(** The row of an optional insert, as a list. *)
Definition option_row {A} (o : option A) : list A :=
  match o with Some a => [a] | None => [] end.

(** [db'] is [db] with one more detail row and at most one more log row. *)
Definition extends (db db' : database) (d : detail_row) (l : option log_row)
    : Prop :=
  users db' = users db /\
  customers db' = customers db /\
  products db' = products db /\
  sales db' = sales db /\
  sales_details db' = sales_details db ++ [d] /\
  inventory_logs db' = inventory_logs db ++ option_row l.

(** The rows a line that is accepted against [db] leaves behind. *)
Definition item_rows (sale : Z) (item : json) (db : database)
    (d : detail_row) (l : option log_row) : Prop :=
  detail_id d = next_rowid (List.map detail_id (sales_details db)) /\
  detail_sale_id d = sale /\
  truthy (field item "subtotal_cents") = true /\
  bind_param 1 (field item "subtotal_cents") = inr (detail_subtotal_cents d) /\
  bind_param 4 (field item "note") = inr (detail_note d) /\
  match l with
  | Some lg =>
      affects_inventory item = true /\
      detail_log_id d = Some (log_id lg) /\
      log_id lg = next_rowid (List.map log_id (inventory_logs db)) /\
      log_type lg = "s" /\
      bind_param 1 (field item "product_id") = inr (log_product_id lg) /\
      in_int64 (log_delta lg) = true /\
      truthy (field item "quantity") = true /\
      exists q, int_value (field item "quantity") = Some q /\ log_delta lg = - q
  | None =>
      affects_inventory item = false /\
      detail_log_id d = None
  end.

(** The rows the loop leaves behind, line by line, when every line is
    accepted. *)
Inductive loop_rows (sale : Z)
    : list json -> database -> list (detail_row * option log_row) -> database -> Prop :=
  | loop_done db :
      loop_rows sale [] db [] db
  | loop_item item rest db d l db1 rows db2 :
      item_rows sale item db d l ->
      extends db db1 d l ->
      loop_rows sale rest db1 rows db2 ->
      loop_rows sale (item :: rest) db ((d, l) :: rows) db2.

(** The detail rows and the log rows among the rows of the loop. *)
Definition new_details (rows : list (detail_row * option log_row)) : list detail_row :=
  List.map fst rows.

Definition new_logs (rows : list (detail_row * option log_row)) : list log_row :=
  flat_map (fun row => option_row (snd row)) rows.

(** What a line and its rows have to do with each other, whatever the
    database was. *)
Definition line_rows (sale : Z) (item : json) (row : detail_row * option log_row)
    : Prop :=
  detail_sale_id (fst row) = sale /\
  truthy (field item "subtotal_cents") = true /\
  bind_param 1 (field item "subtotal_cents") = inr (detail_subtotal_cents (fst row)) /\
  bind_param 4 (field item "note") = inr (detail_note (fst row)) /\
  match snd row with
  | Some lg =>
      affects_inventory item = true /\
      detail_log_id (fst row) = Some (log_id lg) /\
      log_type lg = "s" /\
      bind_param 1 (field item "product_id") = inr (log_product_id lg) /\
      in_int64 (log_delta lg) = true /\
      truthy (field item "quantity") = true /\
      exists q, int_value (field item "quantity") = Some q /\ log_delta lg = - q
  | None =>
      affects_inventory item = false /\
      detail_log_id (fst row) = None
  end.

(** A detail row that carries a log id. *)
Definition has_log (d : detail_row) : bool :=
  match detail_log_id d with Some _ => true | None => false end.

(** ** Deletion, row ids, joins *)

(** The log ids [delete_sale] collects from the details of the sale. *)
Definition sale_log_ids (sale : Z) (db : database) : list Z :=
  omap (fun i : option Z => i)
    (List.map detail_log_id
       (List.filter (fun r => detail_sale_id r =? sale) (sales_details db))).

(** The database [delete_sale] commits. *)
Definition without_sale (sale : Z) (db : database) : database :=
  mkDb (users db) (customers db) (products db)
    (List.filter (fun r => negb (sale_id r =? sale)) (sales db))
    (List.filter (fun r => negb (detail_sale_id r =? sale)) (sales_details db))
    (List.filter (fun r => negb (existsb (Z.eqb (log_id r)) (sale_log_ids sale db)))
       (inventory_logs db)).

(** The largest id of a table, 0 for an empty one; [next_rowid] is its
    successor. *)
Definition max_id (ids : list Z) : Z := fold_right Z.max 0 ids.

(** Each id is larger than the one before it, the first larger than
    [bound]. *)
Fixpoint ascending_from (bound : Z) (ids : list Z) : Prop :=
  match ids with
  | [] => True
  | x :: rest => bound < x /\ ascending_from x rest
  end.






(** ** Requests and databases of the worked instances *)

(** A sale of two lines, the first of which references a product. *)
Definition two_lines : request :=
  as_clerk (sale_of (JInt 1)
              [line (JInt 5) (JInt 2) (JInt 500); line JNull JNull (JInt 7)]).

Definition anonymous (data : json) : request := mkRequest None None data.

Definition with_token (token : string) (data : json) : request :=
  mkRequest None (Some ("Bearer " +:+ token)) data.

Definition login_as (username password : string) : request :=
  anonymous (JObj [("username", JStr username); ("password", JStr password)]).

Definition reader : identity := mkIdentity 3 "guest" "r".
Definition admin : identity := mkIdentity 1 "admin" "a".

Definition as_user (u : identity) : request := mkRequest (Some u) None JNull.

(** The shop after the sale of [two_lines]. *)
Definition shop_after_sale : database :=
  reply_db (create_sale two_lines ∅ shop).

(** A shop in which nobody is called [clerk]. *)
Definition shop_without_clerk : database :=
  mkDb [mkUser 1 "admin" "admin" "a"] (customers shop) (products shop) [] [] [].

(** A product line without quantity after an accepted line. *)
Definition quantity_missing : request :=
  as_clerk (sale_of (JInt 1)
              [line (JInt 5) (JInt 2) (JInt 500); line (JInt 5) (JInt 0) (JInt 300)]).

(** A product line with a negative quantity. *)
Definition quantity_negative : request :=
  as_clerk (sale_of (JInt 1) [line (JInt 5) (JInt (-2)) (JInt 500)]).

(** A quantity sent as a string. *)
Definition quantity_as_text : request :=
  as_clerk (sale_of (JInt 1) [line (JInt 5) (JStr "2") (JInt 500)]).

(** A detail line that is a number, not an object. *)
Definition line_as_number : request :=
  as_clerk (sale_of (JInt 1) [JInt 5]).

(** A customer the shop does not have. *)
Definition unknown_customer : request :=
  as_clerk (sale_of (JInt 9) [line (JInt 5) (JInt 2) (JInt 500)]).

(** No customer: the id is 0. *)
Definition customer_zero : request :=
  as_clerk (sale_of (JInt 0) [line (JInt 5) (JInt 2) (JInt 500)]).

(** No customer: the key is missing. *)
Definition customer_missing : request :=
  as_clerk (JObj [("details", JList [line (JInt 5) (JInt 2) (JInt 500)])]).

(** A second line with a subtotal of 0. *)
Definition subtotal_zero : request :=
  as_clerk (sale_of (JInt 1)
              [line (JInt 5) (JInt 2) (JInt 500); line JNull JNull (JInt 0)]).

(** A quantity sent as a string, then a line with a subtotal of 0. *)
Definition text_then_zero : request :=
  as_clerk (sale_of (JInt 1)
              [line (JInt 5) (JStr "2") (JInt 500); line JNull JNull (JInt 0)]).


(** A login whose password is a number. *)
Definition password_as_number (username : string) : request :=
  anonymous (JObj [("username", JStr username); ("password", JInt 5)]).

(** An engine that fails the [n]-th statement and no other. *)
Definition fails_at (n : nat) (text : string) : nat -> option string :=
  fun k => if Nat.eqb k n then Some text else None.

(** An engine that carries every statement out. *)
Definition never_fails : nat -> option string := fun _ => None.

(** ** Vocabulary of the further properties *)

(** Every detail row belongs to a sale row. *)
Definition details_reference_sales (db : database) : Prop :=
  forall d, In d (sales_details db) ->
    exists s, In s (sales db) /\ sale_id s = detail_sale_id d.

(** [db'] is [db] with rows added at the end of [sales], [sales_details]
    and [inventory_logs], each new detail belonging to a new sale. *)
Definition appended (db db' : database) : Prop :=
  users db' = users db /\
  customers db' = customers db /\
  products db' = products db /\
  exists ss ds ls,
    sales db' = sales db ++ ss /\
    sales_details db' = sales_details db ++ ds /\
    inventory_logs db' = inventory_logs db ++ ls /\
    forall d, In d ds -> exists s, In s ss /\ sale_id s = detail_sale_id d.

(** [db'] is [db] with detail rows of the sale and log rows added. *)
Definition lines_added (sale : Z) (db db' : database) : Prop :=
  users db' = users db /\
  customers db' = customers db /\
  products db' = products db /\
  sales db' = sales db /\
  exists ds ls,
    sales_details db' = sales_details db ++ ds /\
    inventory_logs db' = inventory_logs db ++ ls /\
    forall d, In d ds -> detail_sale_id d = sale.

(** The roles [privileged] knows. *)
Definition known_role (role : string) : bool :=
  String.eqb role "d" || String.eqb role "r" || String.eqb role "w"
  || String.eqb role "a".

(** The identity [login] stores for a [users] row. *)
Definition identity_of (u : user_row) : identity :=
  mkIdentity (user_id u) (user_username u) (user_role u).

(** An account [init_database] counts: an administrator, or anyone
    called [admin]. *)
Definition counts_as_admin (u : user_row) : bool :=
  String.eqb (user_role u) "a" || String.eqb (user_username u) "admin".

(** The database with other customers and other products. *)
Definition with_catalog (cs : list customer_row) (ps : list product_row)
    (db : database) : database :=
  mkDb (users db) cs ps (sales db) (sales_details db) (inventory_logs db).

(** A block that does the same whatever customers and products the
    database holds, and leaves them alone. *)
Definition ignores_catalog {A} (m : body A) : Prop :=
  forall cs ps db,
    m (with_catalog cs ps db) = (fst (m db), with_catalog cs ps (snd (m db))).

(** ** Requests and databases of the further worked instances *)

(** A schema script that finds its tables in place. *)
Definition schema_in_place (db : database) : database := db.

(** A database with no rows at all. *)
Definition empty_database : database := mkDb [] [] [] [] [] [].

(** The shop with a second customer. *)
Definition shop_of_two : database :=
  mkDb (users shop) [mkCustomer 1 "Ann"; mkCustomer 2 "Bob"] (products shop)
       [] [] [].

(** The shop of two after the sale of [two_lines]. *)
Definition shop_of_two_after_sale : database :=
  reply_db (create_sale two_lines ∅ shop_of_two).

(** A request to move a sale to the given customer. *)
Definition move_to (customer : json) : request :=
  as_clerk (JObj [("customer_id", customer)]).

(** An identity with a role the gate does not know. *)
Definition stranger : identity := mkIdentity 5 "temp" "x".

(** A database whose only account is a reader called [admin]. *)
Definition admin_in_name_only : database :=
  mkDb [mkUser 1 "admin" "x" "r"] [] [] [] [] [].

(** A sale whose only line has a list for a note. *)
Definition note_as_list : request :=
  as_clerk (sale_of (JInt 1)
              [JObj [("product_id", JInt 5); ("quantity", JInt 2);
                     ("subtotal_cents", JInt 500);
                     ("note", JList [JStr "gift"])]]).

(** A sale, then its deletion by an administrator. *)
Definition sell_then_delete : list (call * request) :=
  [(POST_api_sales, two_lines); (DELETE_api_sale 1, as_user admin)].

(** A logout, then a login of somebody else. *)
Definition logout_then_login : list (call * request) :=
  [(POST_api_logout, as_user clerk);
   (POST_api_login "0ther-T0ken", login_as "admin" "admin")].

(** * Properties *)

(** ** Bearer tokens *)

Lemma split_space_spaceless (s : string) :
  spaceless s = true -> split_space s = [s].
Proof.
  induction s as [|c rest IH]; simpl; [reflexivity|].
  intros H. apply andb_prop in H as [Hc Hrest].
  apply negb_true_iff in Hc. rewrite Hc, (IH Hrest). reflexivity.
Qed.

Lemma bearer_token_of_header (token : string) :
  spaceless token = true -> bearer_token ("Bearer " +:+ token) = token.
Proof.
  intros H. unfold bearer_token.
  change ("Bearer " +:+ token) with
    (String "B" (String "e" (String "a" (String "r" (String "e" (String "r"
       (String " " token))))))).
  cbn [split_space Ascii.eqb Bool.eqb].
  rewrite (split_space_spaceless _ H). reflexivity.
Qed.

Lemma token_identity_of_header (token : string) (tokens : gmap string identity) :
  spaceless token = true ->
  token_identity (Some ("Bearer " +:+ token)) tokens = tokens !! token.
Proof.
  intros H. unfold token_identity.
  rewrite (bearer_token_of_header _ H).
  replace (startswith ("Bearer " +:+ token) "Bearer ") with true
    by (unfold startswith; cbn; destruct token; reflexivity).
  reflexivity.
Qed.

Section Properties.

Variable check_password_hash : string -> json -> exn + bool.

(** ** The authorization gate *)


(** ** Login and logout *)

Lemma login_credentials_select (req : request) (username password : json)
    (db : database) (found : option user_row) :
  credentials_of req username password ->
  select_user username db = (Normal found, db) ->
  login_credentials check_password_hash req db
  = match found with
    | None => (Return 401 (message "Invalid credentials!"), db)
    | Some u =>
        match check_password_hash (user_password_hash u) password with
        | inl e => (Raise e, db)
        | inr true => (Normal u, db)
        | inr false => (Return 401 (message "Invalid credentials!"), db)
        end
    end.
Proof.
  intros (fields & Hjson & Hdata & Hu & Htu & Hp & Htp) Hsel.
  unfold login_credentials. rewrite Hjson.
  unfold bind at 1. unfold when at 1. rewrite Hdata. cbn [negb ret].
  cbn [get eval]. unfold bind at 1. cbn [ret]. rewrite Hu.
  unfold bind at 1. unfold when at 1. rewrite Htu. cbn [negb ret].
  unfold bind at 1. cbn [ret]. rewrite Hp.
  unfold bind at 1. unfold when at 1. rewrite Htp. cbn [negb ret].
  unfold bind at 1. unfold with_database. rewrite Hsel.
  destruct found as [u|]; [|reflexivity].
  unfold bind.
  destruct (check_password_hash (user_password_hash u) password) as [e|[|]];
    reflexivity.
Qed.

(** A login that does not answer 200 leaves session and tokens alone. *)
Lemma login_failure_frame (token : string) (req : request)
    (tokens : gmap string identity) (db : database) :
  status_of (reply_response (login check_password_hash token req tokens db)) <> 200 ->
  reply_tokens (login check_password_hash token req tokens db) = tokens /\
  reply_session (login check_password_hash token req tokens db) = req_session req.
Proof.
  unfold login.
  destruct (login_credentials check_password_hash req db) as [[u|st p|e] db'];
    cbn; intros H; [congruence | auto | auto].
Qed.

(** C7, where the code departs from it.  When the check of the password
    raises, as the check of flask-bcrypt does for a password that is not
    a string, [login] answers 401 for a username it does not know and
    lets the exception escape, a 500, for one it knows: the two failures
    do not answer alike, and the answer tells whether the username
    exists.  Neither of them adds a token. *)
Theorem login_reveals_username
    (token : string) (req : request) (username password : json)
    (tokens : gmap string identity) (db_unknown db_known : database)
    (u : user_row) (e : exn) :
  credentials_of req username password ->
  select_user username db_unknown = (Normal None, db_unknown) ->
  select_user username db_known = (Normal (Some u), db_known) ->
  check_password_hash (user_password_hash u) password = inl e ->
  login check_password_hash token req tokens db_unknown
  = invalid_credentials req tokens db_unknown
  /\
  login check_password_hash token req tokens db_known
  = mkReply (Unhandled e) (req_session req) tokens db_known
  /\
  status_of (reply_response (login check_password_hash token req tokens db_unknown))
  = 401
  /\
  status_of (reply_response (login check_password_hash token req tokens db_known))
  = 500.
Proof.
  intros Hcred Hunknown Hknown Hraises.
  unfold login, invalid_credentials.
  rewrite (login_credentials_select _ _ _ _ _ Hcred Hunknown).
  rewrite (login_credentials_select _ _ _ _ _ Hcred Hknown).
  rewrite Hraises. cbn. auto.
Qed.

(** X23.  As long as the check of the password answers, a login refused
    because the username is unknown and a login refused because the hash
    does not match answer alike (401, the same message); no login that
    is refused, for whatever reason, adds a token; a login that succeeds
    returns a token which afterwards resolves to the identity of the
    user that logged in. *)
Theorem login_outcomes
    (token : string) (req : request) (tokens : gmap string identity) :
  (forall username password db_unknown db_mismatch u,
     credentials_of req username password ->
     select_user username db_unknown = (Normal None, db_unknown) ->
     select_user username db_mismatch = (Normal (Some u), db_mismatch) ->
     check_password_hash (user_password_hash u) password = inr false ->
     login check_password_hash token req tokens db_unknown
     = invalid_credentials req tokens db_unknown
     /\
     login check_password_hash token req tokens db_mismatch
     = invalid_credentials req tokens db_mismatch
     /\
     reply_response (login check_password_hash token req tokens db_unknown)
     = reply_response (login check_password_hash token req tokens db_mismatch))
  /\
  (forall db,
     status_of (reply_response (login check_password_hash token req tokens db)) <> 200 ->
     reply_tokens (login check_password_hash token req tokens db) = tokens)
  /\
  (forall username password db u,
     credentials_of req username password ->
     select_user username db = (Normal (Some u), db) ->
     check_password_hash (user_password_hash u) password = inr true ->
     spaceless token = true ->
     let out := login check_password_hash token req tokens db in
     let who := mkIdentity (user_id u) (user_username u) (user_role u) in
     exists payload,
       reply_response out = Response 200 (JObj payload) /\
       dict_get payload "token" = JStr token /\
       reply_tokens out !! token = Some who /\
       reply_session out = Some who /\
       forall later,
         req_authorization later = Some ("Bearer " +:+ token) ->
         (req_session later = None \/ req_session later = reply_session out) ->
         reply_response (get_current_user later (reply_tokens out) (reply_db out))
         = Response 200 (json_of_identity who)).
Proof.
  split; [|split].
  - intros username password db1 db2 u Hcred H1 H2 Hchk.
    unfold login, invalid_credentials.
    rewrite (login_credentials_select _ _ _ _ _ Hcred H1).
    rewrite (login_credentials_select _ _ _ _ _ Hcred H2).
    rewrite Hchk. cbn. auto.
  - intros db H. apply (login_failure_frame token req tokens db H).
  - intros username password db u Hcred Hsel Hchk Hsp out who. subst out.
    unfold login.
    rewrite (login_credentials_select _ _ _ _ _ Hcred Hsel).
    rewrite Hchk. cbn [negb reply_response reply_tokens reply_session reply_db].
    eexists. split; [reflexivity|]. split; [reflexivity|].
    split; [apply lookup_insert_eq|]. split; [reflexivity|].
    intros later Hauth Hsess. unfold get_current_user, session_or_token.
    cbn [reply_response].
    destruct Hsess as [-> | ->]; [|reflexivity].
    rewrite Hauth, (token_identity_of_header _ _ Hsp), lookup_insert_eq.
    reflexivity.
Qed.

(** C8.  [logout] clears the session and nothing else: the token table
    and the database are as before, so a bearer token issued at login
    still resolves to the same identity and still passes the gate. *)
Theorem logout_keeps_tokens
    (req : request) (tokens : gmap string identity) (db : database) :
  reply_session (logout req tokens db) = None /\
  reply_tokens (logout req tokens db) = tokens /\
  reply_db (logout req tokens db) = db /\
  reply_response (logout req tokens db) = Response 200 (message "Logged out.") /\
  forall token who later,
    tokens !! token = Some who ->
    spaceless token = true ->
    req_session later = reply_session (logout req tokens db) ->
    req_authorization later = Some ("Bearer " +:+ token) ->
    session_or_token later (reply_tokens (logout req tokens db)) = Some who /\
    reply_response
      (get_current_user later (reply_tokens (logout req tokens db))
         (reply_db (logout req tokens db)))
    = Response 200 (json_of_identity who) /\
    forall acc func,
      ident_role who = "a" ->
      privileged acc func later (reply_tokens (logout req tokens db))
        (reply_db (logout req tokens db))
      = func later tokens db.
Proof.
  unfold logout. cbn [reply_session reply_tokens reply_db reply_response].
  repeat split.
  - unfold session_or_token. rewrite H1, H2.
    rewrite (token_identity_of_header _ _ H0). exact H.
  - unfold get_current_user, session_or_token. cbn [reply_response].
    rewrite H1, H2, (token_identity_of_header _ _ H0), H. reflexivity.
  - intros acc func Hrole. unfold privileged, session_or_token.
    rewrite H1, H2, (token_identity_of_header _ _ H0), H, Hrole. reflexivity.
Qed.

(** ** Running blocks *)

Lemma bind_Normal {A B} (m : body A) (k : A -> body B) db a db1 :
  m db = (Normal a, db1) -> bind m k db = k a db1.
Proof. intros H. unfold bind. rewrite H. reflexivity. Qed.

Lemma bind_Return {A B} (m : body A) (k : A -> body B) db st p db1 :
  m db = (Return st p, db1) -> bind m k db = (Return st p, db1).
Proof. intros H. unfold bind. rewrite H. reflexivity. Qed.

Lemma bind_Raise {A B} (m : body A) (k : A -> body B) db e db1 :
  m db = (Raise e, db1) -> bind m k db = (Raise e, db1).
Proof. intros H. unfold bind. rewrite H. reflexivity. Qed.

Lemma bind_Normal_inv {A B} (m : body A) (k : A -> body B) db b db2 :
  bind m k db = (Normal b, db2) ->
  exists a db1, m db = (Normal a, db1) /\ k a db1 = (Normal b, db2).
Proof.
  unfold bind. destruct (m db) as [[a|st p|e] db1]; intros H;
    [eauto | discriminate | discriminate].
Qed.

Lemma for_each_app {A} (before after : list A) (f : A -> body unit) db :
  for_each (before ++ after) f db
  = bind (for_each before f) (fun _ => for_each after f) db.
Proof.
  revert db. induction before as [|x before IH]; intros db; cbn [for_each app].
  - reflexivity.
  - unfold bind in *. destruct (f x db) as [[[]|st p|e] db1]; [|reflexivity..].
    apply IH.
Qed.

(** The loop stops at the first item that returns or raises. *)
Lemma for_each_stops {A} (before after : list A) (item : A) (f : A -> body unit)
    db db1 :
  for_each before f db = (Normal tt, db1) ->
  (forall st p db2, f item db1 = (Return st p, db2) ->
     for_each (before ++ item :: after) f db = (Return st p, db2))
  /\
  (forall e db2, f item db1 = (Raise e, db2) ->
     for_each (before ++ item :: after) f db = (Raise e, db2)).
Proof.
  intros Hb. split; intros; rewrite for_each_app, (bind_Normal _ _ _ _ _ Hb);
    cbn [for_each].
  - apply bind_Return. assumption.
  - apply bind_Raise. assumption.
Qed.

(** ** The checks of [create_sale] *)

Lemma create_sale_checks_pass req tokens customer items user db :
  sale_request req tokens customer items user ->
  create_sale_checks req tokens db = (Normal (customer, JList items, user), db).
Proof.
  intros (fields & Hjson & Hc & Htc & Hd & Hne & Hu & Hu0).
  unfold create_sale_checks. rewrite Hjson.
  assert (Hf : truthy (JObj fields) = true).
  { destruct fields; [|reflexivity]. cbn in Hc. subst customer. discriminate. }
  unfold bind at 1. unfold when at 1. rewrite Hf. cbn [negb ret get eval].
  unfold bind at 1. cbn [ret]. rewrite Hc.
  unfold bind at 1. unfold when at 1. rewrite Htc. cbn [negb ret].
  unfold bind at 1. cbn [ret]. rewrite Hd.
  unfold bind at 1. unfold when at 1.
  replace (truthy (JList items)) with true by (destruct items; [congruence|reflexivity]).
  cbn [negb orb is_list ret]. rewrite Hu.
  unfold bind. apply Z.eqb_neq in Hu0. rewrite Hu0. reflexivity.
Qed.

Lemma create_sale_checks_Normal req tokens customer details user db db' :
  create_sale_checks req tokens db = (Normal (customer, details, user), db') ->
  db' = db /\
  exists items, details = JList items /\
    sale_request req tokens customer items user.
Proof.
  unfold create_sale_checks, sale_request.
  destruct (req_json req) as [| b | z | [] | s | l | fields] eqn:Hjson;
    unfold bind at 1; unfold when at 1;
    destruct (truthy _) eqn:Hf; cbn [negb ret return_ get eval raise];
    try discriminate.
  unfold bind at 1. cbn [ret].
  unfold bind at 1. unfold when at 1.
  destruct (truthy (dict_get fields "customer_id")) eqn:Htc;
    cbn [negb ret return_]; [|discriminate].
  unfold bind at 1. cbn [ret].
  unfold bind at 1. unfold when at 1.
  destruct (truthy (dict_get fields "details")) eqn:Htd;
    cbn [negb orb ret return_]; [|discriminate].
  destruct (is_list (dict_get fields "details")) eqn:Hl;
    cbn [negb ret return_]; [|discriminate].
  unfold bind at 1.
  destruct (acting_user_id req tokens) as [id|] eqn:Hu;
    cbn [return_]; [|discriminate].
  destruct (id =? 0) eqn:Hid; cbn [ret return_]; [discriminate|].
  intros H. injection H as <- <- <- <-. split; [reflexivity|].
  destruct (dict_get fields "details") as [| | | [] | | items |] eqn:Hd; try discriminate.
  exists items. split; [reflexivity|].
  exists fields. repeat split; auto.
  - intros ->. discriminate.
  - apply Z.eqb_neq. assumption.
Qed.

Lemma create_sale_unfold req tokens customer items user db :
  sale_request req tokens customer items user ->
  create_sale req tokens db
  = create_sale_reply req tokens
      (create_sale_inserts customer (JList items) user db).
Proof.
  intros Hreq. unfold create_sale, serve, create_sale_body, create_sale_reply.
  rewrite (bind_Normal _ _ _ _ _ (create_sale_checks_pass _ _ _ _ _ db Hreq)).
  unfold bind, with_database, try_except.
  destruct (create_sale_inserts customer (JList items) user db)
    as [[sale|st p|e] db1]; cbn; try reflexivity.
  destruct e; cbn; try reflexivity. unfold integrity_reply.
  destruct (contains "customer_id" (lower msg)); [reflexivity|].
  destruct (contains "product_id" (lower msg)); reflexivity.
Qed.

(** ** One detail line *)

Lemma create_sale_item_no_subtotal sale fields db :
  truthy (dict_get fields "subtotal_cents") = false ->
  create_sale_item sale (JObj fields) db
  = (Return 400 (message "Each detail requires a subtotal!"), db).
Proof.
  intros H. unfold create_sale_item. cbn [get eval].
  do 4 (unfold bind at 1; cbn [ret]).
  unfold bind at 1. unfold when at 1. rewrite H. reflexivity.
Qed.

Lemma create_sale_item_no_quantity sale fields db :
  truthy (dict_get fields "subtotal_cents") = true ->
  truthy (dict_get fields "product_id") = true ->
  truthy (dict_get fields "quantity") = false ->
  create_sale_item sale (JObj fields) db
  = (Return 400
       (message "Each detail that contains inventory change must have a quantity!"),
     db).
Proof.
  intros Hs Hp Hq. unfold create_sale_item. cbn [get eval].
  do 4 (unfold bind at 1; cbn [ret]).
  unfold bind at 1. unfold when at 1. rewrite Hs. cbn [negb ret].
  rewrite Hp. unfold bind at 1. unfold bind at 1. unfold when at 1.
  rewrite Hq. reflexivity.
Qed.

Lemma int_value_neg (v : json) (z : Z) :
  neg v = inr z -> exists q, int_value v = Some q /\ z = - q.
Proof.
  destruct v; cbn; intros H; try discriminate; injection H as <-; eauto.
Qed.

(** Case analysis on every test a block makes, innermost first. *)
Ltac open_block :=
  cbv beta iota delta [bind when ret return_ raise eval].

Ltac run_block :=
  open_block;
  repeat match goal with
         | |- context [match ?x with _ => _ end] =>
             lazymatch x with
             | context [match _ with _ => _ end] => fail
             | _ => destruct x eqn:?; try discriminate
             end
         end.

Lemma create_sale_item_Normal sale item db db' :
  create_sale_item sale item db = (Normal tt, db') ->
  exists d l, item_rows sale item db d l /\ extends db db' d l.
Proof.
  unfold create_sale_item, item_rows, extends, affects_inventory.
  destruct item as [| b | z | [] | s | l | fields]; cbn [get field];
    try (open_block; discriminate).
  unfold execute_insert_log, execute_insert_detail.
  open_block.
  destruct (truthy (dict_get fields "subtotal_cents")) eqn:Hs;
    [|cbn; discriminate].
  destruct (truthy (dict_get fields "product_id")) eqn:Hp.
  - destruct (truthy (dict_get fields "quantity")) eqn:Hq;
      [|cbn; discriminate].
    destruct (neg (dict_get fields "quantity")) as [e|delta] eqn:Hneg;
      [cbn; discriminate|].
    destruct (bind_param 1 (dict_get fields "subtotal_cents")) as [e|sv] eqn:Hbs;
      [run_block|].
    destruct (bind_param 4 (dict_get fields "note")) as [e|nv] eqn:Hbn;
      [run_block|].
    destruct (bind_param 1 (dict_get fields "product_id")) as [e|p] eqn:Hbp;
      [run_block|].
    run_block. cbn.
    intros H. injection H as <-.
    eexists (mkDetail _ sv sale (Some _) nv), (Some (mkLog _ "s" p delta _)).
    cbn. repeat split; try reflexivity; try assumption.
    + cbn [bind_param] in *. destruct (in_int64 delta); [reflexivity | discriminate].
    + destruct (int_value_neg _ _ Hneg) as (q & Hq1 & Hq2). eauto.
  - destruct (bind_param 1 (dict_get fields "subtotal_cents")) as [e|sv] eqn:Hbs;
      [run_block|].
    destruct (bind_param 4 (dict_get fields "note")) as [e|nv] eqn:Hbn;
      [run_block|].
    run_block. cbn.
    intros H. injection H as <-.
    eexists (mkDetail _ sv sale None nv), None.
    cbn. rewrite app_nil_r. repeat split; try reflexivity; try assumption.
Qed.

Lemma create_sale_item_Return sale item db st p db' :
  create_sale_item sale item db = (Return st p, db') -> st = 400.
Proof.
  unfold create_sale_item, execute_insert_log, execute_insert_detail.
  destruct item; cbn [get]; run_block; try discriminate;
    intros H; injection H; intros; subst; reflexivity.
Qed.

(** ** The loop over the detail lines *)

Lemma for_each_Normal sale items db db' :
  for_each items (create_sale_item sale) db = (Normal tt, db') ->
  exists rows, loop_rows sale items db rows db'.
Proof.
  revert db. induction items as [|item rest IH]; intros db; cbn [for_each].
  - intros H. injection H as <-. exists []. constructor.
  - intros H. apply bind_Normal_inv in H as ([] & db1 & Hitem & Hrest).
    apply create_sale_item_Normal in Hitem as (d & l & Hrows & Hext).
    apply IH in Hrest as (rows & Hloop).
    exists ((d, l) :: rows). econstructor; eassumption.
Qed.

Lemma for_each_Return sale items db st p db' :
  for_each items (create_sale_item sale) db = (Return st p, db') ->
  st = 400.
Proof.
  revert db. induction items as [|item rest IH]; intros db; cbn [for_each].
  - discriminate.
  - unfold bind.
    destruct (create_sale_item sale item db) as [[[]|st1 p1|e] db1] eqn:Hitem.
    + apply IH.
    + intros H. injection H as <- <- <-.
      apply (create_sale_item_Return _ _ _ _ _ _ Hitem).
    + discriminate.
Qed.

Lemma loop_rows_tables sale items db rows db' :
  loop_rows sale items db rows db' ->
  users db' = users db /\
  customers db' = customers db /\
  products db' = products db /\
  sales db' = sales db /\
  sales_details db' = sales_details db ++ new_details rows /\
  inventory_logs db' = inventory_logs db ++ new_logs rows.
Proof.
  induction 1 as [db | item rest db d l db1 rows db2 Hrows Hext Hloop IH].
  - cbn. rewrite !app_nil_r. auto 10.
  - destruct Hext as (Hu & Hc & Hp & Hs & Hd & Hl).
    destruct IH as (Hu' & Hc' & Hp' & Hs' & Hd' & Hl').
    rewrite Hu', Hc', Hp', Hs', Hd', Hl', Hu, Hc, Hp, Hs, Hd, Hl.
    cbn. rewrite <- !app_assoc. auto 10.
Qed.

Lemma loop_rows_lines sale items db rows db' :
  loop_rows sale items db rows db' ->
  Forall2 (line_rows sale) items rows.
Proof.
  induction 1 as [db | item rest db d l db1 rows db2 Hrows Hext Hloop IH];
    constructor; [|assumption].
  destruct Hrows as (_ & Hsale & Hts & Hsub & Hnote & Hl).
  unfold line_rows. cbn [fst snd]. repeat split; try assumption.
  destruct l as [lg|]; [|assumption].
  destruct Hl as (Ha & Hid & _ & Ht & Hp & Hr & Htq & Hq). auto 10.
Qed.

Lemma line_rows_counts sale items rows :
  Forall2 (line_rows sale) items rows ->
  List.length rows = List.length items /\
  List.length (new_logs rows) = List.length (List.filter affects_inventory items) /\
  List.length (List.filter has_log (new_details rows))
  = List.length (List.filter affects_inventory items).
Proof.
  induction 1 as [|item row items rows Hline Hrest IH]; [auto|].
  destruct IH as (IH1 & IH2 & IH3).
  destruct row as [d l]. destruct Hline as (_ & _ & _ & _ & Hl). cbn [fst snd] in Hl.
  cbn [List.length List.filter new_logs new_details flat_map List.map fst snd].
  fold (new_logs rows). fold (new_details rows).
  destruct l as [lg|].
  - destruct Hl as (-> & Hid & _). unfold has_log. rewrite Hid.
    cbn [option_row app List.length]. auto.
  - destruct Hl as (-> & Hid). unfold has_log. rewrite Hid.
    cbn [option_row app]. auto.
Qed.

(** ** The statements under [try:] *)

Lemma execute_insert_sale_Normal customer user db sale db1 :
  execute_insert_sale customer user db = (Normal sale, db1) ->
  exists c,
    bind_param 1 customer = inr c /\
    sale = next_rowid (List.map sale_id (sales db)) /\
    db1 = set_sales db (sales db ++ [mkSale sale c user]).
Proof.
  unfold execute_insert_sale. run_block.
  intros H. injection H as <- <-. eauto.
Qed.

Lemma create_sale_inserts_Normal customer items user db sale db' :
  create_sale_inserts customer (JList items) user db = (Normal sale, db') ->
  exists db1 rows,
    execute_insert_sale customer user db = (Normal sale, db1) /\
    loop_rows sale items db1 rows db'.
Proof.
  unfold create_sale_inserts. cbn [items_of]. intros H.
  apply bind_Normal_inv in H as (sale' & db1 & Hins & H).
  apply bind_Normal_inv in H as ([] & db2 & Hloop & H).
  injection H as <- <-.
  apply for_each_Normal in Hloop as (rows & Hloop). eauto.
Qed.

Lemma create_sale_inserts_Return customer items user db st p db' :
  create_sale_inserts customer (JList items) user db = (Return st p, db') ->
  st = 400.
Proof.
  unfold create_sale_inserts. cbn [items_of]. unfold bind at 1.
  destruct (execute_insert_sale customer user db) as [[sale|st1 p1|e] db1] eqn:Hins.
  - unfold bind.
    destruct (for_each items (create_sale_item sale) db1)
      as [[[]|st2 p2|e] db2] eqn:Hloop; try discriminate.
    intros H. injection H as <- <- <-. apply (for_each_Return _ _ _ _ _ _ Hloop).
  - revert Hins. unfold execute_insert_sale. run_block.
  - discriminate.
Qed.

Lemma create_sale_checks_Return req tokens db st p db' :
  create_sale_checks req tokens db = (Return st p, db') ->
  db' = db /\ (st = 400 \/ st = 401).
Proof.
  unfold create_sale_checks. run_block;
    intros H; injection H; intros; subst; auto.
Qed.

Lemma create_sale_checks_Raise req tokens db e db' :
  create_sale_checks req tokens db = (Raise e, db') -> db' = db.
Proof.
  unfold create_sale_checks. run_block;
    intros H; injection H; intros; subst; auto.
Qed.

(** A request the checks refuse never reaches the database. *)
Lemma create_sale_refused_early req tokens db :
  (forall checked, create_sale_checks req tokens db <> (Normal checked, db)) ->
  reply_db (create_sale req tokens db) = db /\
  status_of (reply_response (create_sale req tokens db)) <> 201.
Proof.
  intros Hrefused. unfold create_sale, serve, create_sale_body.
  destruct (create_sale_checks req tokens db) as [[checked|st p|e] db1] eqn:Hchk.
  - exfalso. apply (Hrefused checked). destruct checked as [[customer details] user].
    destruct (create_sale_checks_Normal _ _ _ _ _ _ _ Hchk) as (-> & _). reflexivity.
  - rewrite (bind_Return _ _ _ _ _ _ Hchk). cbn.
    apply create_sale_checks_Return in Hchk as (-> & [-> | ->]);
      split; [reflexivity | discriminate | reflexivity | discriminate].
  - rewrite (bind_Raise _ _ _ _ _ Hchk). cbn.
    apply create_sale_checks_Raise in Hchk as ->. split; [reflexivity | discriminate].
Qed.

(** A request answered 201 passed the checks, and every statement under
    [try:] ran to the end. *)
Lemma create_sale_created req tokens db :
  status_of (reply_response (create_sale req tokens db)) = 201 ->
  exists customer items user sale,
    sale_request req tokens customer items user /\
    create_sale_inserts customer (JList items) user db
    = (Normal sale, reply_db (create_sale req tokens db)) /\
    reply_response (create_sale req tokens db)
    = Response 201
        (JObj [("message", JStr "Sale has been created."); ("id", JInt sale)]).
Proof.
  destruct (create_sale_checks req tokens db) as [[[[customer details] user]|st p|e] db1]
    eqn:Hchk.
  - apply create_sale_checks_Normal in Hchk as (-> & items & -> & Hreq).
    rewrite (create_sale_unfold _ _ _ _ _ db Hreq). unfold create_sale_reply.
    destruct (create_sale_inserts customer (JList items) user db)
      as [[sale|st p|e] db2] eqn:Hins; cbn [fst snd reply_response reply_db status_of].
    + intros _. exists customer, items, user, sale. auto.
    + intros ->. apply create_sale_inserts_Return in Hins. discriminate.
    + destruct e; cbn; discriminate.
  - unfold create_sale, serve, create_sale_body.
    rewrite (bind_Return _ _ _ _ _ _ Hchk). cbn.
    apply create_sale_checks_Return in Hchk as (_ & [-> | ->]); discriminate.
  - unfold create_sale, serve, create_sale_body.
    rewrite (bind_Raise _ _ _ _ _ Hchk). cbn. discriminate.
Qed.

(** C2.  A create-sale request that is accepted (answered 201) adds one
    sale row, one detail row per line, in the order of the lines, and
    one log row per line that references a product, and nothing else.
    With N such lines there are N new logs and N new details that carry
    a log id; the log of a line has the negated quantity of the line as
    its delta, and the detail of a line without a product has no log
    id. *)
Theorem create_sale_rows
    (req : request) (tokens : gmap string identity) (db : database) :
  status_of (reply_response (create_sale req tokens db)) = 201 ->
  let db' := reply_db (create_sale req tokens db) in
  exists customer items user sale c rows,
    sale_request req tokens customer items user /\
    reply_response (create_sale req tokens db)
    = Response 201
        (JObj [("message", JStr "Sale has been created."); ("id", JInt sale)]) /\
    bind_param 1 customer = inr c /\
    users db' = users db /\
    customers db' = customers db /\
    products db' = products db /\
    sales db' = sales db ++ [mkSale sale c user] /\
    sales_details db' = sales_details db ++ new_details rows /\
    inventory_logs db' = inventory_logs db ++ new_logs rows /\
    Forall2 (line_rows sale) items rows /\
    List.length (new_details rows) = List.length items /\
    List.length (new_logs rows)
    = List.length (List.filter affects_inventory items) /\
    List.length (List.filter has_log (new_details rows))
    = List.length (List.filter affects_inventory items).
Proof.
  intros H201 db'. subst db'.
  destruct (create_sale_created _ _ _ H201)
    as (customer & items & user & sale & Hreq & Hins & Hresp).
  apply create_sale_inserts_Normal in Hins as (db1 & rows & Hsale & Hloop).
  apply execute_insert_sale_Normal in Hsale as (c & Hc & _ & ->).
  pose proof (loop_rows_tables _ _ _ _ _ Hloop) as (Hu & Hcu & Hp & Hs & Hd & Hl).
  pose proof (loop_rows_lines _ _ _ _ _ Hloop) as Hlines.
  pose proof (line_rows_counts _ _ _ Hlines) as (Hn1 & Hn2 & Hn3).
  exists customer, items, user, sale, c, rows.
  rewrite Hu, Hcu, Hp, Hs, Hd, Hl. cbn.
  unfold new_details in *. rewrite length_map.
  repeat split; assumption.
Qed.

(** ** Lines that are turned down *)

Lemma create_sale_stops_at req tokens customer before item after user db
    sale db1 db2 st p db3 :
  sale_request req tokens customer (before ++ item :: after) user ->
  execute_insert_sale customer user db = (Normal sale, db1) ->
  for_each before (create_sale_item sale) db1 = (Normal tt, db2) ->
  create_sale_item sale item db2 = (Return st p, db3) ->
  create_sale req tokens db
  = mkReply (Response st p) (req_session req) tokens db3.
Proof.
  intros Hreq Hins Hbefore Hitem.
  rewrite (create_sale_unfold _ _ _ _ _ db Hreq).
  unfold create_sale_inserts. cbn [items_of].
  rewrite (bind_Normal _ _ _ _ _ Hins).
  destruct (for_each_stops before after item _ _ _ Hbefore) as (Hret & _).
  rewrite (bind_Return _ _ _ _ _ _ (Hret _ _ _ Hitem)). reflexivity.
Qed.

Lemma dict_get_absent (fields : list (string * json)) k :
  assoc k fields = None -> dict_get fields k = JNull.
Proof. intros H. unfold dict_get. rewrite H. reflexivity. Qed.

Lemma zero_or_absent_falsy (fields : list (string * json)) k :
  dict_get fields k = JInt 0 \/ assoc k fields = None ->
  truthy (dict_get fields k) = false.
Proof.
  intros [-> | H]; [reflexivity|]. rewrite (dict_get_absent _ _ H). reflexivity.
Qed.

Lemma sale_request_items req tokens customer items user fields lines :
  sale_request req tokens customer items user ->
  req_json req = JObj fields ->
  dict_get fields "details" = JList lines ->
  items = lines.
Proof.
  intros (f & Hj & _ & _ & Hd & _) Hj' Hd'. congruence.
Qed.

Lemma Forall2_In_left {A B} (R : A -> B -> Prop) (l : list A) (k : list B) (x : A) :
  Forall2 R l k -> In x l -> exists y, In y k /\ R x y.
Proof.
  induction 1 as [|a b l k Hab Hrest IH]; intros Hin; [destruct Hin|].
  destruct Hin as [-> | Hin].
  - exists b. split; [left; reflexivity | assumption].
  - destruct (IH Hin) as (y & Hy & Hxy). exists y. split; [right|]; assumption.
Qed.

(** C9, as the code has it.  Zero is treated as absent by
    [create_sale].  A customer id of 0 is answered like a missing one; a
    request with a line whose subtotal is 0, or with a line that
    references a product and has quantity 0, is never accepted, and when
    the loop reaches such a line, every line before it having been
    accepted, the answer is the 400 of the missing field.  A line with a
    0 and the line with that key left out are processed alike, whatever
    the database. *)
Theorem zero_treated_as_absent
    (req : request) (tokens : gmap string identity) (db : database) :
  (forall fields,
     req_json req = JObj fields ->
     fields <> [] ->
     dict_get fields "customer_id" = JInt 0 \/ assoc "customer_id" fields = None ->
     create_sale req tokens db
     = turned_away req tokens db 400 "A customer is required!")
  /\
  (forall data lines fields,
     req_json req = JObj data ->
     dict_get data "details" = JList lines ->
     In (JObj fields) lines ->
     (dict_get fields "subtotal_cents" = JInt 0 \/ assoc "subtotal_cents" fields = None)
     \/ (truthy (dict_get fields "product_id") = true /\
         (dict_get fields "quantity" = JInt 0 \/ assoc "quantity" fields = None)) ->
     status_of (reply_response (create_sale req tokens db)) <> 201)
  /\
  (forall customer before fields after user sale db1 db2,
     sale_request req tokens customer (before ++ JObj fields :: after) user ->
     execute_insert_sale customer user db = (Normal sale, db1) ->
     for_each before (create_sale_item sale) db1 = (Normal tt, db2) ->
     (dict_get fields "subtotal_cents" = JInt 0 \/ assoc "subtotal_cents" fields = None ->
      reply_response (create_sale req tokens db)
      = Response 400 (message "Each detail requires a subtotal!"))
     /\
     (truthy (dict_get fields "subtotal_cents") = true ->
      truthy (dict_get fields "product_id") = true ->
      dict_get fields "quantity" = JInt 0 \/ assoc "quantity" fields = None ->
      reply_response (create_sale req tokens db)
      = Response 400
          (message "Each detail that contains inventory change must have a quantity!")))
  /\
  (forall sale zeroed absent db0,
     dict_get zeroed "product_id" = dict_get absent "product_id" ->
     dict_get zeroed "note" = dict_get absent "note" ->
     dict_get zeroed "subtotal_cents" = dict_get absent "subtotal_cents"
     \/ (dict_get zeroed "subtotal_cents" = JInt 0 /\
         assoc "subtotal_cents" absent = None) ->
     dict_get zeroed "quantity" = dict_get absent "quantity"
     \/ (dict_get zeroed "quantity" = JInt 0 /\ assoc "quantity" absent = None) ->
     create_sale_item sale (JObj zeroed) db0
     = create_sale_item sale (JObj absent) db0).
Proof.
  split; [|split; [|split]]; cycle 3.
  - intros sale zeroed absent db0 Hp Hn Hs Hq.
    unfold create_sale_item. cbn [get]. open_block. rewrite Hp, Hn.
    destruct Hs as [-> | (-> & Hs)];
      [|rewrite (dict_get_absent _ _ Hs); reflexivity].
    destruct (truthy (dict_get absent "subtotal_cents")); [|reflexivity].
    cbn [negb].
    destruct Hq as [-> | (-> & Hq)]; [reflexivity|].
    rewrite (dict_get_absent _ _ Hq).
    destruct (truthy (dict_get absent "product_id")); reflexivity.
  - intros fields Hj Hne Hc.
    apply zero_or_absent_falsy in Hc.
    unfold create_sale, serve, create_sale_body, create_sale_checks, turned_away.
    rewrite Hj. cbn [get].
    destruct fields as [|f fields]; [congruence|].
    open_block. cbn [truthy negb]. rewrite Hc. reflexivity.
  - intros data lines fields Hj Hd Hin Hzero H201.
    destruct (create_sale_created _ _ _ H201)
      as (customer & items & user & sale & Hreq & Hins & _).
    rewrite (sale_request_items _ _ _ _ _ _ _ Hreq Hj Hd) in Hins.
    apply create_sale_inserts_Normal in Hins as (db1 & rows & _ & Hloop).
    apply loop_rows_lines in Hloop.
    destruct (Forall2_In_left _ _ _ _ Hloop Hin) as (row & _ & Hrow).
    destruct Hrow as (_ & Hts & _ & _ & Hl). cbn [field] in Hts.
    destruct Hzero as [Hz | (Hp & Hz)]; apply zero_or_absent_falsy in Hz.
    + congruence.
    + destruct (snd row) as [lg|].
      * destruct Hl as (_ & _ & _ & _ & _ & Htq & _). cbn [field] in Htq. congruence.
      * destruct Hl as (Ha & _). unfold affects_inventory in Ha. cbn [field] in Ha.
        congruence.
  - intros customer before fields after user sale db1 db2 Hreq Hins Hbefore. split.
    + intros Hz. apply zero_or_absent_falsy in Hz.
      rewrite (create_sale_stops_at _ _ _ _ _ _ _ _ _ _ _ _ _ _ Hreq Hins Hbefore
                 (create_sale_item_no_subtotal _ _ _ Hz)).
      reflexivity.
    + intros Hs Hp Hz. apply zero_or_absent_falsy in Hz.
      rewrite (create_sale_stops_at _ _ _ _ _ _ _ _ _ _ _ _ _ _ Hreq Hins Hbefore
                 (create_sale_item_no_quantity _ _ _ Hs Hp Hz)).
      reflexivity.
Qed.

(** C4, as the code has it.  A line that references a product and whose
    quantity is falsy (absent, null, zero) is answered 400 when the loop
    reaches it, and no log row is written for it.  The test is on
    truthiness, not on sign: a line with a negative quantity passes it,
    and when such a line is accepted its log carries the negated, hence
    positive, quantity. *)
Theorem falsy_quantity_rejected
    (req : request) (tokens : gmap string identity) (db : database) :
  (forall customer before fields after user sale db1 db2,
     sale_request req tokens customer (before ++ JObj fields :: after) user ->
     execute_insert_sale customer user db = (Normal sale, db1) ->
     for_each before (create_sale_item sale) db1 = (Normal tt, db2) ->
     truthy (dict_get fields "product_id") = true ->
     truthy (dict_get fields "quantity") = false ->
     reply_response (create_sale req tokens db)
     = Response 400
         (message
            (if truthy (dict_get fields "subtotal_cents")
             then "Each detail that contains inventory change must have a quantity!"
             else "Each detail requires a subtotal!")) /\
     inventory_logs (reply_db (create_sale req tokens db))
     = inventory_logs db2)
  /\
  (forall sale fields q db0,
     truthy (dict_get fields "subtotal_cents") = true ->
     truthy (dict_get fields "product_id") = true ->
     dict_get fields "quantity" = JInt q ->
     q <> 0 ->
     (forall st p db', create_sale_item sale (JObj fields) db0
                       <> (Return st p, db')) /\
     (forall db', create_sale_item sale (JObj fields) db0 = (Normal tt, db') ->
        exists lg, inventory_logs db' = inventory_logs db0 ++ [lg] /\
                   log_delta lg = - q)).
Proof.
  split.
  - intros customer before fields after user sale db1 db2 Hreq Hins Hbefore Hp Hq.
    destruct (truthy (dict_get fields "subtotal_cents")) eqn:Hs.
    + rewrite (create_sale_stops_at _ _ _ _ _ _ _ _ _ _ _ _ _ _ Hreq Hins Hbefore
                 (create_sale_item_no_quantity _ _ _ Hs Hp Hq)).
      split; reflexivity.
    + rewrite (create_sale_stops_at _ _ _ _ _ _ _ _ _ _ _ _ _ _ Hreq Hins Hbefore
                 (create_sale_item_no_subtotal _ _ _ Hs)).
      split; reflexivity.
  - intros sale fields q db0 Hs Hp Hq Hq0. split.
    + intros st p db'.
      unfold create_sale_item, execute_insert_log, execute_insert_detail.
      cbn [get]. open_block. rewrite Hs, Hp, Hq. cbn [truthy negb].
      apply Z.eqb_neq in Hq0. rewrite Hq0. cbn [negb neg].
      run_block; discriminate.
    + intros db' Hrun.
      apply create_sale_item_Normal in Hrun as (d & l & Hrows & Hext).
      destruct Hrows as (_ & _ & _ & _ & _ & Hl).
      destruct l as [lg|].
      * destruct Hl as (_ & _ & _ & _ & _ & _ & _ & q' & Hq' & Hdelta).
        cbn [field] in Hq'. rewrite Hq in Hq'. injection Hq' as <-.
        exists lg. split; [apply Hext | assumption].
      * destruct Hl as (Ha & _). unfold affects_inventory in Ha. cbn [field] in Ha.
        congruence.
Qed.

(** ** Mapping of exceptions *)

Lemma create_sale_raises_at req tokens customer before item after user db
    sale db1 db2 e db3 :
  sale_request req tokens customer (before ++ item :: after) user ->
  execute_insert_sale customer user db = (Normal sale, db1) ->
  for_each before (create_sale_item sale) db1 = (Normal tt, db2) ->
  create_sale_item sale item db2 = (Raise e, db3) ->
  create_sale_inserts customer (JList (before ++ item :: after)) user db
  = (Raise e, db3).
Proof.
  intros Hreq Hins Hbefore Hitem.
  unfold create_sale_inserts. cbn [items_of].
  rewrite (bind_Normal _ _ _ _ _ Hins).
  destruct (for_each_stops before after item _ _ _ Hbefore) as (_ & Hraise).
  rewrite (bind_Raise _ _ _ _ _ (Hraise _ _ Hitem)). reflexivity.
Qed.

(** C6, as the code has it.  An exception under [try:] that is not an
    [IntegrityError] is answered 500, and the message is "Server error: "
    followed by the exception's own text: what went wrong inside is
    shown to the caller.  So it is for a line the loop reaches whose
    quantity cannot be negated. *)
Theorem create_sale_error_mapping
    (req : request) (tokens : gmap string identity) (db : database) :
  (forall customer items user e db1,
     sale_request req tokens customer items user ->
     create_sale_inserts customer (JList items) user db = (Raise e, db1) ->
     (forall text, e <> IntegrityError text) ->
     reply_response (create_sale req tokens db)
     = Response 500 (message ("Server error: " +:+ str_exn e)))
  /\
  (forall customer before fields after user sale db1 db2 e,
     sale_request req tokens customer (before ++ JObj fields :: after) user ->
     execute_insert_sale customer user db = (Normal sale, db1) ->
     for_each before (create_sale_item sale) db1 = (Normal tt, db2) ->
     truthy (dict_get fields "subtotal_cents") = true ->
     truthy (dict_get fields "product_id") = true ->
     truthy (dict_get fields "quantity") = true ->
     neg (dict_get fields "quantity") = inl e ->
     reply_response (create_sale req tokens db)
     = Response 500 (message ("Server error: " +:+ str_exn e))).
Proof.
  split.
  - intros customer items user e db1 Hreq Hins Hclass.
    rewrite (create_sale_unfold _ _ _ _ _ db Hreq), Hins.
    destruct e; try reflexivity. destruct (Hclass msg). reflexivity.
  - intros customer before fields after user sale db1 db2 e
      Hreq Hins Hbefore Hs Hp Hq Hneg.
    assert (Hitem : create_sale_item sale (JObj fields) db2 = (Raise e, db2)).
    { unfold create_sale_item. cbn [get]. open_block.
      rewrite Hs, Hp, Hq. cbn [negb]. rewrite Hneg. reflexivity. }
    rewrite (create_sale_unfold _ _ _ _ _ db Hreq).
    rewrite (create_sale_raises_at _ _ _ _ _ _ _ _ _ _ _ _ _ Hreq Hins Hbefore Hitem).
    unfold create_sale_reply. cbn [fst reply_response].
    destruct (dict_get fields "quantity") as [| b | z | [] | s | l | f];
      cbn in Hneg; try discriminate; injection Hneg as <-; reflexivity.
Qed.

(** ** Writes that outlive a refused request *)

(** C1, at a request whose second line lacks a subtotal: the answer is
    400, and the sale row, the log row and the detail row written for
    the first line are committed. *)
Theorem create_sale_partial_write :
  let out :=
    create_sale subtotal_zero ∅ shop in
  reply_response out = Response 400 (message "Each detail requires a subtotal!") /\
  sales (reply_db out) = [mkSale 1 (SInt 1) 2] /\
  sales_details (reply_db out) = [mkDetail 1 (SInt 500) 1 (Some 1) SNull] /\
  inventory_logs (reply_db out)
  = [mkLog 1 "s" (SInt 5) (-2) (SText "Automatic logging from sale #1: None")].
Proof. vm_compute. auto. Qed.

(** ** Deleting a sale *)

Lemma filter_all {A} (f : A -> bool) (l : list A) :
  (forall x, f x = true) -> List.filter f l = l.
Proof.
  intros H. induction l as [|x l IH]; cbn; [reflexivity|].
  rewrite H, IH. reflexivity.
Qed.

Lemma delete_sale_run sale req tokens db :
  in_int64 sale = true ->
  delete_sale sale req tokens db
  = mkReply
      (if Z.of_nat (List.length (List.filter (fun r => sale_id r =? sale) (sales db))) =? 0
       then Response 404 (message "Sale is not found!")
       else Response 200 (message "Sale has been deleted."))
      (req_session req) tokens (without_sale sale db).
Proof.
  intros Hrange.
  unfold delete_sale, serve, delete_sale_body, with_database,
    select_detail_log_ids, execute_delete_logs, execute_delete_details,
    execute_delete_sale.
  cbn [bind_param]. rewrite Hrange. open_block.
  fold (sale_log_ids sale db).
  assert (Hlogs :
    (if match sale_log_ids sale db with [] => false | _ => true end
     then List.filter (fun r => negb (existsb (Z.eqb (log_id r)) (sale_log_ids sale db)))
            (inventory_logs db)
     else inventory_logs db)
    = List.filter (fun r => negb (existsb (Z.eqb (log_id r)) (sale_log_ids sale db)))
        (inventory_logs db)).
  { destruct (sale_log_ids sale db); [|reflexivity].
    symmetry. apply filter_all. reflexivity. }
  unfold without_sale. rewrite <- Hlogs.
  destruct (sale_log_ids sale db); cbn;
    destruct (Z.of_nat _ =? 0); reflexivity.
Qed.

Lemma delete_sale_out_of_range sale req tokens db :
  in_int64 sale = false ->
  delete_sale sale req tokens db
  = mkReply
      (Unhandled (OverflowError "Python int too large to convert to SQLite INTEGER"))
      (req_session req) tokens db.
Proof.
  intros Hrange.
  unfold delete_sale, serve, delete_sale_body, with_database, select_detail_log_ids.
  cbn [bind_param]. rewrite Hrange. reflexivity.
Qed.

Lemma sale_log_ids_spec sale db i :
  existsb (Z.eqb i) (sale_log_ids sale db) = true <->
  exists d, In d (sales_details db) /\ detail_sale_id d = sale /\
            detail_log_id d = Some i.
Proof.
  rewrite existsb_exists. unfold sale_log_ids. split.
  - intros (j & Hin & Heq). apply Z.eqb_eq in Heq. subst j.
    apply list_elem_of_In, list_elem_of_omap in Hin as (o & Ho & ->).
    apply list_elem_of_In, in_map_iff in Ho as (d & Hd & Hin).
    apply filter_In in Hin as (Hin & Hsale). apply Z.eqb_eq in Hsale.
    exists d. auto.
  - intros (d & Hin & Hsale & Hlog). exists i. split; [|apply Z.eqb_refl].
    apply list_elem_of_In, list_elem_of_omap. exists (Some i). split; [|reflexivity].
    apply list_elem_of_In, in_map_iff. exists d. split; [assumption|].
    apply filter_In. split; [assumption|]. apply Z.eqb_eq. assumption.
Qed.

Lemma rowcount_zero {A} (f : A -> bool) (l : list A) :
  (Z.of_nat (List.length (List.filter f l)) =? 0) = true <->
  forall x, In x l -> f x = false.
Proof.
  rewrite Z.eqb_eq. split.
  - intros H x Hin. destruct (f x) eqn:Hfx; [|reflexivity].
    assert (Hx : In x (List.filter f l)) by (apply filter_In; auto).
    destruct (List.filter f l); [destruct Hx | cbn in H; lia].
  - intros H. induction l as [|x l IH]; [reflexivity|].
    cbn. rewrite (H x (or_introl eq_refl)). apply IH.
    intros y Hy. apply H. right. assumption.
Qed.

(** Whichever statement fails, nothing of the cascade stays. *)
Lemma delete_sale_under_cases engine sale req tokens db :
  in_int64 sale = true ->
  delete_sale_under engine sale req tokens db = delete_sale sale req tokens db \/
  reply_db (delete_sale_under engine sale req tokens db) = db /\
  exists text,
    reply_response (delete_sale_under engine sale req tokens db)
    = Unhandled (OperationalError text).
Proof.
  intros Hrange.
  unfold delete_sale_under, delete_sale, serve, delete_sale_body_under,
    delete_sale_body, with_database, attempt, select_detail_log_ids,
    execute_delete_logs, execute_delete_details, execute_delete_sale.
  cbn [bind_param]. rewrite Hrange. open_block.
  destruct (engine 0%nat) as [t0|]; [right; cbn; eauto|].
  destruct (engine 2%nat) as [t2|], (engine 3%nat) as [t3|],
    (omap (fun i : option Z => i) _) as [|i ids];
    try destruct (engine 1%nat) as [t1|];
    cbn; eauto;
    destruct (Z.of_nat _ =? 0); cbn; eauto.
Qed.

(** C3.  [delete_sale] removes the logs the details of the sale refer
    to, the details and the sale row, and touches nothing else; it
    answers 404 exactly when no sale row had the id, that is when the
    last [DELETE] affected no row; a second deletion of the same id
    answers 404.  An id that SQLite cannot hold raises before any
    statement runs, and nothing changes.  The three deletions are one
    transaction: whichever statement the engine fails, the database is
    left as it was, and when it fails none, as the whole cascade leaves
    it; no part of the cascade is ever left behind alone. *)
Theorem delete_sale_cascade
    (sale : Z) (req : request) (tokens : gmap string identity) (db : database) :
  let out := delete_sale sale req tokens db in
  (in_int64 sale = true ->
   (forall s, In s (sales (reply_db out)) <->
              In s (sales db) /\ sale_id s <> sale) /\
   (forall d, In d (sales_details (reply_db out)) <->
              In d (sales_details db) /\ detail_sale_id d <> sale) /\
   (forall l, In l (inventory_logs (reply_db out)) <->
              In l (inventory_logs db) /\
              ~ (exists d, In d (sales_details db) /\ detail_sale_id d = sale /\
                           detail_log_id d = Some (log_id l))) /\
   users (reply_db out) = users db /\
   customers (reply_db out) = customers db /\
   products (reply_db out) = products db /\
   reply_tokens out = tokens /\
   (reply_response out = Response 404 (message "Sale is not found!") <->
    forall s, In s (sales db) -> sale_id s <> sale) /\
   (reply_response out = Response 200 (message "Sale has been deleted.") <->
    exists s, In s (sales db) /\ sale_id s = sale) /\
   (forall again tokens',
      reply_response (delete_sale sale again tokens' (reply_db out))
      = Response 404 (message "Sale is not found!")))
  /\
  (in_int64 sale = false ->
   reply_db out = db /\ status_of (reply_response out) = 500)
  /\
  delete_sale_under never_fails sale req tokens db = out
  /\
  (forall engine,
     let interrupted := delete_sale_under engine sale req tokens db in
     (interrupted = out \/
      reply_db interrupted = db /\
      exists text, reply_response interrupted = Unhandled (OperationalError text)) /\
     (forall text,
        engine 0%nat = None -> engine 1%nat = None -> engine 2%nat = None ->
        engine 3%nat = Some text -> in_int64 sale = true ->
        reply_db interrupted = db /\
        reply_response interrupted = Unhandled (OperationalError text))).
Proof.
  intros out. subst out. split; [|split; [|split; [reflexivity|]]]; cycle 2.
  - intros engine interrupted. subst interrupted. split.
    + destruct (in_int64 sale) eqn:Hrange.
      * apply delete_sale_under_cases. assumption.
      * destruct (engine 0%nat) as [text|] eqn:H0.
        -- right. unfold delete_sale_under, serve, delete_sale_body_under,
             with_database, attempt. rewrite H0. cbn. eauto.
        -- left. rewrite (delete_sale_out_of_range _ _ _ _ Hrange).
           unfold delete_sale_under, serve, delete_sale_body_under,
             with_database, attempt, select_detail_log_ids.
           rewrite H0. cbn [bind_param]. rewrite Hrange. reflexivity.
    + intros text H0 H1 H2 H3 Hrange.
      unfold delete_sale_under, serve, delete_sale_body_under, with_database,
        attempt, select_detail_log_ids, execute_delete_logs,
        execute_delete_details, execute_delete_sale.
      rewrite H0, H1, H2, H3. cbn [bind_param]. rewrite Hrange. open_block.
      destruct (omap _ _); cbn; auto.
  - intros Hrange. rewrite (delete_sale_run _ _ _ _ Hrange).
    cbn [reply_db reply_tokens reply_response without_sale sales sales_details
         inventory_logs users customers products].
    split; [|split; [|split]].
    + intros s. rewrite filter_In, negb_true_iff, Z.eqb_neq. reflexivity.
    + intros d. rewrite filter_In, negb_true_iff, Z.eqb_neq. reflexivity.
    + intros l. rewrite filter_In, negb_true_iff, <- not_true_iff_false,
        sale_log_ids_spec. reflexivity.
    + repeat split; try reflexivity.
      * destruct (Z.of_nat _ =? 0) eqn:Hcount; [|discriminate].
        intros _ s Hin. apply (proj1 (rowcount_zero _ _) Hcount) in Hin.
        apply Z.eqb_neq. assumption.
      * intros Hnone.
        replace (Z.of_nat _ =? 0) with true; [reflexivity|].
        symmetry. apply rowcount_zero. intros s Hin. apply Z.eqb_neq. auto.
      * destruct (Z.of_nat _ =? 0) eqn:Hcount; [discriminate|].
        intros _.
        destruct (List.filter (fun r => sale_id r =? sale) (sales db)) as [|s l] eqn:Hf;
          [discriminate|].
        assert (Hs : In s (List.filter (fun r => sale_id r =? sale) (sales db)))
          by (rewrite Hf; left; reflexivity).
        apply filter_In in Hs as (Hin & Heq). apply Z.eqb_eq in Heq. eauto.
      * intros (s & Hin & Heq).
        destruct (Z.of_nat _ =? 0) eqn:Hcount; [|reflexivity].
        apply (proj1 (rowcount_zero _ _) Hcount) in Hin.
        apply Z.eqb_neq in Hin. contradiction.
      * intros again tokens'. rewrite (delete_sale_run _ _ _ _ Hrange).
        cbn [reply_response without_sale sales].
        replace (Z.of_nat _ =? 0) with true; [reflexivity|].
        symmetry. apply rowcount_zero. intros s Hin.
        apply filter_In in Hin as (_ & Hne). apply negb_true_iff. assumption.
  - intros Hrange. rewrite (delete_sale_out_of_range _ _ _ _ Hrange).
    split; reflexivity.
Qed.

(** ** Row ids *)

Lemma max_id_nonneg ids : 0 <= max_id ids.
Proof. unfold max_id. induction ids as [|x ids IH]; cbn; lia. Qed.

Lemma max_id_app a b : max_id (a ++ b) = Z.max (max_id a) (max_id b).
Proof.
  pose proof (max_id_nonneg b) as Hb. unfold max_id in *.
  induction a as [|x a IH]; cbn; lia.
Qed.

Lemma max_id_ge ids x : In x ids -> x <= max_id ids.
Proof.
  unfold max_id.
  induction ids as [|y ids IH]; intros Hin; [destruct Hin|].
  cbn. destruct Hin as [-> | Hin]; [lia|].
  specialize (IH Hin). lia.
Qed.

Lemma ascending_from_weaken b b' ids :
  b' <= b -> ascending_from b ids -> ascending_from b' ids.
Proof. destruct ids; cbn; [auto|]. intros ? [? ?]. split; [lia|assumption]. Qed.

Lemma ascending_from_above b ids x :
  ascending_from b ids -> In x ids -> b < x.
Proof.
  revert b. induction ids as [|y ids IH]; intros b Hasc Hin; [destruct Hin|].
  destruct Hasc as (Hby & Hrest). destruct Hin as [-> | Hin]; [assumption|].
  specialize (IH _ Hrest Hin). lia.
Qed.

Lemma loop_rows_ids sale items db rows db' :
  loop_rows sale items db rows db' ->
  ascending_from (max_id (List.map detail_id (sales_details db)))
    (List.map detail_id (new_details rows)) /\
  ascending_from (max_id (List.map log_id (inventory_logs db)))
    (List.map log_id (new_logs rows)).
Proof.
  induction 1 as [db | item rest db d l db1 rows db2 Hrows Hext Hloop IH];
    [cbn; auto|].
  destruct Hext as (_ & _ & _ & _ & Hd & Hl).
  destruct Hrows as (Hid & _ & _ & _ & _ & Hlog).
  destruct IH as (IHd & IHl).
  rewrite Hd, Hl in *. rewrite !List.map_app, !max_id_app in *.
  unfold next_rowid in *. fold (max_id (List.map detail_id (sales_details db))) in Hid.
  pose proof (max_id_nonneg (List.map detail_id (sales_details db))) as Hd0.
  pose proof (max_id_nonneg (List.map log_id (inventory_logs db))) as Hl0.
  split.
  - cbn [new_details List.map fst ascending_from]. split; [lia|].
    eapply ascending_from_weaken; [|exact IHd]. cbn. lia.
  - destruct l as [lg|].
    + destruct Hlog as (_ & _ & Hlid & _).
      fold (max_id (List.map log_id (inventory_logs db))) in Hlid.
      cbn [new_logs flat_map snd option_row app List.map ascending_from].
      split; [lia|].
      eapply ascending_from_weaken; [|exact IHl]. cbn. lia.
    + cbn [new_logs flat_map snd option_row app] in *.
      eapply ascending_from_weaken; [|exact IHl]. cbn. lia.
Qed.

(** ** The detail query of [get_sale] *)






Lemma filter_none {A} (f : A -> bool) (l : list A) :
  (forall x, In x l -> f x = false) -> List.filter f l = [].
Proof.
  induction l as [|x l IH]; intros H; [reflexivity|].
  cbn. rewrite (H x (or_introl eq_refl)). apply IH.
  intros y Hy. apply H. right. assumption.
Qed.

Lemma filter_every {A} (f : A -> bool) (l : list A) :
  (forall x, In x l -> f x = true) -> List.filter f l = l.
Proof.
  induction l as [|x l IH]; intros H; [reflexivity|].
  cbn. rewrite (H x (or_introl eq_refl)). f_equal. apply IH.
  intros y Hy. apply H. right. assumption.
Qed.











(** ** Reading a sale back *)

Lemma get_sale_run sale later tokens db :
  in_int64 sale = true ->
  get_sale sale later tokens db
  = mkReply
      (match List.find (fun r => sale_id r =? sale) (sales db) with
       | None => Response 404 (message "Sale is not found!")
       | Some head =>
           Response 200
             (JObj [("id", JInt (sale_id head));
                    ("customer_id", json_of_sqlval (sale_customer_id head));
                    ("user_id", JInt (sale_user_id head));
                    ("details",
                     JList
                       (List.map detail_view
                          (order_by (fun row => detail_id (fst (fst row)))
                             (List.filter
                                (fun row => detail_sale_id (fst (fst row)) =? sale)
                                (left_join on_product_id
                                   (left_join on_log_id (sales_details db)
                                      (inventory_logs db))
                                   (products db))))))])
       end)
      (req_session later) tokens db.
Proof.
  intros Hrange.
  unfold get_sale, serve, get_sale_body, with_database, select_sale,
    select_sale_details.
  cbn [bind_param]. rewrite Hrange. open_block.
  destruct (List.find _ (sales db)); reflexivity.
Qed.

Lemma find_last {A} (f : A -> bool) (old : list A) (x : A) :
  (forall y, In y old -> f y = false) -> f x = true ->
  List.find f (old ++ [x]) = Some x.
Proof.
  intros Hold Hx. induction old as [|y old IH]; cbn.
  - rewrite Hx. reflexivity.
  - rewrite (Hold y (or_introl eq_refl)). apply IH.
    intros z Hz. apply Hold. right. assumption.
Qed.

Lemma Forall2_In_right {A B} (R : A -> B -> Prop) (l : list A) (k : list B) (y : B) :
  Forall2 R l k -> In y k -> exists x, In x l /\ R x y.
Proof.
  induction 1 as [|a b l k Hab Hrest IH]; intros Hin; [destruct Hin|].
  destruct Hin as [-> | Hin].
  - exists a. split; [left; reflexivity | assumption].
  - destruct (IH Hin) as (x & Hx & Hxy). exists x. split; [right|]; assumption.
Qed.






End Properties.

(** * Worked instances *)

(** ** C5 *)


(** ** C7 *)

Lemma login_reveals_username_witness :
  credentials_of (password_as_number "clerk") (JStr "clerk") (JInt 5)
  /\ reply_response
       (login plain_check "t0k-En_1" (password_as_number "clerk") ∅ shop_without_clerk)
     = Response 401 (message "Invalid credentials!")
  /\ reply_response (login plain_check "t0k-En_1" (password_as_number "clerk") ∅ shop)
     = Unhandled
         (TypeError "argument 'password': 'int' object cannot be converted to 'PyBytes'")
  /\ status_of
       (reply_response (login plain_check "t0k-En_1" (password_as_number "clerk") ∅ shop))
     = 500.
Proof.
  assert (Hcred : credentials_of (password_as_number "clerk") (JStr "clerk") (JInt 5)).
  { eexists. repeat (split; [reflexivity|]). reflexivity. }
  split; [exact Hcred|].
  destruct (login_reveals_username plain_check "t0k-En_1" _ _ _ ∅
              shop_without_clerk shop (mkUser 2 "clerk" "secret" "w")
              (TypeError "argument 'password': 'int' object cannot be converted to 'PyBytes'")
              Hcred eq_refl eq_refl eq_refl)
    as (Hunknown & Hknown & _ & Hstatus).
  split; [rewrite Hunknown; reflexivity|].
  split; [rewrite Hknown; reflexivity | exact Hstatus].
Defined.

(** ** X23 *)

Lemma login_outcomes_witness :
  credentials_of (login_as "clerk" "guess") (JStr "clerk") (JStr "guess")
  /\ credentials_of (login_as "clerk" "secret") (JStr "clerk") (JStr "secret")
  /\ reply_response (login plain_check "t0k-En_1" (login_as "clerk" "guess") ∅ shop_without_clerk)
     = reply_response (login plain_check "t0k-En_1" (login_as "clerk" "guess") ∅ shop)
  /\ reply_tokens (login plain_check "t0k-En_1" (login_as "clerk" "guess") ∅ shop) = ∅
  /\ reply_response
       (get_current_user (with_token "t0k-En_1" JNull)
          (reply_tokens (login plain_check "t0k-En_1" (login_as "clerk" "secret") ∅ shop))
          shop)
     = Response 200 (json_of_identity clerk).
Proof.
  assert (Hguess : credentials_of (login_as "clerk" "guess") (JStr "clerk") (JStr "guess")).
  { eexists. repeat (split; [reflexivity|]). reflexivity. }
  assert (Hsecret : credentials_of (login_as "clerk" "secret") (JStr "clerk") (JStr "secret")).
  { eexists. repeat (split; [reflexivity|]). reflexivity. }
  split; [exact Hguess|]. split; [exact Hsecret|].
  destruct (login_outcomes plain_check "t0k-En_1" (login_as "clerk" "guess") ∅)
    as (Hsame & Hnone & _).
  destruct (login_outcomes plain_check "t0k-En_1" (login_as "clerk" "secret") ∅)
    as (_ & _ & Hgood).
  split.
  { apply (Hsame _ _ shop_without_clerk shop (mkUser 2 "clerk" "secret" "w") Hguess);
      reflexivity. }
  split.
  { apply (Hnone shop). vm_compute. discriminate. }
  destruct (Hgood _ _ shop (mkUser 2 "clerk" "secret" "w") Hsecret eq_refl eq_refl eq_refl)
    as (payload & _ & _ & _ & _ & Hlater).
  apply (Hlater (with_token "t0k-En_1" JNull)); [reflexivity | left; reflexivity].
Defined.

(** ** C8 *)

Lemma logout_keeps_tokens_witness :
  let tokens : gmap string identity := {["t0k-En_1" := clerk]} in
  tokens !! "t0k-En_1" = Some clerk
  /\ spaceless "t0k-En_1" = true
  /\ reply_response
       (get_current_user (with_token "t0k-En_1" JNull)
          (reply_tokens (logout (as_user clerk) tokens shop))
          (reply_db (logout (as_user clerk) tokens shop)))
     = Response 200 (json_of_identity clerk).
Proof.
  intros tokens. split; [reflexivity|]. split; [reflexivity|].
  destruct (logout_keeps_tokens (as_user clerk) tokens shop) as (_ & _ & _ & _ & Hstill).
  destruct (Hstill "t0k-En_1" clerk (with_token "t0k-En_1" JNull)
              eq_refl eq_refl eq_refl eq_refl) as (_ & Hme & _).
  exact Hme.
Defined.

(** ** C2 *)

Lemma create_sale_rows_witness :
  status_of (reply_response (create_sale two_lines ∅ shop)) = 201
  /\ exists rows,
       inventory_logs shop_after_sale = inventory_logs shop ++ new_logs rows /\
       sales_details shop_after_sale = sales_details shop ++ new_details rows /\
       List.length (new_logs rows) = 1%nat /\
       List.length (new_details rows) = 2%nat.
Proof.
  split; [reflexivity|].
  destruct (create_sale_rows two_lines ∅ shop eq_refl)
    as (customer & items & user & sale & c & rows & Hreq & _ & _ & _ & _ & _ & _
        & Hd & Hl & _ & Hnd & Hnl & _).
  rewrite (sale_request_items _ _ _ _ _ _ _ Hreq eq_refl eq_refl) in Hnd, Hnl.
  exists rows. split; [exact Hl|]. split; [exact Hd|]. split; [exact Hnl | exact Hnd].
Defined.

(** ** C3 *)

Lemma delete_sale_cascade_witness :
  in_int64 1 = true
  /\ (exists s, In s (sales shop_after_sale) /\ sale_id s = 1)
  /\ reply_response (delete_sale 1 (as_user admin) ∅ shop_after_sale)
     = Response 200 (message "Sale has been deleted.")
  /\ reply_response
       (delete_sale 1 (as_user admin) ∅
          (reply_db (delete_sale 1 (as_user admin) ∅ shop_after_sale)))
     = Response 404 (message "Sale is not found!")
  /\ reply_db (delete_sale (2 ^ 63) (as_user admin) ∅ shop_after_sale)
     = shop_after_sale
  /\ reply_db
       (delete_sale_under (fails_at 3 "database is locked") 1 (as_user admin) ∅
          shop_after_sale)
     = shop_after_sale
  /\ reply_response
       (delete_sale_under (fails_at 3 "database is locked") 1 (as_user admin) ∅
          shop_after_sale)
     = Unhandled (OperationalError "database is locked").
Proof.
  assert (Hsale : exists s, In s (sales shop_after_sale) /\ sale_id s = 1).
  { exists (mkSale 1 (SInt 1) 2). split; [left; reflexivity | reflexivity]. }
  split; [reflexivity|]. split; [exact Hsale|].
  destruct (delete_sale_cascade 1 (as_user admin) ∅ shop_after_sale)
    as (Hin & _ & _ & Hatomic).
  destruct (Hin eq_refl) as (_ & _ & _ & _ & _ & _ & _ & _ & Hdeleted & Hagain).
  split; [apply Hdeleted; exact Hsale|].
  split; [apply Hagain|].
  destruct (delete_sale_cascade (2 ^ 63) (as_user admin) ∅ shop_after_sale)
    as (_ & Hout & _).
  split; [apply (Hout eq_refl)|].
  destruct (Hatomic (fails_at 3 "database is locked")) as (_ & Hlast).
  apply (Hlast "database is locked"); reflexivity.
Defined.

(** ** C4 *)

Lemma falsy_quantity_rejected_witness :
  reply_response (create_sale quantity_missing ∅ shop)
  = Response 400
      (message "Each detail that contains inventory change must have a quantity!")
  /\ List.length
       (inventory_logs (reply_db (create_sale quantity_missing ∅ shop)))
     = 1%nat.
Proof.
  destruct (falsy_quantity_rejected quantity_missing ∅ shop)
    as (Hfalsy & _).
  assert (Hreq : sale_request quantity_missing ∅ (JInt 1)
                   ([line (JInt 5) (JInt 2) (JInt 500)]
                    ++ JObj [("product_id", JInt 5); ("quantity", JInt 0);
                             ("subtotal_cents", JInt 300)] :: []) 2).
  { exists [("customer_id", JInt 1);
            ("details",
             JList [line (JInt 5) (JInt 2) (JInt 500);
                    line (JInt 5) (JInt 0) (JInt 300)])].
    split; [reflexivity|]. split; [reflexivity|]. split; [reflexivity|].
    split; [reflexivity|]. split; [discriminate|]. split; [reflexivity|discriminate]. }
  destruct (Hfalsy _ _ _ _ _ 1
              (set_sales shop [mkSale 1 (SInt 1) 2])
              (reply_db (create_sale
                           (as_clerk (sale_of (JInt 1) [line (JInt 5) (JInt 2) (JInt 500)]))
                           ∅ shop))
              Hreq eq_refl eq_refl eq_refl eq_refl) as (Hresp & Hlogs).
  split; [exact Hresp|]. rewrite Hlogs. reflexivity.
Defined.

(** C4 does not hold of a negative quantity: the request is answered
    201 and a log row with a positive delta is written. *)
Lemma negative_quantity_accepted :
  affects_inventory (line (JInt 5) (JInt (-2)) (JInt 500)) = true
  /\ field (line (JInt 5) (JInt (-2)) (JInt 500)) "quantity" = JInt (-2)
  /\ reply_response (create_sale quantity_negative ∅ shop)
     = Response 201
         (JObj [("message", JStr "Sale has been created."); ("id", JInt 1)])
  /\ inventory_logs (reply_db (create_sale quantity_negative ∅ shop))
     = [mkLog 1 "s" (SInt 5) 2 (SText "Automatic logging from sale #1: None")].
Proof. vm_compute. auto. Qed.

(** ** C6 *)

Lemma create_sale_error_mapping_witness :
  reply_response (create_sale quantity_as_text ∅ shop)
  = Response 500 (message "Server error: bad operand type for unary -: 'str'")
  /\ reply_response (create_sale line_as_number ∅ shop)
     = Response 500 (message "Server error: 'int' object has no attribute 'get'").
Proof.
  assert (Htext : sale_request quantity_as_text ∅ (JInt 1)
                    ([] ++ JObj [("product_id", JInt 5); ("quantity", JStr "2");
                                 ("subtotal_cents", JInt 500)] :: []) 2).
  { exists [("customer_id", JInt 1);
            ("details", JList [line (JInt 5) (JStr "2") (JInt 500)])].
    split; [reflexivity|]. split; [reflexivity|]. split; [reflexivity|].
    split; [reflexivity|]. split; [discriminate|]. split; [reflexivity|discriminate]. }
  assert (Hnumber : sale_request line_as_number ∅ (JInt 1) [JInt 5] 2).
  { exists [("customer_id", JInt 1); ("details", JList [JInt 5])].
    split; [reflexivity|]. split; [reflexivity|]. split; [reflexivity|].
    split; [reflexivity|]. split; [discriminate|]. split; [reflexivity|discriminate]. }
  split.
  - destruct (create_sale_error_mapping quantity_as_text ∅ shop) as (_ & Hline).
    apply (Hline _ _ _ _ _ 1
             (set_sales shop [mkSale 1 (SInt 1) 2])
             (set_sales shop [mkSale 1 (SInt 1) 2])
             (TypeError "bad operand type for unary -: 'str'")
             Htext eq_refl eq_refl eq_refl eq_refl eq_refl eq_refl).
  - destruct (create_sale_error_mapping line_as_number ∅ shop) as (Hmap & _).
    apply (Hmap _ _ _
             (AttributeError "'int' object has no attribute 'get'")
             (set_sales shop [mkSale 1 (SInt 1) 2]) Hnumber eq_refl).
    intros text. discriminate.
Defined.

(** C6 does not hold in its last part: the 500 answer is not a fixed
    text, it carries the text of the exception, so two failures of
    different kinds are answered differently and each shows what went
    wrong inside the handler. *)
Lemma server_error_shows_exception_text :
  reply_response (create_sale quantity_as_text ∅ shop)
  = Response 500 (message "Server error: bad operand type for unary -: 'str'")
  /\ reply_response (create_sale line_as_number ∅ shop)
     = Response 500 (message "Server error: 'int' object has no attribute 'get'")
  /\ ~ (exists generic,
          forall req,
            status_of (reply_response (create_sale req ∅ shop)) = 500 ->
            reply_response (create_sale req ∅ shop)
            = Response 500 (message generic)).
Proof.
  split; [vm_compute; reflexivity|]. split; [vm_compute; reflexivity|].
  intros (generic & Hgeneric).
  pose proof (Hgeneric quantity_as_text eq_refl) as H1.
  pose proof (Hgeneric line_as_number eq_refl) as H2.
  vm_compute in H1, H2. congruence.
Qed.

(** ** C9 *)

Lemma zero_treated_as_absent_witness :
  create_sale customer_zero ∅ shop
  = turned_away customer_zero ∅ shop 400 "A customer is required!"
  /\ create_sale customer_missing ∅ shop
     = turned_away customer_missing ∅ shop 400 "A customer is required!"
  /\ status_of (reply_response (create_sale subtotal_zero ∅ shop)) <> 201
  /\ reply_response (create_sale subtotal_zero ∅ shop)
     = Response 400 (message "Each detail requires a subtotal!")
  /\ reply_response (create_sale quantity_missing ∅ shop)
     = Response 400
         (message "Each detail that contains inventory change must have a quantity!")
  /\ create_sale_item 1
       (JObj [("product_id", JInt 5); ("quantity", JInt 0); ("subtotal_cents", JInt 300)])
       shop
     = create_sale_item 1
         (JObj [("product_id", JInt 5); ("subtotal_cents", JInt 300)])
         shop.
Proof.
  split.
  { destruct (zero_treated_as_absent customer_zero ∅ shop) as (Hc & _).
    apply (Hc _ eq_refl); [discriminate | left; reflexivity]. }
  split.
  { destruct (zero_treated_as_absent customer_missing ∅ shop) as (Hc & _).
    apply (Hc _ eq_refl); [discriminate | right; reflexivity]. }
  assert (Hsub : sale_request subtotal_zero ∅ (JInt 1)
                   ([line (JInt 5) (JInt 2) (JInt 500)]
                    ++ JObj [("product_id", JNull); ("quantity", JNull);
                             ("subtotal_cents", JInt 0)] :: []) 2).
  { exists [("customer_id", JInt 1);
            ("details",
             JList [line (JInt 5) (JInt 2) (JInt 500); line JNull JNull (JInt 0)])].
    split; [reflexivity|]. split; [reflexivity|]. split; [reflexivity|].
    split; [reflexivity|]. split; [discriminate|]. split; [reflexivity|discriminate]. }
  assert (Hqty : sale_request quantity_missing ∅ (JInt 1)
                   ([line (JInt 5) (JInt 2) (JInt 500)]
                    ++ JObj [("product_id", JInt 5); ("quantity", JInt 0);
                             ("subtotal_cents", JInt 300)] :: []) 2).
  { exists [("customer_id", JInt 1);
            ("details",
             JList [line (JInt 5) (JInt 2) (JInt 500);
                    line (JInt 5) (JInt 0) (JInt 300)])].
    split; [reflexivity|]. split; [reflexivity|]. split; [reflexivity|].
    split; [reflexivity|]. split; [discriminate|]. split; [reflexivity|discriminate]. }
  destruct (zero_treated_as_absent subtotal_zero ∅ shop)
    as (_ & Hnever & Hreached & Hsame).
  split.
  { apply (Hnever _ _ [("product_id", JNull); ("quantity", JNull);
                       ("subtotal_cents", JInt 0)] eq_refl eq_refl).
    - right. left. reflexivity.
    - left. left. reflexivity. }
  split.
  { destruct (Hreached _ _ _ _ _ 1
                (set_sales shop [mkSale 1 (SInt 1) 2])
                (reply_db (create_sale
                             (as_clerk (sale_of (JInt 1) [line (JInt 5) (JInt 2) (JInt 500)]))
                             ∅ shop))
                Hsub eq_refl eq_refl) as (Hzero & _).
    apply Hzero. left. reflexivity. }
  destruct (zero_treated_as_absent quantity_missing ∅ shop)
    as (_ & _ & Hreached' & _).
  destruct (Hreached' _ _ _ _ _ 1
              (set_sales shop [mkSale 1 (SInt 1) 2])
              (reply_db (create_sale
                           (as_clerk (sale_of (JInt 1) [line (JInt 5) (JInt 2) (JInt 500)]))
                           ∅ shop))
              Hqty eq_refl eq_refl) as (_ & Hzero).
  split; [apply Hzero; [reflexivity | reflexivity | left; reflexivity]|].
  apply Hsame; [reflexivity | reflexivity | left; reflexivity
               | right; split; reflexivity].
Defined.

(** C9 does not hold of every request with a zero in it: the lines are
    taken in order, and when an earlier line raises the answer is the
    500 of that line, not the 400 of the line with the zero. *)
Lemma zero_after_failing_line :
  (exists data lines fields,
     req_json text_then_zero = JObj data /\
     dict_get data "details" = JList lines /\
     In (JObj fields) lines /\
     dict_get fields "subtotal_cents" = JInt 0)
  /\ reply_response (create_sale text_then_zero ∅ shop)
     = Response 500 (message "Server error: bad operand type for unary -: 'str'")
  /\ status_of (reply_response (create_sale text_then_zero ∅ shop)) <> 400.
Proof.
  split.
  { eexists _, _, [("product_id", JNull); ("quantity", JNull);
                  ("subtotal_cents", JInt 0)].
    split; [reflexivity|]. split; [reflexivity|].
    split; [right; left; reflexivity | reflexivity]. }
  split; [vm_compute; reflexivity | vm_compute; discriminate].
Qed.

(** ** C10 *)



(** * Further properties *)

Section Further.

Variable check_password_hash : string -> json -> exn + bool.
Variable customer_not_null : option string.
Variable schema_script : database -> database.

Ltac open_body :=
  cbv beta iota delta [bind when ret return_ raise eval commit].

Ltac split_cases :=
  repeat match goal with
         | |- context [match ?x with _ => _ end] =>
             lazymatch x with
             | context [match _ with _ => _ end] => fail
             | _ => destruct x eqn:?; try discriminate
             end
         end.

Ltac run_body := open_body; split_cases.

(** ** The gate *)

(** X1.  A role that is none of [d], [r], [w], [a] makes the gate fail
    with an [AssertionError] at every access level: the handler does not
    run and nothing changes. *)
Theorem privileged_unknown_role
    (acc : access) (func : handler) (req : request)
    (tokens : gmap string identity) (db : database) (u : identity) :
  session_or_token req tokens = Some u ->
  known_role (ident_role u) = false ->
  privileged acc func req tokens db
  = mkReply (Unhandled AssertionError) (req_session req) tokens db.
Proof.
  intros Hu Hrole. unfold privileged. rewrite Hu.
  unfold known_role in Hrole.
  apply orb_false_iff in Hrole as (Hrole & Ha).
  apply orb_false_iff in Hrole as (Hrole & Hw).
  apply orb_false_iff in Hrole as (Hd & Hr).
  rewrite Hd, Hr, Hw, Ha. reflexivity.
Qed.

(** The gate either hands the request to the handler or leaves
    everything as it was. *)
Lemma privileged_cases acc func req tokens db :
  privileged acc func req tokens db = func req tokens db \/
  (reply_session (privileged acc func req tokens db) = req_session req /\
   reply_tokens (privileged acc func req tokens db) = tokens /\
   reply_db (privileged acc func req tokens db) = db /\
   status_of (reply_response (privileged acc func req tokens db)) <> 200 /\
   status_of (reply_response (privileged acc func req tokens db)) <> 201).
Proof.
  unfold privileged.
  destruct (session_or_token req tokens) as [u|];
    [|right; cbn; repeat split; discriminate].
  destruct (String.eqb (ident_role u) "d"); [right; cbn; repeat split; discriminate|].
  destruct (String.eqb (ident_role u) "r").
  { destruct acc; [left; reflexivity | |]; right; cbn; repeat split; discriminate. }
  destruct (String.eqb (ident_role u) "w").
  { destruct acc; [left; reflexivity | left; reflexivity |];
      right; cbn; repeat split; discriminate. }
  destruct (String.eqb (ident_role u) "a"); [left; reflexivity|].
  right; cbn; repeat split; discriminate.
Qed.

(** ** What [create_sale] writes, however it ends *)

Ltac lines_added_by ds ls :=
  exists ds, ls; cbn; rewrite ?app_nil_r;
  split; [reflexivity|]; split; [reflexivity|];
  intros ? Hin; repeat (destruct Hin as [<- | Hin]; [reflexivity|]); destruct Hin.

Lemma create_sale_item_effect sale item db o db' :
  create_sale_item sale item db = (o, db') ->
  lines_added sale db db'.
Proof.
  unfold create_sale_item, execute_insert_log, execute_insert_detail.
  destruct item; cbn [get]; run_body;
    intros H; inversion H; subst; clear H;
    unfold lines_added; cbn;
    (split; [reflexivity|]); (split; [reflexivity|]);
    (split; [reflexivity|]); (split; [reflexivity|]);
    first [ lines_added_by (@nil detail_row) (@nil log_row)
          | eexists [_], [_]; cbn; split; [reflexivity|]; split; [reflexivity|];
            intros ? [<- | []]; reflexivity
          | eexists [_], (@nil log_row); cbn; rewrite ?app_nil_r;
            split; [reflexivity|]; split; [reflexivity|];
            intros ? [<- | []]; reflexivity
          | eexists (@nil detail_row), [_]; cbn; rewrite ?app_nil_r;
            split; [reflexivity|]; split; [reflexivity|];
            intros ? [] ].
Qed.

Lemma lines_added_refl sale db : lines_added sale db db.
Proof.
  unfold lines_added. repeat (split; [reflexivity|]).
  exists [], []. rewrite !app_nil_r. repeat (split; [reflexivity|]). intros ? [].
Qed.

Lemma lines_added_trans sale db1 db2 db3 :
  lines_added sale db1 db2 -> lines_added sale db2 db3 -> lines_added sale db1 db3.
Proof.
  intros (Hu & Hc & Hp & Hs & ds & ls & Hd & Hl & Hds)
         (Hu' & Hc' & Hp' & Hs' & ds' & ls' & Hd' & Hl' & Hds').
  unfold lines_added. rewrite Hu', Hc', Hp', Hs', Hd', Hl', Hu, Hc, Hp, Hs, Hd, Hl.
  repeat (split; [reflexivity|]).
  exists (ds ++ ds'), (ls ++ ls'). rewrite !app_assoc.
  repeat (split; [reflexivity|]).
  intros d Hin. apply in_app_or in Hin as [Hin | Hin]; auto.
Qed.

Lemma for_each_effect sale items db o db' :
  for_each items (create_sale_item sale) db = (o, db') ->
  lines_added sale db db'.
Proof.
  revert db. induction items as [|item rest IH]; intros db; cbn [for_each].
  - intros H. inversion H. apply lines_added_refl.
  - unfold bind.
    destruct (create_sale_item sale item db) as [[[]|st p|e] db1] eqn:Hitem;
      intros H.
    + eapply lines_added_trans;
        [eapply create_sale_item_effect; eassumption | eapply IH; eassumption].
    + inversion H; subst. eapply create_sale_item_effect; eassumption.
    + inversion H; subst. eapply create_sale_item_effect; eassumption.
Qed.

Lemma appended_refl db : appended db db.
Proof.
  unfold appended. repeat (split; [reflexivity|]).
  exists [], [], []. rewrite !app_nil_r. repeat (split; [reflexivity|]). intros ? [].
Qed.

Lemma create_sale_inserts_effect customer items user db o db' :
  create_sale_inserts customer (JList items) user db = (o, db') ->
  appended db db'.
Proof.
  unfold create_sale_inserts. cbn [items_of]. unfold bind at 1.
  destruct (execute_insert_sale customer user db) as [[sale|st p|e] db1] eqn:Hins.
  - apply execute_insert_sale_Normal in Hins as (c & _ & _ & ->).
    unfold bind.
    destruct (for_each items (create_sale_item sale) _) as [[[]|st p|e] db2] eqn:Hloop;
      intros H; inversion H; subst; clear H;
      apply for_each_effect in Hloop
        as (Hu & Hc & Hp & Hs & ds & ls & Hd & Hl & Hds);
      cbn in Hu, Hc, Hp, Hs, Hd, Hl;
      unfold appended; (split; [assumption|]); (split; [assumption|]);
      (split; [assumption|]);
      exists [mkSale sale c user], ds, ls;
      (split; [assumption|]); (split; [assumption|]); (split; [assumption|]);
      intros d Hin; exists (mkSale sale c user);
      (split; [left; reflexivity | symmetry; apply Hds; assumption]).
  - revert Hins. unfold execute_insert_sale. run_body.
  - revert Hins. unfold execute_insert_sale. run_body;
      intros H1 H2; inversion H1; inversion H2; subst; apply appended_refl.
Qed.

Lemma create_sale_effect req tokens db :
  appended db (reply_db (create_sale req tokens db)).
Proof.
  destruct (create_sale_checks req tokens db)
    as [[[[customer details] user]|st p|e] db1] eqn:Hchk.
  - apply create_sale_checks_Normal in Hchk as (-> & items & -> & Hreq).
    rewrite (create_sale_unfold _ _ _ _ _ db Hreq). unfold create_sale_reply.
    cbn [reply_db].
    destruct (create_sale_inserts customer (JList items) user db)
      as [o db2] eqn:Hins.
    cbn [snd]. eapply create_sale_inserts_effect. eassumption.
  - unfold create_sale, serve, create_sale_body.
    rewrite (bind_Return _ _ _ _ _ _ Hchk). cbn.
    apply create_sale_checks_Return in Hchk as (-> & _). apply appended_refl.
  - unfold create_sale, serve, create_sale_body.
    rewrite (bind_Raise _ _ _ _ _ Hchk). cbn.
    apply create_sale_checks_Raise in Hchk as ->. apply appended_refl.
Qed.

(** X2.  [create_sale] only ever appends: whatever the request and
    however it is answered, the rows that were in [sales],
    [sales_details] and [inventory_logs] are still there, unchanged and
    in place, the other tables are untouched, and every detail row that
    was added belongs to a sale row that was added. *)
Theorem create_sale_appends
    (req : request) (tokens : gmap string identity) (db : database) :
  appended db (reply_db (create_sale req tokens db)).
Proof. apply create_sale_effect. Qed.

Lemma appended_keeps_references db db' :
  appended db db' -> details_reference_sales db -> details_reference_sales db'.
Proof.
  intros (_ & _ & _ & ss & ds & ls & Hs & Hd & _ & Hds) Href d Hin.
  rewrite Hd in Hin. rewrite Hs. apply in_app_or in Hin as [Hin | Hin].
  - destruct (Href d Hin) as (s & Hs' & Heq). exists s. split; [|assumption].
    apply in_or_app. left. assumption.
  - destruct (Hds d Hin) as (s & Hs' & Heq). exists s. split; [|assumption].
    apply in_or_app. right. assumption.
Qed.

(** ** [update_sale] *)

(** The rows of [sales] after the customer of the sale was set. *)
Lemma map_update_ids (c : sqlval) (sale : Z) (rows : list sale_row) :
  List.map sale_id
    (List.map (fun r => if sale_id r =? sale
                        then mkSale (sale_id r) c (sale_user_id r) else r) rows)
  = List.map sale_id rows /\
  List.map sale_user_id
    (List.map (fun r => if sale_id r =? sale
                        then mkSale (sale_id r) c (sale_user_id r) else r) rows)
  = List.map sale_user_id rows.
Proof.
  rewrite !List.map_map. split; apply List.map_ext; intros r;
    destruct (sale_id r =? sale); reflexivity.
Qed.

Lemma find_nowhere {A} (f : A -> bool) (l : list A) :
  (forall x, In x l -> f x = false) -> List.find f l = None.
Proof.
  induction l as [|x l IH]; intros H; [reflexivity|].
  cbn. rewrite (H x (or_introl eq_refl)). apply IH.
  intros y Hy. apply H. right. assumption.
Qed.

Lemma find_hit {A B} (f : A -> bool) (g : A -> B) (l : list A) (y : B) :
  option_map g (List.find f l) = Some y -> existsb f l = true.
Proof.
  induction l as [|x l IH]; cbn; [discriminate|].
  destruct (f x); [reflexivity | exact IH].
Qed.

Lemma update_sale_run sale req tokens db :
  let out := update_sale customer_not_null sale req tokens db in
  reply_tokens out = tokens /\
  reply_session out = req_session req /\
  (status_of (reply_response out) <> 200 -> reply_db out = db) /\
  (status_of (reply_response out) = 404 ->
   List.find (fun r => sale_id r =? sale) (sales db) = None) /\
  (status_of (reply_response out) = 200 ->
   exists fields c,
     req_json req = JObj fields /\
     dict_has fields "customer_id" = true /\
     bind_param 1 (dict_get fields "customer_id") = inr c /\
     existsb (fun r => sale_id r =? sale) (sales db) = true /\
     (c = SNull -> customer_not_null = None) /\
     reply_db out
     = set_sales db
         (List.map (fun r => if sale_id r =? sale
                             then mkSale (sale_id r) c (sale_user_id r) else r)
            (sales db))).
Proof.
  cbv beta zeta delta [update_sale serve update_sale_body].
  destruct (req_json req) as [| b | z | [] | s | l | fields] eqn:Hjson;
    cbn [py_in subscript_present];
    try set (named := existsb _ l); try set (named := contains _ s);
    try set (named := dict_has _ _);
    try (destruct named eqn:Hnamed);
    cbv beta iota zeta delta
      [with_database try_except select_sale_id
       execute_update_sale_customer update_sale_except finish
       bind when ret return_ raise eval commit];
    split_cases; cbn;
    (split; [reflexivity|]); (split; [reflexivity|]);
    (split;
     [ intros Hne; first [reflexivity | exfalso; apply Hne; reflexivity] |]);
    (split;
     [ intros H404; try discriminate;
       match goal with
       | H : option_map _ ?x = None |- ?x = None =>
           destruct x; [discriminate | reflexivity]
       end
     | intros H200; try discriminate ]);
    repeat match goal with
           | H : negb _ = true |- _ => apply negb_true_iff in H
           | H : negb _ = false |- _ => apply negb_false_iff in H
           end;
    try (exfalso;
         match goal with
         | Hf : option_map _ (List.find ?f ?l) = Some _, He : existsb ?f ?l = false |- _ =>
             rewrite (find_hit _ _ _ _ Hf) in He; discriminate
         end);
    eexists _, _;
    repeat (split;
            [first [reflexivity | eassumption
                   | intros Hnull; first [discriminate Hnull | congruence]]|]);
    first [reflexivity | eassumption].
Qed.


(** X3.  [update_sale] writes nothing but the customer of the sale: the
    token table, the session, every other table, and the ids and users of
    all sale rows are as before, and unless the answer is 200 the
    database is unchanged altogether. *)
Theorem update_sale_frame
    (sale : Z) (req : request) (tokens : gmap string identity) (db : database) :
  let out := update_sale customer_not_null sale req tokens db in
  reply_tokens out = tokens /\
  reply_session out = req_session req /\
  users (reply_db out) = users db /\
  customers (reply_db out) = customers db /\
  products (reply_db out) = products db /\
  sales_details (reply_db out) = sales_details db /\
  inventory_logs (reply_db out) = inventory_logs db /\
  List.map sale_id (sales (reply_db out)) = List.map sale_id (sales db) /\
  List.map sale_user_id (sales (reply_db out)) = List.map sale_user_id (sales db) /\
  (status_of (reply_response out) <> 200 -> reply_db out = db).
Proof.
  intros out. subst out.
  destruct (update_sale_run sale req tokens db) as (Ht & Hs & Hother & _ & H200).
  split; [exact Ht|]. split; [exact Hs|].
  destruct (Z.eq_dec
              (status_of (reply_response
                            (update_sale customer_not_null sale req tokens db)))
              200) as [Heq | Hne].
  - destruct (H200 Heq) as (fields & c & _ & _ & _ & _ & _ & ->).
    destruct (map_update_ids c sale (sales db)) as (Hids & Husers).
    cbn. repeat (split; [first [reflexivity | assumption]|]).
    intros Hne. contradiction.
  - rewrite (Hother Hne). repeat (split; [reflexivity|]). intros _. reflexivity.
Qed.

Lemma find_present {A} (f : A -> bool) (l : list A) (x : A) :
  In x l -> f x = true -> exists y, List.find f l = Some y /\ f y = true.
Proof.
  induction l as [|z l IH]; intros Hin Hx; [destruct Hin|].
  cbn. destruct (f z) eqn:Hz; [eauto|].
  destruct Hin as [-> | Hin]; [congruence | auto].
Qed.

(** A value that can be bound is stored on a sale that exists. *)
Lemma update_sale_accepts sale req tokens db fields c r :
  req_json req = JObj fields ->
  dict_has fields "customer_id" = true ->
  bind_param 1 (dict_get fields "customer_id") = inr c ->
  (c = SNull -> customer_not_null = None) ->
  in_int64 sale = true ->
  In r (sales db) -> sale_id r = sale ->
  reply_response (update_sale customer_not_null sale req tokens db)
  = Response 200 (message "Sale has been updated.").
Proof.
  intros Hj Hhas Hc Hnull Hrange Hin Hid.
  assert (Hrow : (fun r => sale_id r =? sale) r = true) by (apply Z.eqb_eq; exact Hid).
  destruct (find_present _ _ _ Hin Hrow) as (y & Hfind & _).
  assert (Hex : existsb (fun r => sale_id r =? sale) (sales db) = true).
  { apply existsb_exists. exists r. auto. }
  assert (Htruthy : truthy (JObj fields) = true).
  { destruct fields; [discriminate Hhas | reflexivity]. }
  cbv beta zeta delta [update_sale serve update_sale_body].
  rewrite Hj. cbn [py_in subscript_present]. rewrite Hhas.
  cbv beta iota zeta delta
    [with_database try_except select_sale_id execute_update_sale_customer
     update_sale_except finish bind when ret return_ raise eval commit].
  rewrite Htruthy. cbn [negb bind_param]. rewrite Hrange, Hfind, Hc.
  cbn [option_map]. rewrite Hex. cbn [negb].
  destruct c as [|z|t]; try reflexivity.
  rewrite (Hnull eq_refl). reflexivity.
Qed.

(** X4.  An update answered 200 was asked for by a dict body with the key
    [customer_id], on a sale that exists; the value was stored as it
    came (a null only where the schema allows it); every row of the
    sale now carries it and every other sale row is as before.  No more
    is asked of the value: any value that can be bound is stored on a
    sale that exists and the answer is 200, whether or not a customer
    has that id. *)
Theorem update_sale_success
    (sale : Z) (req : request) (tokens : gmap string identity) (db : database) :
  let out := update_sale customer_not_null sale req tokens db in
  (status_of (reply_response out) = 200 ->
   exists fields c,
     req_json req = JObj fields /\
     dict_has fields "customer_id" = true /\
     bind_param 1 (dict_get fields "customer_id") = inr c /\
     (exists r, In r (sales db) /\ sale_id r = sale) /\
     (c = SNull -> customer_not_null = None) /\
     (forall r, In r (sales db) -> sale_id r = sale ->
        In (mkSale sale c (sale_user_id r)) (sales (reply_db out))) /\
     (forall r, In r (sales db) -> sale_id r <> sale -> In r (sales (reply_db out))) /\
     (forall r, In r (sales (reply_db out)) -> sale_id r = sale ->
        sale_customer_id r = c))
  /\
  (forall fields c r,
     req_json req = JObj fields ->
     dict_has fields "customer_id" = true ->
     bind_param 1 (dict_get fields "customer_id") = inr c ->
     (c = SNull -> customer_not_null = None) ->
     in_int64 sale = true ->
     In r (sales db) -> sale_id r = sale ->
     reply_response out = Response 200 (message "Sale has been updated.")).
Proof.
  intros out. subst out. split; [|apply update_sale_accepts].
  intros H200.
  destruct (update_sale_run sale req tokens db) as (_ & _ & _ & _ & Hok).
  destruct (Hok H200) as (fields & c & Hj & Hhas & Hc & Hhit & Href & ->).
  exists fields, c. repeat (split; [assumption|]).
  split.
  { apply existsb_exists in Hhit as (r & Hin & Heq). apply Z.eqb_eq in Heq. eauto. }
  split; [assumption|]. cbn [set_sales sales]. split; [|split].
  - intros r Hin Heq. apply in_map_iff. exists r. split; [|assumption].
    apply Z.eqb_eq in Heq as Heqb. rewrite Heqb, Heq. reflexivity.
  - intros r Hin Hne. apply in_map_iff. exists r. split; [|assumption].
    apply Z.eqb_neq in Hne. rewrite Hne. reflexivity.
  - intros r Hin Heq. apply in_map_iff in Hin as (r0 & <- & Hin).
    destruct (sale_id r0 =? sale) eqn:Hr0; [reflexivity|].
    apply Z.eqb_neq in Hr0. contradiction.
Qed.

(** X5.  The refusals of [update_sale], in the order the code makes
    them: a falsy body is answered 400; else a sale that does not exist
    is answered 404, whatever the body names; else a dict body without
    the key [customer_id] is answered 400, whatever other keys it has.
    A 404 is given only when no sale row has the id. *)
Theorem update_sale_refusals
    (sale : Z) (req : request) (tokens : gmap string identity) (db : database) :
  let out := update_sale customer_not_null sale req tokens db in
  (truthy (req_json req) = false ->
   reply_response out = Response 400 (message "A JSON body is required!"))
  /\
  (truthy (req_json req) = true -> in_int64 sale = true ->
   (forall r, In r (sales db) -> sale_id r <> sale) ->
   reply_response out = Response 404 (message "Sale not found!"))
  /\
  (forall fields r,
     req_json req = JObj fields -> fields <> [] -> in_int64 sale = true ->
     In r (sales db) -> sale_id r = sale ->
     dict_has fields "customer_id" = false ->
     reply_response out = Response 400 (message "No valid fields to update!"))
  /\
  (status_of (reply_response out) = 404 ->
   forall r, In r (sales db) -> sale_id r <> sale).
Proof.
  intros out. subst out. split; [|split; [|split]].
  - intros Hf. unfold update_sale, serve, update_sale_body. open_body.
    rewrite Hf. reflexivity.
  - intros Ht Hrange Hnone.
    unfold update_sale, serve, update_sale_body, with_database, select_sale_id.
    open_body. rewrite Ht. cbn [negb bind_param]. rewrite Hrange.
    rewrite (find_nowhere (fun r => sale_id r =? sale) (sales db));
      [reflexivity|].
    intros r Hin. apply Z.eqb_neq. auto.
  - intros fields r Hj Hne Hrange Hin Heq Hhas.
    unfold update_sale, serve, update_sale_body, with_database, select_sale_id.
    open_body. rewrite Hj. cbn [truthy py_in].
    destruct fields as [|f fields]; [congruence|]. cbn [negb bind_param].
    rewrite Hrange, Hhas.
    destruct (List.find (fun r => sale_id r =? sale) (sales db)) as [hit|] eqn:Hfind.
    + reflexivity.
    + exfalso. apply (List.find_none _ _ Hfind) in Hin.
      apply Z.eqb_neq in Hin. contradiction.
  - intros H404 r Hin.
    destruct (update_sale_run sale req tokens db) as (_ & _ & _ & Hmissing & _).
    apply (List.find_none _ _ (Hmissing H404)) in Hin. apply Z.eqb_neq. assumption.
Qed.

(** ** [get_sale] *)

Lemma get_sale_out_of_range sale req tokens db :
  in_int64 sale = false ->
  get_sale sale req tokens db
  = mkReply
      (Unhandled (OverflowError "Python int too large to convert to SQLite INTEGER"))
      (req_session req) tokens db.
Proof.
  intros Hrange.
  unfold get_sale, serve, get_sale_body, with_database, select_sale.
  cbn [bind_param]. rewrite Hrange. reflexivity.
Qed.

Lemma get_sale_state sale req tokens db :
  reply_db (get_sale sale req tokens db) = db /\
  reply_tokens (get_sale sale req tokens db) = tokens /\
  reply_session (get_sale sale req tokens db) = req_session req.
Proof.
  destruct (in_int64 sale) eqn:Hrange.
  - rewrite (get_sale_run _ _ _ _ Hrange). repeat split.
  - rewrite (get_sale_out_of_range _ _ _ _ Hrange). repeat split.
Qed.

(** X6.  [get_sale] only reads: the database, the token table and the
    session are as before whatever the id.  For an id SQLite can hold it
    answers 404 exactly when no sale row has the id, and otherwise 200
    with the id, customer and user of the first such row. *)
Theorem get_sale_reads
    (sale : Z) (req : request) (tokens : gmap string identity) (db : database) :
  let out := get_sale sale req tokens db in
  reply_db out = db /\
  reply_tokens out = tokens /\
  reply_session out = req_session req /\
  (in_int64 sale = true ->
   (reply_response out = Response 404 (message "Sale is not found!") <->
    forall r, In r (sales db) -> sale_id r <> sale) /\
   (forall r, List.find (fun r => sale_id r =? sale) (sales db) = Some r ->
      exists details,
        reply_response out
        = Response 200
            (JObj [("id", JInt sale);
                   ("customer_id", json_of_sqlval (sale_customer_id r));
                   ("user_id", JInt (sale_user_id r));
                   ("details", JList details)]))).
Proof.
  intros out. subst out.
  destruct (in_int64 sale) eqn:Hrange.
  - rewrite (get_sale_run _ _ _ _ Hrange). cbn [reply_db reply_tokens reply_session
      reply_response].
    repeat (split; [reflexivity|]). intros _. split.
    + destruct (List.find (fun r => sale_id r =? sale) (sales db)) as [r|] eqn:Hfind.
      * split; [discriminate|]. intros Hnone. exfalso.
        apply List.find_some in Hfind as (Hin & Heq). apply Z.eqb_eq in Heq.
        apply (Hnone r Hin Heq).
      * split; [|reflexivity]. intros _ r Hin.
        apply (List.find_none _ _ Hfind) in Hin. apply Z.eqb_neq. assumption.
    + intros r Hfind. rewrite Hfind.
      apply List.find_some in Hfind as (_ & Heq). apply Z.eqb_eq in Heq.
      rewrite Heq. eexists. reflexivity.
  - rewrite (get_sale_out_of_range _ _ _ _ Hrange).
    repeat (split; [reflexivity|]). discriminate.
Qed.

(** X7.  A sale that was deleted cannot be read: after [delete_sale],
    whatever it answered, [get_sale] on the same id answers 404. *)
Theorem get_sale_after_delete
    (sale : Z) (req later : request) (tokens tokens' : gmap string identity)
    (db : database) :
  in_int64 sale = true ->
  reply_response
    (get_sale sale later tokens' (reply_db (delete_sale sale req tokens db)))
  = Response 404 (message "Sale is not found!").
Proof.
  intros Hrange.
  rewrite (delete_sale_run _ _ _ _ Hrange), (get_sale_run _ _ _ _ Hrange).
  cbn [reply_db reply_response without_sale sales].
  rewrite find_nowhere; [reflexivity|].
  intros r Hin. apply filter_In in Hin as (_ & Hne).
  apply negb_true_iff in Hne. assumption.
Qed.

Lemma update_sale_out_of_range sale req tokens db :
  in_int64 sale = false ->
  status_of (reply_response
               (update_sale customer_not_null sale req tokens db)) <> 200.
Proof.
  intros Hrange.
  unfold update_sale, serve, update_sale_body, with_database, select_sale_id.
  open_body. cbn [bind_param]. rewrite Hrange.
  destruct (truthy (req_json req)); cbn; discriminate.
Qed.

Lemma find_map_update (c : sqlval) (sale : Z) (rows : list sale_row) :
  List.find (fun r => sale_id r =? sale)
    (List.map (fun r => if sale_id r =? sale
                        then mkSale (sale_id r) c (sale_user_id r) else r) rows)
  = option_map (fun r => mkSale (sale_id r) c (sale_user_id r))
      (List.find (fun r => sale_id r =? sale) rows).
Proof.
  induction rows as [|r rows IH]; [reflexivity|].
  cbn [List.map List.find]. destruct (sale_id r =? sale) eqn:Hr.
  - cbn [sale_id]. rewrite Hr. reflexivity.
  - rewrite Hr. exact IH.
Qed.

(** X8.  An update that is answered 200 shows in [get_sale]: the sale
    is reported with the same id, the same user and the same details as
    before, and with the customer that was sent. *)
Theorem get_sale_after_update
    (sale : Z) (req later : request) (tokens tokens' : gmap string identity)
    (db : database) :
  let out := update_sale customer_not_null sale req tokens db in
  status_of (reply_response out) = 200 ->
  exists fields c old user details,
    req_json req = JObj fields /\
    bind_param 1 (dict_get fields "customer_id") = inr c /\
    reply_response (get_sale sale later tokens' db)
    = Response 200
        (JObj [("id", JInt sale); ("customer_id", old);
               ("user_id", JInt user); ("details", JList details)]) /\
    reply_response (get_sale sale later tokens' (reply_db out))
    = Response 200
        (JObj [("id", JInt sale); ("customer_id", json_of_sqlval c);
               ("user_id", JInt user); ("details", JList details)]).
Proof.
  intros out H200. subst out.
  assert (Hrange : in_int64 sale = true).
  { destruct (in_int64 sale) eqn:Hr; [reflexivity|].
    exfalso. apply (update_sale_out_of_range sale req tokens db Hr H200). }
  destruct (update_sale_run sale req tokens db) as (_ & _ & _ & _ & Hok).
  destruct (Hok H200) as (fields & c & Hj & _ & Hc & Hhit & _ & ->).
  rewrite !(get_sale_run _ _ _ _ Hrange).
  cbn [reply_response set_sales sales sales_details inventory_logs products].
  rewrite find_map_update.
  destruct (List.find (fun r => sale_id r =? sale) (sales db)) as [r|] eqn:Hfind.
  - apply List.find_some in Hfind as (_ & Heq). apply Z.eqb_eq in Heq.
    cbn [option_map sale_id sale_customer_id sale_user_id]. rewrite Heq.
    exists fields, c. eexists _, _, _. repeat (split; [first [assumption|reflexivity]|]).
    reflexivity.
  - exfalso. apply existsb_exists in Hhit as (r & Hin & Heq).
    rewrite (List.find_none _ _ Hfind r Hin) in Heq. discriminate.
Qed.

(** ** Creating a sale and deleting it again *)

Lemma existsb_eqb_In (x : Z) (l : list Z) : existsb (Z.eqb x) l = true <-> In x l.
Proof.
  rewrite existsb_exists. split.
  - intros (y & Hin & Heq). apply Z.eqb_eq in Heq. subst. assumption.
  - intros Hin. exists x. split; [assumption | apply Z.eqb_refl].
Qed.

Lemma new_log_ids sale items rows :
  Forall2 (line_rows sale) items rows ->
  omap (fun i : option Z => i) (List.map detail_log_id (new_details rows))
  = List.map log_id (new_logs rows).
Proof.
  induction 1 as [|item [d l] items rows Hline Hrest IH]; [reflexivity|].
  destruct Hline as (_ & _ & _ & _ & Hlog). cbn [fst snd] in Hlog.
  cbn [new_details new_logs List.map flat_map fst snd].
  fold (new_details rows). fold (new_logs rows).
  destruct l as [lg|].
  - destruct Hlog as (_ & Hid & _). rewrite Hid. cbn. rewrite IH. reflexivity.
  - destruct Hlog as (_ & Hid). rewrite Hid. cbn. exact IH.
Qed.

Lemma new_details_of_sale sale items rows d :
  Forall2 (line_rows sale) items rows ->
  In d (new_details rows) -> detail_sale_id d = sale.
Proof.
  intros Hlines Hin. apply in_map_iff in Hin as (row & <- & Hin).
  destruct (Forall2_In_right _ _ _ _ Hlines Hin) as (item & _ & Hline).
  apply Hline.
Qed.

(** X9.  Deleting a sale that was just created undoes the creation: when
    every detail row of the database belonged to a sale row, the
    database after [create_sale] (answered 201) followed by
    [delete_sale] on the returned id is the database before, and the
    deletion is answered 200. *)
Theorem delete_undoes_create
    (req again : request) (tokens tokens' : gmap string identity)
    (db : database) (sale : Z) :
  reply_response (create_sale req tokens db)
  = Response 201
      (JObj [("message", JStr "Sale has been created."); ("id", JInt sale)]) ->
  details_reference_sales db ->
  in_int64 sale = true ->
  reply_db (delete_sale sale again tokens'
              (reply_db (create_sale req tokens db)))
  = db /\
  reply_response (delete_sale sale again tokens'
                    (reply_db (create_sale req tokens db)))
  = Response 200 (message "Sale has been deleted.").
Proof.
  intros Hresp Href Hrange.
  assert (H201 : status_of (reply_response (create_sale req tokens db)) = 201)
    by (rewrite Hresp; reflexivity).
  destruct (create_sale_created _ _ _ H201)
    as (customer & items & user & sale' & Hreq & Hins & Hresp').
  rewrite Hresp in Hresp'. injection Hresp' as <-.
  apply create_sale_inserts_Normal in Hins as (db1 & rows & Hsale & Hloop).
  apply execute_insert_sale_Normal in Hsale as (c & _ & Hid & ->).
  set (db' := reply_db (create_sale req tokens db)) in *.
  pose proof (loop_rows_tables _ _ _ _ _ Hloop) as (Hu & Hc & Hp & Hs & Hd & Hl).
  pose proof (loop_rows_lines _ _ _ _ _ Hloop) as Hlines.
  pose proof (loop_rows_ids _ _ _ _ _ Hloop) as (_ & Hasc).
  cbn [set_sales users customers products sales sales_details inventory_logs]
    in Hu, Hc, Hp, Hs, Hd, Hl, Hasc.
  assert (Hfresh : forall s, In s (sales db) -> sale_id s <> sale).
  { intros s Hin. pose proof (max_id_ge _ _ (in_map sale_id _ _ Hin)).
    rewrite Hid. unfold next_rowid. fold (max_id (List.map sale_id (sales db))). lia. }
  assert (Hold : forall d, In d (sales_details db) -> detail_sale_id d <> sale).
  { intros d Hin. destruct (Href d Hin) as (s & Hs' & <-). auto. }
  assert (Hsales : List.filter (fun r => negb (sale_id r =? sale)) (sales db') = sales db).
  { rewrite Hs, List.filter_app. cbn [List.filter sale_id]. rewrite Z.eqb_refl.
    cbn [negb]. rewrite app_nil_r. apply filter_every.
    intros s Hin. apply negb_true_iff, Z.eqb_neq. auto. }
  assert (Hdetails : List.filter (fun r => negb (detail_sale_id r =? sale))
                       (sales_details db') = sales_details db).
  { rewrite Hd, List.filter_app.
    rewrite (filter_none _ (new_details rows)).
    - rewrite app_nil_r. apply filter_every.
      intros d Hin. apply negb_true_iff, Z.eqb_neq. auto.
    - intros d Hin. apply negb_false_iff, Z.eqb_eq.
      apply (new_details_of_sale _ _ _ _ Hlines Hin). }
  assert (Hids : sale_log_ids sale db' = List.map log_id (new_logs rows)).
  { unfold sale_log_ids. rewrite Hd, List.filter_app.
    rewrite (filter_none _ (sales_details db)).
    - cbn [app]. rewrite filter_every.
      + apply (new_log_ids _ _ _ Hlines).
      + intros d Hin. apply Z.eqb_eq. apply (new_details_of_sale _ _ _ _ Hlines Hin).
    - intros d Hin. apply Z.eqb_neq. auto. }
  assert (Hlogs : List.filter
                    (fun r => negb (existsb (Z.eqb (log_id r)) (sale_log_ids sale db')))
                    (inventory_logs db') = inventory_logs db).
  { rewrite Hids, Hl, List.filter_app.
    rewrite (filter_none _ (new_logs rows)).
    - rewrite app_nil_r. apply filter_every.
      intros lg Hin. apply negb_true_iff, not_true_iff_false.
      rewrite existsb_eqb_In. intros Hnew.
      pose proof (max_id_ge _ _ (in_map log_id _ _ Hin)).
      pose proof (ascending_from_above _ _ _ Hasc Hnew). lia.
    - intros lg Hin. apply negb_false_iff, existsb_eqb_In, in_map. assumption. }
  rewrite (delete_sale_run _ _ _ _ Hrange).
  cbn [reply_db reply_response]. unfold without_sale.
  rewrite Hsales, Hdetails, Hlogs, Hu, Hc, Hp. split.
  - destruct db. reflexivity.
  - rewrite Hs, List.filter_app. cbn [List.filter sale_id]. rewrite Z.eqb_refl.
    rewrite (filter_none _ (sales db)).
    + reflexivity.
    + intros s Hin. apply Z.eqb_neq. auto.
Qed.


(** ** What the routes keep *)

Lemma delete_sale_missing sale req tokens db :
  details_reference_sales db ->
  (forall r, In r (sales db) -> sale_id r <> sale) ->
  reply_db (delete_sale sale req tokens db) = db.
Proof.
  intros Href Hnone.
  destruct (in_int64 sale) eqn:Hrange;
    [|rewrite (delete_sale_out_of_range _ _ _ _ Hrange); reflexivity].
  rewrite (delete_sale_run _ _ _ _ Hrange). cbn [reply_db].
  assert (Hold : forall d, In d (sales_details db) -> detail_sale_id d <> sale).
  { intros d Hin. destruct (Href d Hin) as (s & Hs & <-). auto. }
  assert (Hids : sale_log_ids sale db = []).
  { unfold sale_log_ids. rewrite filter_none; [reflexivity|].
    intros d Hin. apply Z.eqb_neq. auto. }
  unfold without_sale. rewrite Hids.
  rewrite !filter_every.
  - destruct db. reflexivity.
  - reflexivity.
  - intros d Hin. apply negb_true_iff, Z.eqb_neq. auto.
  - intros s Hin. apply negb_true_iff, Z.eqb_neq. auto.
Qed.

(** X10.  Deleting a sale that does not exist changes nothing, provided
    every detail row of the database belongs to a sale row. *)
Theorem delete_sale_missing_unchanged
    (sale : Z) (req : request) (tokens : gmap string identity) (db : database) :
  details_reference_sales db ->
  (forall r, In r (sales db) -> sale_id r <> sale) ->
  reply_db (delete_sale sale req tokens db) = db.
Proof. apply delete_sale_missing. Qed.

Lemma create_sale_keeps_references req tokens db :
  details_reference_sales db ->
  details_reference_sales (reply_db (create_sale req tokens db)).
Proof. apply appended_keeps_references, create_sale_effect. Qed.

Lemma delete_sale_keeps_references sale req tokens db :
  details_reference_sales db ->
  details_reference_sales (reply_db (delete_sale sale req tokens db)).
Proof.
  intros Href.
  destruct (in_int64 sale) eqn:Hrange;
    [|rewrite (delete_sale_out_of_range _ _ _ _ Hrange); exact Href].
  rewrite (delete_sale_run _ _ _ _ Hrange). cbn [reply_db].
  intros d Hin. cbn [without_sale sales_details sales] in *.
  apply filter_In in Hin as (Hin & Hne).
  destruct (Href d Hin) as (s & Hs & Heq).
  exists s. split; [|assumption]. apply filter_In. split; [assumption|].
  rewrite Heq. assumption.
Qed.

Lemma update_sale_keeps_references sale req tokens db :
  details_reference_sales db ->
  details_reference_sales
    (reply_db (update_sale customer_not_null sale req tokens db)).
Proof.
  intros Href.
  destruct (update_sale_run sale req tokens db) as (_ & _ & Hother & _ & H200).
  destruct (Z.eq_dec
              (status_of (reply_response
                            (update_sale customer_not_null sale req tokens db)))
              200) as [Heq | Hne]; [|rewrite (Hother Hne); exact Href].
  destruct (H200 Heq) as (fields & c & _ & _ & _ & _ & _ & ->).
  intros d Hin. cbn [set_sales sales sales_details] in *.
  destruct (Href d Hin) as (s & Hs & Hid).
  exists (if sale_id s =? sale then mkSale (sale_id s) c (sale_user_id s) else s).
  split.
  - apply in_map_iff. exists s. split; [reflexivity | assumption].
  - destruct (sale_id s =? sale); assumption.
Qed.

Lemma login_db token req tokens db :
  reply_db (login check_password_hash token req tokens db) = db.
Proof.
  unfold login.
  destruct (login_credentials check_password_hash req db) as [[u|st p|e] db'];
    reflexivity.
Qed.

Lemma login_tokens token req tokens db :
  reply_tokens (login check_password_hash token req tokens db) = tokens \/
  exists u, reply_tokens (login check_password_hash token req tokens db)
            = <[token := u]> tokens.
Proof.
  unfold login.
  destruct (login_credentials check_password_hash req db) as [[u|st p|e] db'];
    cbn; eauto.
Qed.

Lemma serve_tokens m req tokens db : reply_tokens (serve m req tokens db) = tokens.
Proof. unfold serve. destruct (finish _). reflexivity. Qed.

Lemma gated_tokens acc m req tokens db :
  reply_tokens (privileged acc (serve m) req tokens db) = tokens.
Proof.
  destruct (privileged_cases acc (serve m) req tokens db) as [-> | (_ & Ht & _)];
    [apply serve_tokens | exact Ht].
Qed.

(** A property of the database that the three writing handlers keep is
    kept by every route. *)
Lemma view_function_keeps (P : database -> Prop) :
  (forall req tokens db,
     P db -> P (reply_db (create_sale req tokens db))) ->
  (forall sale req tokens db,
     P db -> P (reply_db (update_sale customer_not_null sale req tokens db))) ->
  (forall sale req tokens db,
     P db -> P (reply_db (delete_sale sale req tokens db))) ->
  forall c req tokens db,
    P db ->
    P (reply_db (view_function check_password_hash customer_not_null
                   c req tokens db)).
Proof.
  intros Hcreate Hupdate Hdelete c req tokens db HP.
  destruct c; cbn [view_function].
  - exact HP.
  - rewrite login_db. exact HP.
  - exact HP.
  - unfold get_sale_endpoint.
    destruct (privileged_cases (sales_access GET_sale) (get_sale sale) req tokens db)
      as [-> | (_ & _ & -> & _)]; [|exact HP].
    destruct (get_sale_state sale req tokens db) as (-> & _). exact HP.
  - unfold create_sale_endpoint.
    destruct (privileged_cases (sales_access POST_sales) (create_sale)
                req tokens db) as [-> | (_ & _ & -> & _)]; auto.
  - unfold update_sale_endpoint.
    destruct (privileged_cases (sales_access PATCH_sale)
                (update_sale customer_not_null sale) req tokens db)
      as [-> | (_ & _ & -> & _)]; auto.
  - unfold delete_sale_endpoint.
    destruct (privileged_cases (sales_access DELETE_sale) (delete_sale sale)
                req tokens db) as [-> | (_ & _ & -> & _)]; auto.
Qed.

Lemma serve_all_keeps (P : database -> Prop) :
  (forall c req tokens db,
     P db ->
     P (reply_db (view_function check_password_hash customer_not_null
                    c req tokens db))) ->
  forall calls tokens db,
    P db ->
    P (snd (serve_all check_password_hash customer_not_null
              calls tokens db)).
Proof.
  intros Hstep calls. induction calls as [|[c req] calls IH]; intros tokens db HP.
  - exact HP.
  - cbn [serve_all]. apply IH, Hstep, HP.
Qed.

(** X11.  However many requests the routes serve and whatever they
    carry, if every detail row belonged to a sale row before, every
    detail row belongs to a sale row afterwards. *)
Theorem details_always_reference_sales
    (calls : list (call * request)) (tokens : gmap string identity) (db : database) :
  details_reference_sales db ->
  details_reference_sales
    (snd (serve_all check_password_hash customer_not_null
            calls tokens db)).
Proof.
  apply (serve_all_keeps details_reference_sales).
  apply view_function_keeps.
  - apply create_sale_keeps_references.
  - apply update_sale_keeps_references.
  - apply delete_sale_keeps_references.
Qed.


Lemma view_function_tokens c req tokens db :
  reply_tokens (view_function check_password_hash customer_not_null
                  c req tokens db) = tokens \/
  exists token u,
    c = POST_api_login token /\
    reply_tokens (view_function check_password_hash customer_not_null
                    c req tokens db) = <[token := u]> tokens.
Proof.
  destruct c; cbn [view_function];
    try (left; first [reflexivity | apply gated_tokens]).
  destruct (login_tokens token req tokens db) as [H | (u & H)]; [left | right]; eauto.
Qed.

(** X13.  No route revokes a token: after any sequence of requests a
    token that was in [active_tokens] is still there, and it still
    stands for the same identity unless a later login drew the very same
    token. *)
Theorem tokens_never_revoked
    (calls : list (call * request)) (tokens : gmap string identity) (db : database)
    (token : string) (u : identity) :
  tokens !! token = Some u ->
  let tokens' := fst (serve_all check_password_hash customer_not_null
                        calls tokens db) in
  is_Some (tokens' !! token) /\
  ((forall req, ~ In (POST_api_login token, req) calls) ->
   tokens' !! token = Some u).
Proof.
  intros Hu tokens'. subst tokens'. split.
  - assert (Hsome : is_Some (tokens !! token)) by (rewrite Hu; eauto).
    clear Hu. revert tokens db Hsome.
    induction calls as [|[c req] calls IH]; intros tokens db Hsome; [exact Hsome|].
    cbn [serve_all]. apply IH.
    destruct (view_function_tokens c req tokens db) as [-> | (t & v & _ & ->)];
      [exact Hsome|].
    destruct (decide (t = token)) as [-> | Hne].
    + rewrite lookup_insert_eq. eauto.
    + rewrite lookup_insert_ne by assumption. exact Hsome.
  - revert tokens db Hu.
    induction calls as [|[c req] calls IH]; intros tokens db Hu Hnone; [exact Hu|].
    cbn [serve_all]. apply IH.
    + destruct (view_function_tokens c req tokens db) as [-> | (t & v & -> & ->)];
        [exact Hu|].
      rewrite lookup_insert_ne; [exact Hu|].
      intros ->. apply (Hnone req). left. reflexivity.
    + intros req0 Hin. apply (Hnone req0). right. assumption.
Qed.

(** ** Who a sale is recorded under *)

Lemma acting_user_of_identity req tokens u :
  session_or_token req tokens = Some u ->
  acting_user_id req tokens = Some (ident_id u).
Proof.
  unfold session_or_token, acting_user_id.
  destruct (req_session req) as [v|].
  - intros H. injection H as ->. reflexivity.
  - intros ->. reflexivity.
Qed.

(** X14.  A sale created through the gated route is recorded under the
    caller the gate let through: an answer of 201 means the caller was
    resolved to an identity with role [w] or [a], and the new sale row,
    whose id is returned and was not in use, carries that identity's
    id. *)
Theorem create_sale_endpoint_records_caller
    (req : request) (tokens : gmap string identity) (db : database) :
  let out := create_sale_endpoint req tokens db in
  status_of (reply_response out) = 201 ->
  exists u sale c,
    session_or_token req tokens = Some u /\
    (ident_role u = "w" \/ ident_role u = "a") /\
    reply_response out
    = Response 201
        (JObj [("message", JStr "Sale has been created."); ("id", JInt sale)]) /\
    In (mkSale sale c (ident_id u)) (sales (reply_db out)) /\
    (forall s, In s (sales db) -> sale_id s <> sale).
Proof.
  intros out H201. subst out.
  unfold create_sale_endpoint in *.
  assert (Hpass : exists u,
            session_or_token req tokens = Some u /\
            (ident_role u = "w" \/ ident_role u = "a") /\
            privileged (sales_access POST_sales) (create_sale) req tokens db
            = create_sale req tokens db).
  { revert H201. unfold privileged. cbn [sales_access].
    destruct (session_or_token req tokens) as [u|]; [|cbn; discriminate].
    destruct (String.eqb (ident_role u) "d"); [cbn; discriminate|].
    destruct (String.eqb (ident_role u) "r"); [cbn; discriminate|].
    destruct (String.eqb (ident_role u) "w") eqn:Hw.
    { apply String.eqb_eq in Hw. intros _. exists u. auto. }
    destruct (String.eqb (ident_role u) "a") eqn:Ha; [|cbn; discriminate].
    apply String.eqb_eq in Ha. intros _. exists u. auto. }
  destruct Hpass as (u & Hu & Hrole & Heq). rewrite Heq in *.
  destruct (create_sale_created _ _ _ H201)
    as (customer & items & user & sale & Hreq & Hins & Hresp).
  apply create_sale_inserts_Normal in Hins as (db1 & rows & Hsale & Hloop).
  apply execute_insert_sale_Normal in Hsale as (c & _ & Hid & ->).
  pose proof (loop_rows_tables _ _ _ _ _ Hloop) as (_ & _ & _ & Hs & _).
  cbn [set_sales sales] in Hs.
  destruct Hreq as (fields & _ & _ & _ & _ & _ & Hacting & _).
  rewrite (acting_user_of_identity _ _ _ Hu) in Hacting. injection Hacting as <-.
  exists u, sale, c. repeat (split; [assumption|]). split.
  - rewrite Hs. apply in_or_app. right. left. reflexivity.
  - intros s Hin. pose proof (max_id_ge _ _ (in_map sale_id _ _ Hin)).
    rewrite Hid. unfold next_rowid. fold (max_id (List.map sale_id (sales db))). lia.
Qed.

(** ** Who can log in *)

Lemma bind_param_text n v name : bind_param n v = inr (SText name) -> v = JStr name.
Proof.
  destruct v as [| flag | z | [] | s | l | f]; cbn; try discriminate.
  - destruct (in_int64 z); discriminate.
  - intros H. injection H as ->. reflexivity.
Qed.

Lemma sqlval_eqb_SText v name : sqlval_eqb v (SText name) = true -> v = SText name.
Proof.
  destruct v; cbn; try discriminate. intros H. apply String.eqb_eq in H. congruence.
Qed.

(** X15.  [login] answers 200 only for a username that is in [users]
    with a password its stored hash accepts; the session and the token
    it then sets carry the id, name and role of that row; and no login,
    however it ends, writes to the database. *)
Theorem login_sound
    (token : string) (req : request) (tokens : gmap string identity) (db : database) :
  let out := login check_password_hash token req tokens db in
  reply_db out = db /\
  (status_of (reply_response out) = 200 ->
   exists fields name u,
     req_json req = JObj fields /\
     dict_get fields "username" = JStr name /\
     In u (users db) /\
     user_username u = name /\
     check_password_hash (user_password_hash u) (dict_get fields "password")
     = inr true /\
     reply_session out = Some (identity_of u) /\
     reply_tokens out = <[token := identity_of u]> tokens).
Proof.
  intros out. subst out. split; [apply login_db|].
  unfold login, login_credentials, with_database, select_user.
  destruct (req_json req) as [| b | z | [] | s | l | fields] eqn:Hjson; cbn [get];
    cbv beta iota zeta delta [bind when ret return_ raise eval];
    split_cases; cbn; try discriminate.
  intros _.
  match goal with
  | Hf : List.find _ (users db) = Some ?u |- _ =>
      apply List.find_some in Hf as (Hin & Hname); exists fields, (user_username u), u
  end.
  apply sqlval_eqb_SText in Hname. subst.
  match goal with
  | Hb : bind_param 1 _ = inr (SText _) |- _ => apply bind_param_text in Hb
  end.
  repeat match goal with
         | H : negb _ = false |- _ => apply negb_false_iff in H
         end.
  subst.
  repeat (split; [first [reflexivity | assumption]|]). reflexivity.
Qed.

(** ** The first request: [init_database] *)

(** The account [init_database] creates. *)
Lemma init_database_run (admin_hash : string) (db : database) :
  init_database schema_script admin_hash db
  = (Normal tt,
     if Z.of_nat (List.length (List.filter counts_as_admin (users (schema_script db))))
        =? 0
     then set_users (schema_script db)
            (users (schema_script db)
             ++ [mkUser (next_rowid (List.map user_id (users (schema_script db))))
                   "admin" admin_hash "a"])
     else schema_script db).
Proof.
  unfold init_database, with_database, select_count_admins, execute_insert_admin.
  open_body. fold counts_as_admin.
  change (fun u : user_row => counts_as_admin u) with counts_as_admin.
  destruct (Z.of_nat _ =? 0); reflexivity.
Qed.

(** X16.  Once the schema script has run, [init_database] succeeds and
    leaves an account that is an administrator or is called [admin].
    When the database (after the schema script) has no such account it
    adds exactly one row, named [admin], with role [a] and the given
    hash, after the existing rows; when it has one it adds nothing.
    Nothing else is touched. *)
Theorem init_database_bootstrap (admin_hash : string) (db : database) :
  let db0 := schema_script db in
  let out := init_database schema_script admin_hash db in
  fst out = Normal tt /\
  customers (snd out) = customers db0 /\
  products (snd out) = products db0 /\
  sales (snd out) = sales db0 /\
  sales_details (snd out) = sales_details db0 /\
  inventory_logs (snd out) = inventory_logs db0 /\
  ((forall u, In u (users db0) -> counts_as_admin u = false) ->
   users (snd out)
   = users db0
     ++ [mkUser (next_rowid (List.map user_id (users db0))) "admin" admin_hash "a"]) /\
  ((exists u, In u (users db0) /\ counts_as_admin u = true) -> snd out = db0) /\
  (exists u, In u (users (snd out)) /\ counts_as_admin u = true).
Proof.
  intros db0 out. subst db0 out. rewrite init_database_run. cbn [fst snd].
  destruct (Z.of_nat _ =? 0) eqn:Hcount.
  - do 6 (split; [reflexivity|]). split; [|split].
    + intros _. reflexivity.
    + intros (u & Hin & Hu).
      rewrite (proj1 (rowcount_zero _ _) Hcount u Hin) in Hu. discriminate.
    + eexists. split; [cbn; apply in_or_app; right; left; reflexivity | reflexivity].
  - assert (Hsome : exists u, In u (users (schema_script db)) /\ counts_as_admin u = true).
    { destruct (List.filter counts_as_admin (users (schema_script db))) as [|u l] eqn:Hf;
        [discriminate|].
      assert (Hu : In u (List.filter counts_as_admin (users (schema_script db))))
        by (rewrite Hf; left; reflexivity).
      apply filter_In in Hu. eauto. }
    do 6 (split; [reflexivity|]). split; [|split].
    + intros Hnone. destruct Hsome as (u & Hin & Hu).
      rewrite (Hnone u Hin) in Hu. discriminate.
    + intros _. reflexivity.
    + exact Hsome.
Qed.

(** X17.  Running the hook again, as every restart of the server does,
    adds no second account, provided the schema script leaves [users]
    alone. *)
Theorem init_database_once (hash1 hash2 : string) (db : database) :
  (forall d, users (schema_script d) = users d) ->
  users (snd (init_database schema_script hash2
                (snd (init_database schema_script hash1 db))))
  = users (snd (init_database schema_script hash1 db)).
Proof.
  intros Hschema.
  set (db1 := snd (init_database schema_script hash1 db)).
  assert (Hsome : exists u, In u (users db1) /\ counts_as_admin u = true).
  { subst db1. rewrite init_database_run. cbn [snd].
    destruct (Z.of_nat _ =? 0) eqn:Hcount.
    - eexists. split; [cbn; apply in_or_app; right; left; reflexivity | reflexivity].
    - destruct (List.filter counts_as_admin (users (schema_script db))) as [|u l] eqn:Hf;
        [discriminate|].
      assert (Hu : In u (List.filter counts_as_admin (users (schema_script db))))
        by (rewrite Hf; left; reflexivity).
      apply filter_In in Hu. eauto. }
  rewrite init_database_run. cbn [snd]. rewrite (Hschema db1).
  destruct (Z.of_nat _ =? 0) eqn:Hcount; [|apply Hschema].
  destruct Hsome as (u & Hin & Hu).
  rewrite (proj1 (rowcount_zero _ _) Hcount u Hin) in Hu. discriminate.
Qed.

(** X18.  An account that is merely called [admin] stands in the way:
    when it exists and nobody has role [a], the hook creates nothing and
    the database is left without an administrator. *)
Theorem init_database_name_taken (admin_hash : string) (db : database) :
  (exists u, In u (users (schema_script db)) /\ user_username u = "admin") ->
  (forall u, In u (users (schema_script db)) -> user_role u <> "a") ->
  forall u, In u (users (snd (init_database schema_script admin_hash db))) ->
            user_role u <> "a".
Proof.
  intros (named & Hin & Hname) Hnone.
  rewrite init_database_run. cbn [snd].
  destruct (Z.of_nat _ =? 0) eqn:Hcount; [|exact Hnone].
  pose proof (proj1 (rowcount_zero _ _) Hcount named Hin) as Hfalse.
  unfold counts_as_admin in Hfalse. rewrite Hname in Hfalse.
  apply orb_false_iff in Hfalse as (_ & Hfalse). discriminate.
Qed.

(** X19.  The account the hook creates can log in and is an
    administrator: on a database without an administrator and without an
    [admin], after the hook a login as [admin] with password [admin] is
    answered 200, given that the stored hash accepts that password; it
    is resolved with role [a], and its session passes the gate at every
    level. *)
Theorem bootstrap_admin_logs_in
    (admin_hash token : string) (req : request) (fields : list (string * json))
    (tokens : gmap string identity) (db : database) :
  (forall u, In u (users (schema_script db)) -> counts_as_admin u = false) ->
  check_password_hash admin_hash (JStr "admin") = inr true ->
  req_json req = JObj fields ->
  dict_get fields "username" = JStr "admin" ->
  dict_get fields "password" = JStr "admin" ->
  let db' := snd (init_database schema_script admin_hash db) in
  let who :=
    mkIdentity (next_rowid (List.map user_id (users (schema_script db)))) "admin" "a" in
  let out := login check_password_hash token req tokens db' in
  status_of (reply_response out) = 200 /\
  reply_session out = Some who /\
  reply_tokens out !! token = Some who /\
  forall acc func later tokens'' db'',
    req_session later = reply_session out ->
    privileged acc func later tokens'' db'' = func later tokens'' db''.
Proof.
  intros Hnone Hcheck Hjson Huser Hpass db' who out. subst db' who out.
  rewrite init_database_run. cbn [snd].
  replace (Z.of_nat _ =? 0) with true by (symmetry; apply rowcount_zero; exact Hnone).
  set (row := mkUser (next_rowid (List.map user_id (users (schema_script db))))
                "admin" admin_hash "a").
  set (db' := set_users (schema_script db) (users (schema_script db) ++ [row])).
  assert (Hcred : credentials_of req (JStr "admin") (JStr "admin")).
  { exists fields. split; [assumption|]. split.
    - destruct fields; [discriminate | reflexivity].
    - repeat (split; [first [assumption | reflexivity]|]). reflexivity. }
  assert (Hsel : select_user (JStr "admin") db' = (Normal (Some row), db')).
  { unfold select_user. open_body. cbn [bind_param]. f_equal. f_equal.
    subst db'. cbn [set_users users]. apply find_last; [|reflexivity].
    intros u Hin. specialize (Hnone u Hin). unfold counts_as_admin in Hnone.
    apply orb_false_iff in Hnone as (_ & Hname). cbn [sqlval_eqb].
    rewrite String.eqb_sym. exact Hname. }
  unfold login.
  rewrite (login_credentials_select _ _ _ _ _ _ Hcred Hsel). cbn [user_password_hash row].
  rewrite Hcheck. cbn [negb reply_response reply_session reply_tokens status_of].
  split; [reflexivity|]. split; [reflexivity|]. split; [apply lookup_insert_eq|].
  intros acc func later tokens'' db'' Hsess.
  unfold privileged, session_or_token. rewrite Hsess. reflexivity.
Qed.

(** ** The CORS headers *)

Lemma header_values_app name h1 h2 :
  header_values name (h1 ++ h2) = header_values name h1 ++ header_values name h2.
Proof. unfold header_values. rewrite List.filter_app, List.map_app. reflexivity. Qed.

Lemma startswith_local (rest : string) :
  startswith ("http://127.0.0.1" +:+ rest) "http://127.0.0.1" = true.
Proof. unfold startswith. cbn. destruct rest; reflexivity. Qed.

(** X20.  [after_request] adds its four headers after the ones the
    response had and removes none.  The origin it allows, with
    credentials, always starts with [http://127.0.0.1]: it is the
    request's origin when that starts so, whatever follows (a port, or
    more of a host name), and [http://127.0.0.1:5000] otherwise. *)
Theorem after_request_allows_local_origin
    (origin : option string) (headers : list (string * string)) :
  exists allowed,
    after_request origin headers
    = headers
      ++ [("Access-Control-Allow-Origin", allowed);
          ("Access-Control-Allow-Credentials", "true");
          ("Access-Control-Allow-Headers", "Content-Type,Authorization");
          ("Access-Control-Allow-Methods", "GET,PUT,POST,DELETE,PATCH,OPTIONS")] /\
    header_values "Access-Control-Allow-Origin" (after_request origin headers)
    = header_values "Access-Control-Allow-Origin" headers ++ [allowed] /\
    startswith allowed "http://127.0.0.1" = true /\
    (forall rest, origin = Some ("http://127.0.0.1" +:+ rest) ->
                  allowed = "http://127.0.0.1" +:+ rest) /\
    (forall o, origin = Some o -> startswith o "http://127.0.0.1" = false ->
               allowed = "http://127.0.0.1:5000") /\
    (origin = None -> allowed = "http://127.0.0.1:5000").
Proof.
  unfold after_request.
  destruct origin as [o|].
  - destruct (negb (String.eqb o EmptyString) && startswith o "http://127.0.0.1")
      eqn:Hlocal.
    + exists o. rewrite <- app_assoc. split; [reflexivity|].
      split; [rewrite header_values_app; reflexivity|].
      apply andb_prop in Hlocal as (_ & Hstart).
      split; [exact Hstart|]. split; [|split].
      * intros rest H. injection H as ->. reflexivity.
      * intros o' H Hno. injection H as <-. congruence.
      * discriminate.
    + exists "http://127.0.0.1:5000". rewrite <- app_assoc. split; [reflexivity|].
      split; [rewrite header_values_app; reflexivity|].
      split; [reflexivity|]. split; [|split].
      * intros rest H. injection H as ->. exfalso.
        rewrite startswith_local, andb_true_r in Hlocal.
        apply negb_false_iff in Hlocal. discriminate.
      * intros; reflexivity.
      * intros; reflexivity.
  - exists "http://127.0.0.1:5000". rewrite <- app_assoc. split; [reflexivity|].
    split; [rewrite header_values_app; reflexivity|].
    split; [reflexivity|]. split; [|split]; [discriminate | discriminate | reflexivity].
Qed.

(** ** The [Authorization] header *)

Lemma split_space_piece (piece rest : string) :
  spaceless piece = true ->
  split_space (piece +:+ String " "%char rest) = piece :: split_space rest.
Proof.
  induction piece as [|c piece IH]; intros H.
  - cbn. reflexivity.
  - cbn in H. apply andb_prop in H as (Hc & Hpiece).
    apply negb_true_iff in Hc.
    change (String c piece +:+ String " "%char rest)
      with (String c (piece +:+ String " "%char rest)).
    cbn [split_space]. rewrite Hc, (IH Hpiece). reflexivity.
Qed.

Lemma bearer_prefix (rest : string) :
  split_space ("Bearer " +:+ rest) = "Bearer" :: split_space rest.
Proof. apply (split_space_piece "Bearer" rest). reflexivity. Qed.

(** X21.  How the bearer token is read off the header.  Only a header
    that starts with [Bearer ], spelled so, is looked at.  The token is
    what stands between that and the next space: anything after a
    further space is ignored, and a second space right after [Bearer ]
    makes the token the empty string. *)
Theorem bearer_header_reading (tokens : gmap string identity) :
  (forall token rest,
     spaceless token = true ->
     token_identity (Some ("Bearer " +:+ token +:+ String " "%char rest)) tokens
     = tokens !! token)
  /\
  (forall rest,
     token_identity (Some ("Bearer " +:+ String " "%char rest)) tokens
     = tokens !! EmptyString)
  /\
  (forall header,
     startswith header "Bearer " = false ->
     token_identity (Some header) tokens = None).
Proof.
  split; [|split].
  - intros token rest Hsp. unfold token_identity, bearer_token.
    rewrite bearer_prefix, (split_space_piece _ _ Hsp).
    replace (startswith ("Bearer " +:+ token +:+ String " "%char rest) "Bearer ")
      with true by (unfold startswith; cbn; destruct token; reflexivity).
    reflexivity.
  - intros rest. unfold token_identity, bearer_token.
    rewrite bearer_prefix. cbn [split_space Ascii.eqb Bool.eqb nth].
    replace (startswith ("Bearer " +:+ String " "%char rest) "Bearer ")
      with true by reflexivity.
    reflexivity.
  - intros header Hno. unfold token_identity. rewrite Hno, andb_false_r. reflexivity.
Qed.

(** ** A log row without a detail row *)

Lemma bind_param_error n v e :
  bind_param n v = inl e ->
  forall text, e <> IntegrityError text.
Proof.
  destruct v as [| flag | z | [] | s | l | f]; cbn; try discriminate.
  - destruct (in_int64 z); [discriminate|]. intros H text. injection H as <-.
    discriminate.
  - intros H text. injection H as <-. discriminate.
  - intros H text. injection H as <-. discriminate.
Qed.

(** X22.  The log of a line is written before the detail row is bound.
    When a line references a product and its note cannot be bound (a
    list or a dict), the request is answered 500 with the text of the
    binding error, and the log row of the line is in the database
    without a detail row for the line. *)
Theorem create_sale_log_without_detail
    (req : request) (tokens : gmap string identity) (db : database)
    customer before fields after user sale db1 db2 q p s e :
  sale_request req tokens customer (before ++ JObj fields :: after) user ->
  execute_insert_sale customer user db = (Normal sale, db1) ->
  for_each before (create_sale_item sale) db1 = (Normal tt, db2) ->
  truthy (dict_get fields "subtotal_cents") = true ->
  truthy (dict_get fields "product_id") = true ->
  dict_get fields "quantity" = JInt q -> q <> 0 -> in_int64 (- q) = true ->
  bind_param 1 (dict_get fields "product_id") = inr p ->
  bind_param 1 (dict_get fields "subtotal_cents") = inr s ->
  bind_param 4 (dict_get fields "note") = inl e ->
  let out := create_sale req tokens db in
  reply_response out = Response 500 (message ("Server error: " +:+ str_exn e)) /\
  inventory_logs (reply_db out)
  = inventory_logs db2
    ++ [mkLog (next_rowid (List.map log_id (inventory_logs db2))) "s" p (- q)
          (SText ("Automatic logging from sale #" +:+ pretty sale +:+ ": "
                  +:+ str (dict_get fields "note")))] /\
  sales_details (reply_db out) = sales_details db2.
Proof.
  intros Hreq Hins Hbefore Hs Hp Hq Hq0 Hrange Hbp Hbs Hbn out.
  subst out.
  set (lg := mkLog (next_rowid (List.map log_id (inventory_logs db2))) "s" p (- q)
               (SText ("Automatic logging from sale #" +:+ pretty sale +:+ ": "
                       +:+ str (dict_get fields "note")))).
  assert (Hitem : create_sale_item sale (JObj fields) db2
                  = (Raise e, set_inventory_logs db2 (inventory_logs db2 ++ [lg]))).
  { unfold create_sale_item, execute_insert_log, execute_insert_detail.
    cbn [get]. open_body. rewrite Hs, Hp, Hq. cbn [truthy negb neg].
    apply Z.eqb_neq in Hq0. rewrite Hq0. cbn [negb].
    rewrite Hbp. cbn [bind_param]. rewrite Hrange.
    rewrite Hbs, Hbn. reflexivity. }
  rewrite (create_sale_unfold _ _ _ _ _ db Hreq).
  rewrite (create_sale_raises_at _ _ _ _ _ _ _ _ _ _ _ _ _ Hreq Hins Hbefore Hitem).
  unfold create_sale_reply. cbn [fst snd reply_response reply_db].
  split; [|split; reflexivity].
  pose proof (bind_param_error _ _ _ Hbn) as Hnot.
  destruct e; try reflexivity. exfalso. apply (Hnot msg). reflexivity.
Qed.

(** ** What [create_sale] does not look at *)

Lemma ignores_ret {A} (a : A) : ignores_catalog (ret a).
Proof. intros cs ps db. reflexivity. Qed.

Lemma ignores_return {A} payload status : ignores_catalog (@return_ A payload status).
Proof. intros cs ps db. reflexivity. Qed.

Lemma ignores_raise {A} e : ignores_catalog (@raise A e).
Proof. intros cs ps db. reflexivity. Qed.

Lemma ignores_eval {A} (r : exn + A) : ignores_catalog (eval r).
Proof. destruct r; [apply ignores_raise | apply ignores_ret]. Qed.

Lemma ignores_bind {A B} (m : body A) (k : A -> body B) :
  ignores_catalog m -> (forall a, ignores_catalog (k a)) ->
  ignores_catalog (bind m k).
Proof.
  intros Hm Hk cs ps db. unfold bind. rewrite Hm.
  destruct (m db) as [[a|st p|e] db1]; cbn [fst snd]; [apply Hk | reflexivity..].
Qed.

Lemma ignores_when (c : bool) (m : body unit) :
  ignores_catalog m -> ignores_catalog (when c m).
Proof. destruct c; [auto | intros _; apply ignores_ret]. Qed.

Lemma ignores_for_each {A} (items : list A) (f : A -> body unit) :
  (forall item, ignores_catalog (f item)) -> ignores_catalog (for_each items f).
Proof.
  intros Hf. induction items as [|item rest IH]; cbn [for_each].
  - apply ignores_ret.
  - apply ignores_bind; [apply Hf | intros _; exact IH].
Qed.

Lemma ignores_try_except {A} (m : body A) (h : exn -> body A) :
  ignores_catalog m -> (forall e, ignores_catalog (h e)) ->
  ignores_catalog (try_except m h).
Proof.
  intros Hm Hh cs ps db. unfold try_except. rewrite Hm.
  destruct (m db) as [[a|st p|e] db1]; cbn [fst snd]; [reflexivity.. | apply Hh].
Qed.

Lemma ignores_with_database {A} (m : body A) :
  ignores_catalog m -> ignores_catalog (with_database m).
Proof.
  intros Hm cs ps db. unfold with_database. rewrite Hm.
  destruct (m db) as [[a|st p|e] db1]; reflexivity.
Qed.

Lemma create_sale_item_ignores sale item : ignores_catalog (create_sale_item sale item).
Proof.
  unfold create_sale_item, execute_insert_log, execute_insert_detail.
  repeat first
    [ apply ignores_bind; [|intros ?]
    | apply ignores_eval
    | apply ignores_when
    | apply ignores_return
    | apply ignores_ret
    | match goal with
      | |- ignores_catalog (if ?c then _ else _) => destruct c
      end
    | (intros cs ps db; reflexivity) ].
Qed.

Lemma create_sale_except_ignores {A} e : ignores_catalog (@create_sale_except A e).
Proof.
  unfold create_sale_except.
  destruct e; try apply ignores_return.
  destruct (contains "customer_id" (lower msg)); [apply ignores_return|].
  destruct (contains "product_id" (lower msg)); apply ignores_return.
Qed.

Lemma create_sale_body_ignores req tokens : ignores_catalog (create_sale_body req tokens).
Proof.
  unfold create_sale_body, create_sale_checks, create_sale_inserts, execute_insert_sale.
  repeat first
    [ apply ignores_bind; [|intros ?]
    | apply ignores_eval
    | apply ignores_when
    | apply ignores_return
    | apply ignores_ret
    | apply ignores_with_database
    | apply ignores_try_except; [|intros ?]
    | apply create_sale_except_ignores
    | apply ignores_for_each; intros ?; apply create_sale_item_ignores
    | match goal with
      | |- ignores_catalog (if ?c then _ else _) => destruct c
      | |- ignores_catalog (match ?c with _ => _ end) => destruct c
      | |- ignores_catalog (let '(_, _) := ?c in _) => destruct c
      end
    | (intros cs ps db; reflexivity) ].
Qed.

(** X24.  [create_sale] looks at neither [customers] nor [products]:
    whatever rows these tables hold, the answer is the same and the
    same rows are written.  A sale that names a customer or a product
    no row stands for is created like any other. *)
Theorem create_sale_ignores_catalog
    (req : request) (tokens : gmap string identity) (db : database)
    (cs : list customer_row) (ps : list product_row) :
  let out := create_sale req tokens db in
  let other := create_sale req tokens (with_catalog cs ps db) in
  reply_response other = reply_response out /\
  reply_db other = with_catalog cs ps (reply_db out).
Proof.
  intros out other. subst out other. unfold create_sale, serve.
  rewrite (create_sale_body_ignores req tokens cs ps db).
  destruct (create_sale_body req tokens db) as [[[]|st p|e] db1]; split; reflexivity.
Qed.

End Further.

(** * Further worked instances *)

(** ** X1 *)

Lemma privileged_unknown_role_witness :
  session_or_token (as_user stranger) ∅ = Some stranger
  /\ known_role (ident_role stranger) = false
  /\ privileged access_r logout (as_user stranger) ∅ shop
     = mkReply (Unhandled AssertionError) (Some stranger) ∅ shop.
Proof.
  split; [reflexivity|]. split; [reflexivity|].
  apply (privileged_unknown_role access_r logout (as_user stranger) ∅ shop stranger);
    reflexivity.
Defined.

(** ** X3 *)

Lemma update_sale_frame_witness :
  status_of (reply_response
               (update_sale None 1 (move_to (JList [JInt 2])) ∅ shop_after_sale))
  <> 200
  /\ reply_db (update_sale None 1 (move_to (JList [JInt 2])) ∅ shop_after_sale)
     = shop_after_sale.
Proof.
  assert (Hne : status_of
                  (reply_response
                     (update_sale None 1 (move_to (JList [JInt 2])) ∅
                        shop_after_sale)) <> 200)
    by (vm_compute; discriminate).
  split; [exact Hne|].
  destruct (update_sale_frame None 1 (move_to (JList [JInt 2])) ∅ shop_after_sale)
    as (_ & _ & _ & _ & _ & _ & _ & _ & _ & Hother).
  apply Hother. exact Hne.
Defined.

(** ** X4 *)

Lemma update_sale_success_witness :
  (forall c, In c (customers shop_after_sale) -> customer_id c <> 9)
  /\ reply_response (update_sale None 1 (move_to (JInt 9)) ∅ shop_after_sale)
     = Response 200 (message "Sale has been updated.")
  /\ forall r,
       In r (sales (reply_db (update_sale None 1 (move_to (JInt 9)) ∅ shop_after_sale))) ->
       sale_id r = 1 -> sale_customer_id r = SInt 9.
Proof.
  split; [intros c [<- | []]; discriminate|].
  destruct (update_sale_success None 1 (move_to (JInt 9)) ∅ shop_after_sale)
    as (Hstored & Haccepted).
  assert (Hok : reply_response (update_sale None 1 (move_to (JInt 9)) ∅ shop_after_sale)
                = Response 200 (message "Sale has been updated.")).
  { apply (Haccepted [("customer_id", JInt 9)] (SInt 9) (mkSale 1 (SInt 1) 2));
      [reflexivity | reflexivity | reflexivity | discriminate | reflexivity
      | left; reflexivity | reflexivity]. }
  split; [exact Hok|].
  destruct Hstored as (fields & c & Hj & _ & Hc & _ & _ & _ & _ & Hnow).
  { rewrite Hok. reflexivity. }
  injection Hj as <-. vm_compute in Hc. injection Hc as <-.
  exact Hnow.
Defined.

(** ** X5 *)

Lemma update_sale_refusals_witness :
  truthy (req_json (move_to (JInt 1))) = true
  /\ in_int64 7 = true
  /\ reply_response (update_sale None 7 (move_to (JInt 1)) ∅ shop)
     = Response 404 (message "Sale not found!")
  /\ reply_response
       (update_sale None 1 (as_clerk (JObj [("user_id", JInt 1)])) ∅
          shop_after_sale)
     = Response 400 (message "No valid fields to update!").
Proof.
  split; [reflexivity|]. split; [reflexivity|]. split.
  - destruct (update_sale_refusals None 7 (move_to (JInt 1)) ∅ shop)
      as (_ & Hmissing & _).
    apply Hmissing; [reflexivity | reflexivity | intros r []].
  - destruct (update_sale_refusals None 1
                (as_clerk (JObj [("user_id", JInt 1)])) ∅ shop_after_sale)
      as (_ & _ & Hnofield & _).
    apply (Hnofield [("user_id", JInt 1)] (mkSale 1 (SInt 1) 2));
      [reflexivity | discriminate | reflexivity | left; reflexivity
      | reflexivity | reflexivity].
Defined.

(** ** X6 *)

Lemma get_sale_reads_witness :
  in_int64 1 = true
  /\ reply_db (get_sale 1 (as_user reader) ∅ shop_after_sale) = shop_after_sale
  /\ exists details,
       reply_response (get_sale 1 (as_user reader) ∅ shop_after_sale)
       = Response 200
           (JObj [("id", JInt 1); ("customer_id", JInt 1); ("user_id", JInt 2);
                  ("details", JList details)]).
Proof.
  destruct (get_sale_reads 1 (as_user reader) ∅ shop_after_sale)
    as (Hdb & _ & _ & Hin).
  split; [reflexivity|]. split; [exact Hdb|].
  destruct (Hin eq_refl) as (_ & Hfound).
  apply (Hfound (mkSale 1 (SInt 1) 2)). reflexivity.
Defined.

(** ** X7 *)

Lemma get_sale_after_delete_witness :
  in_int64 1 = true
  /\ reply_response
       (get_sale 1 (as_user reader) ∅
          (reply_db (delete_sale 1 (as_user admin) ∅ shop_after_sale)))
     = Response 404 (message "Sale is not found!").
Proof.
  split; [reflexivity|].
  apply (get_sale_after_delete 1 (as_user admin) (as_user reader) ∅ ∅ shop_after_sale).
  reflexivity.
Defined.

(** ** X8 *)

Lemma get_sale_after_update_witness :
  status_of (reply_response
               (update_sale None 1 (move_to (JInt 2)) ∅
                  shop_of_two_after_sale)) = 200
  /\ exists user details,
       reply_response
         (get_sale 1 (as_user reader) ∅
            (reply_db (update_sale None 1 (move_to (JInt 2)) ∅
                         shop_of_two_after_sale)))
       = Response 200
           (JObj [("id", JInt 1); ("customer_id", JInt 2);
                  ("user_id", JInt user); ("details", JList details)]).
Proof.
  split; [reflexivity|].
  destruct (get_sale_after_update None 1 (move_to (JInt 2))
              (as_user reader) ∅ ∅ shop_of_two_after_sale eq_refl)
    as (fields & c & old & user & details & Hj & Hc & _ & Hafter).
  injection Hj as <-. vm_compute in Hc. injection Hc as <-.
  exists user, details. exact Hafter.
Defined.

(** ** X9 *)

Lemma delete_undoes_create_witness :
  details_reference_sales shop
  /\ in_int64 1 = true
  /\ reply_db (delete_sale 1 (as_user admin) ∅
                 (reply_db (create_sale two_lines ∅ shop)))
     = shop.
Proof.
  assert (Href : details_reference_sales shop) by (intros d []).
  split; [exact Href|]. split; [reflexivity|].
  apply (delete_undoes_create two_lines (as_user admin) ∅ ∅ shop 1
           eq_refl Href eq_refl).
Defined.

(** ** X10 *)

Lemma delete_sale_missing_unchanged_witness :
  details_reference_sales shop
  /\ reply_db (delete_sale 7 (as_user admin) ∅ shop) = shop.
Proof.
  assert (Href : details_reference_sales shop) by (intros d []).
  split; [exact Href|].
  apply (delete_sale_missing_unchanged 7 (as_user admin) ∅ shop Href).
  intros r [].
Defined.

(** ** X11 *)

Lemma details_always_reference_sales_witness :
  details_reference_sales shop
  /\ details_reference_sales
       (snd (serve_all plain_check None sell_then_delete ∅ shop)).
Proof.
  assert (Href : details_reference_sales shop) by (intros d []).
  split; [exact Href|].
  apply (details_always_reference_sales plain_check None
           sell_then_delete ∅ shop Href).
Defined.

(** ** X13 *)

Lemma tokens_never_revoked_witness :
  let tokens : gmap string identity := {["t0k-En_1" := clerk]} in
  tokens !! "t0k-En_1" = Some clerk
  /\ fst (serve_all plain_check None logout_then_login tokens shop)
     !! "t0k-En_1" = Some clerk.
Proof.
  intros tokens. split; [reflexivity|].
  destruct (tokens_never_revoked plain_check None logout_then_login
              tokens shop "t0k-En_1" clerk eq_refl) as (_ & Hsame).
  apply Hsame. intros req [H | [H | []]]; discriminate.
Defined.

(** ** X14 *)

Lemma create_sale_endpoint_records_caller_witness :
  status_of (reply_response (create_sale_endpoint two_lines ∅ shop)) = 201
  /\ exists c,
       In (mkSale 1 c (ident_id clerk))
          (sales (reply_db (create_sale_endpoint two_lines ∅ shop))).
Proof.
  split; [reflexivity|].
  destruct (create_sale_endpoint_records_caller two_lines ∅ shop eq_refl)
    as (u & sale & c & Hu & _ & Hresp & Hin & _).
  injection Hu as <-. vm_compute in Hresp. injection Hresp as <-.
  exists c. exact Hin.
Defined.

(** ** X15 *)

Lemma login_sound_witness :
  status_of (reply_response (login plain_check "t0k-En_1" (login_as "clerk" "secret") ∅ shop))
  = 200
  /\ exists u,
       In u (users shop) /\ user_username u = "clerk" /\
       reply_session (login plain_check "t0k-En_1" (login_as "clerk" "secret") ∅ shop)
       = Some (identity_of u).
Proof.
  split; [reflexivity|].
  destruct (login_sound plain_check "t0k-En_1" (login_as "clerk" "secret") ∅ shop)
    as (_ & Hok).
  destruct (Hok eq_refl) as (fields & name & u & Hj & Hname & Hin & Hu & _ & Hsess & _).
  injection Hj as <-. vm_compute in Hname. injection Hname as <-.
  exists u. auto.
Defined.

(** ** X16 *)

Lemma init_database_bootstrap_witness :
  users (snd (init_database schema_in_place "$2b$12$hash" empty_database))
  = [mkUser 1 "admin" "$2b$12$hash" "a"]
  /\ snd (init_database schema_in_place "$2b$12$hash" shop) = shop.
Proof.
  split.
  - destruct (init_database_bootstrap schema_in_place "$2b$12$hash" empty_database)
      as (_ & _ & _ & _ & _ & _ & Hnew & _).
    apply Hnew. intros u [].
  - destruct (init_database_bootstrap schema_in_place "$2b$12$hash" shop)
      as (_ & _ & _ & _ & _ & _ & _ & Hkept & _).
    apply Hkept. exists (mkUser 1 "admin" "admin" "a").
    split; [left; reflexivity | reflexivity].
Defined.

(** ** X17 *)

Lemma init_database_once_witness :
  (forall d, users (schema_in_place d) = users d)
  /\ users (snd (init_database schema_in_place "$2b$12$second"
                   (snd (init_database schema_in_place "$2b$12$first" empty_database))))
     = users (snd (init_database schema_in_place "$2b$12$first" empty_database)).
Proof.
  assert (Hschema : forall d, users (schema_in_place d) = users d) by reflexivity.
  split; [exact Hschema|].
  apply (init_database_once schema_in_place "$2b$12$first" "$2b$12$second"
           empty_database Hschema).
Defined.

(** ** X18 *)

Lemma init_database_name_taken_witness :
  (exists u, In u (users (schema_in_place admin_in_name_only)) /\ user_username u = "admin")
  /\ forall u,
       In u (users (snd (init_database schema_in_place "$2b$12$hash" admin_in_name_only))) ->
       user_role u <> "a".
Proof.
  assert (Hnamed : exists u, In u (users (schema_in_place admin_in_name_only)) /\
                             user_username u = "admin").
  { exists (mkUser 1 "admin" "x" "r"). split; [left; reflexivity | reflexivity]. }
  split; [exact Hnamed|].
  apply (init_database_name_taken schema_in_place "$2b$12$hash" admin_in_name_only Hnamed).
  intros u [<- | []]. discriminate.
Defined.

(** ** X19 *)

Lemma bootstrap_admin_logs_in_witness :
  plain_check "admin" (JStr "admin") = inr true
  /\ status_of
       (reply_response
          (login plain_check "t0k-En_1" (login_as "admin" "admin") ∅
             (snd (init_database schema_in_place "admin" empty_database))))
     = 200
  /\ reply_session
       (login plain_check "t0k-En_1" (login_as "admin" "admin") ∅
          (snd (init_database schema_in_place "admin" empty_database)))
     = Some (mkIdentity 1 "admin" "a").
Proof.
  split; [reflexivity|].
  destruct (bootstrap_admin_logs_in plain_check schema_in_place "admin" "t0k-En_1"
              (login_as "admin" "admin")
              [("username", JStr "admin"); ("password", JStr "admin")]
              ∅ empty_database)
    as (Hstatus & Hsession & _); try reflexivity.
  - intros u [].
  - split; [exact Hstatus | exact Hsession].
Defined.

(** ** X20 *)

Lemma after_request_allows_local_origin_witness :
  header_values "Access-Control-Allow-Origin"
    (after_request (Some "http://127.0.0.1.elsewhere.example") [])
  = ["http://127.0.0.1.elsewhere.example"]
  /\ header_values "Access-Control-Allow-Origin"
       (after_request (Some "https://shop.example") [])
     = ["http://127.0.0.1:5000"].
Proof.
  split.
  - destruct (after_request_allows_local_origin
                (Some "http://127.0.0.1.elsewhere.example") [])
      as (allowed & _ & Hvalues & _ & Hecho & _).
    rewrite Hvalues, (Hecho ".elsewhere.example" eq_refl). reflexivity.
  - destruct (after_request_allows_local_origin (Some "https://shop.example") [])
      as (allowed & _ & Hvalues & _ & _ & Hother & _).
    rewrite Hvalues, (Hother "https://shop.example" eq_refl eq_refl). reflexivity.
Defined.

(** ** X21 *)

Lemma bearer_header_reading_witness :
  let tokens : gmap string identity := {["t0k-En_1" := clerk]} in
  spaceless "t0k-En_1" = true
  /\ token_identity (Some "Bearer t0k-En_1 and more") tokens = Some clerk
  /\ token_identity (Some "bearer t0k-En_1") tokens = None.
Proof.
  intros tokens. split; [reflexivity|].
  destruct (bearer_header_reading tokens) as (Hjunk & _ & Hscheme).
  split.
  - apply (Hjunk "t0k-En_1" "and more" eq_refl).
  - apply (Hscheme "bearer t0k-En_1" eq_refl).
Defined.

(** ** X22 *)

Lemma create_sale_log_without_detail_witness :
  reply_response (create_sale note_as_list ∅ shop)
  = Response 500
      (message "Server error: Error binding parameter 4: type 'list' is not supported")
  /\ List.length (inventory_logs (reply_db (create_sale note_as_list ∅ shop)))
     = 1%nat
  /\ sales_details (reply_db (create_sale note_as_list ∅ shop)) = [].
Proof.
  assert (Hreq : sale_request note_as_list ∅ (JInt 1)
                   ([] ++ JObj [("product_id", JInt 5); ("quantity", JInt 2);
                                ("subtotal_cents", JInt 500);
                                ("note", JList [JStr "gift"])] :: []) 2).
  { eexists. split; [reflexivity|]. split; [reflexivity|]. split; [reflexivity|].
    split; [reflexivity|]. split; [discriminate|]. split; [reflexivity|discriminate]. }
  destruct (create_sale_log_without_detail note_as_list ∅ shop
              _ _ _ _ _ 1 (set_sales shop [mkSale 1 (SInt 1) 2])
              (set_sales shop [mkSale 1 (SInt 1) 2]) 2 (SInt 5) (SInt 500)
              (ProgrammingError "Error binding parameter 4: type 'list' is not supported")
              Hreq eq_refl eq_refl eq_refl eq_refl eq_refl)
    as (Hresp & Hlogs & Hdetails); try reflexivity; try discriminate.
  split; [exact Hresp|]. split; [rewrite Hlogs; reflexivity | exact Hdetails].
Defined.

(** ** X24 *)

Lemma create_sale_ignores_catalog_witness :
  (forall c, In c (customers shop) -> customer_id c <> 9)
  /\ reply_response (create_sale unknown_customer ∅ shop)
     = Response 201
         (JObj [("message", JStr "Sale has been created."); ("id", JInt 1)])
  /\ sales (reply_db (create_sale unknown_customer ∅ shop)) = [mkSale 1 (SInt 9) 2].
Proof.
  split; [intros c [<- | []]; discriminate|].
  destruct (create_sale_ignores_catalog unknown_customer ∅
              (with_catalog [mkCustomer 9 "Zed"] (products shop) shop)
              (customers shop) (products shop))
    as (Hresp & Hdb).
  change (with_catalog (customers shop) (products shop)
            (with_catalog [mkCustomer 9 "Zed"] (products shop) shop))
    with shop in Hresp, Hdb.
  split; [rewrite Hresp | rewrite Hdb]; reflexivity.
Defined.

